(** * data-api-codec: a shallow embedding of [index.js]

    The module converts native JavaScript values into the tagged wire format
    of the Aurora Data API ([formatParameters]) and back ([formatResponse]).
    The code is dynamically typed, so the embedding works over one type
    [value] of JavaScript values; the built-in operations the module calls
    ([typeof], [Object.keys], [parseInt], [Date], ...) are given first, then
    the functions of [index.js] in the order of the file, then the
    properties. *)

From Stdlib Require Import ZArith List String Ascii Bool Lia DecimalString.
From Stdlib Require DecimalFacts DecimalPos DecimalN.
Import ListNotations.

Set Warnings "-register-all".

Open Scope string_scope.
Open Scope Z_scope.

(* ================================================================== *)
(** * Numbers *)

(** A JavaScript number is [NaN], an infinity, or a finite value, kept here
    as an exact decimal [m * 10^e].  Binary rounding is not represented:
    the module never computes with fractions, it only prints numbers and
    reads them back ([parseInt], [parseFloat]) and compares. *)
Inductive number : Set :=
| NaN
| Infinity (negative : bool)
| Finite (m e : Z).

Definition num_of_Z (z : Z) : number := Finite z 0.
Definition num_of_nat (n : nat) : number := Finite (Z.of_nat n) 0.

(** Order of two finite values, after aligning the exponents. *)
Definition fin_compare (m1 e1 m2 e2 : Z) : comparison :=
  let e := Z.min e1 e2 in
  (m1 * 10 ^ (e1 - e)) ?= (m2 * 10 ^ (e2 - e)).

(** [a === b] on numbers: [NaN] differs from everything, itself included. *)
Definition num_eqb (a b : number) : bool :=
  match a, b with
  | Infinity s1, Infinity s2 => Bool.eqb s1 s2
  | Finite m1 e1, Finite m2 e2 =>
      match fin_compare m1 e1 m2 e2 with Eq => true | _ => false end
  | _, _ => false
  end.

(** [a < b] on numbers; any comparison with [NaN] is false. *)
Definition num_ltb (a b : number) : bool :=
  match a, b with
  | NaN, _ | _, NaN => false
  | Infinity s1, Infinity s2 => s1 && negb s2
  | Infinity s, Finite _ _ => s
  | Finite _ _, Infinity s => negb s
  | Finite m1 e1, Finite m2 e2 =>
      match fin_compare m1 e1 m2 e2 with Lt => true | _ => false end
  end.

Definition num_leb (a b : number) : bool := num_ltb a b || num_eqb a b.

(** [a + b]. *)
Definition num_add (a b : number) : number :=
  match a, b with
  | NaN, _ | _, NaN => NaN
  | Infinity s1, Infinity s2 => if Bool.eqb s1 s2 then Infinity s1 else NaN
  | Infinity s, Finite _ _ | Finite _ _, Infinity s => Infinity s
  | Finite m1 e1, Finite m2 e2 =>
      let e := Z.min e1 e2 in
      Finite (m1 * 10 ^ (e1 - e) + m2 * 10 ^ (e2 - e)) e
  end.

Definition num_is_zero (a : number) : bool :=
  match a with Finite 0 _ => true | _ => false end.

(* ------------------------------------------------------------------ *)
(** ** Strings of digits *)

Definition digits_of_N (n : N) : string :=
  NilZero.string_of_uint (N.to_uint n).

Definition string_of_nat (n : nat) : string := digits_of_N (N.of_nat n).

Definition is_digit (c : ascii) : bool :=
  let n := nat_of_ascii c in (48 <=? n)%nat && (n <=? 57)%nat.

Definition digit_val (c : ascii) : Z := Z.of_nat (nat_of_ascii c) - 48.

(** Value of a string of decimal digits, most significant first. *)
Fixpoint digits_val_acc (acc : Z) (s : string) : Z :=
  match s with
  | "" => acc
  | String c r => digits_val_acc (10 * acc + digit_val c) r
  end.

Definition digits_val (s : string) : Z := digits_val_acc 0 s.

(** Longest prefix of decimal digits, and what follows it. *)
Fixpoint span_digits (s : string) : string * string :=
  match s with
  | String c r =>
      if is_digit c
      then let (d, rest) := span_digits r in (String c d, rest)
      else ("", s)
  | "" => ("", "")
  end.

Fixpoint zeros (n : nat) : string :=
  match n with O => "" | S k => String "0" (zeros k) end.

(** [s] without its trailing zeros, and how many were removed. *)
Fixpoint strip_zeros (s : string) : string * nat :=
  match s with
  | "" => ("", O)
  | String c r =>
      let (r', k) := strip_zeros r in
      if (r' =? "")%string && (c =? "0")%char
      then ("", S k)
      else (String c r', k)
  end.

Definition take (n : nat) (s : string) : string := substring 0 n s.
Definition drop (n : nat) (s : string) : string :=
  substring n (String.length s - n) s.

(** ** [Number::toString] (radix 10), ECMA-262 6.1.6.1.20 *)
Definition Number_toString (x : number) : string :=
  match x with
  | NaN => "NaN"
  | Infinity false => "Infinity"
  | Infinity true => "-Infinity"
  | Finite 0 _ => "0"
  | Finite m e =>
      let (d, z) := strip_zeros (digits_of_N (Z.to_N (Z.abs m))) in
      let k := Z.of_nat (String.length d) in
      let n := k + (e + Z.of_nat z) in
      let body :=
        if (k <=? n) && (n <=? 21) then d ++ zeros (Z.to_nat (n - k))
        else if (0 <? n) && (n <=? 21)
             then take (Z.to_nat n) d ++ "." ++ drop (Z.to_nat n) d
        else if (-6 <? n) && (n <=? 0) then "0." ++ zeros (Z.to_nat (- n)) ++ d
        else
          let ex := n - 1 in
          let mant := if k =? 1 then d else take 1 d ++ "." ++ drop 1 d in
          mant ++ "e" ++ (if ex <? 0 then "-" else "+")
               ++ digits_of_N (Z.to_N (Z.abs ex)) in
      if m <? 0 then "-" ++ body else body
  end.

(** White space skipped by [parseInt] and [parseFloat] (the ASCII part of
    [StrWhiteSpaceChar]). *)
Definition is_space (c : ascii) : bool :=
  let n := nat_of_ascii c in
  ((9 <=? n)%nat && (n <=? 13)%nat) || (n =? 32)%nat.

Fixpoint trim_left (s : string) : string :=
  match s with
  | String c r => if is_space c then trim_left r else s
  | "" => ""
  end.

(** An optional sign: [true] for a minus. *)
Definition read_sign (s : string) : bool * string :=
  match s with
  | String "-" r => (true, r)
  | String "+" r => (false, r)
  | _ => (false, s)
  end.

Definition hex_val (c : ascii) : option Z :=
  let n := nat_of_ascii c in
  if is_digit c then Some (Z.of_nat n - 48)
  else if (97 <=? n)%nat && (n <=? 102)%nat then Some (Z.of_nat n - 87)
  else if (65 <=? n)%nat && (n <=? 70)%nat then Some (Z.of_nat n - 55)
  else None.

(** Value of the longest prefix of hexadecimal digits; [None] without one. *)
Fixpoint hex_prefix (acc : option Z) (s : string) : option Z :=
  match s with
  | String c r =>
      match hex_val c with
      | Some v =>
          hex_prefix (Some (16 * match acc with Some a => a | None => 0 end + v)) r
      | None => acc
      end
  | "" => acc
  end.

Fixpoint starts_with (p s : string) : bool :=
  match p, s with
  | "", _ => true
  | String a p', String b s' => (a =? b)%char && starts_with p' s'
  | String _ _, "" => false
  end.

(** ** [parseInt(string)] with the radix left out, ECMA-262 19.2.5 *)
Definition parseInt (input : string) : number :=
  let (neg, s) := read_sign (trim_left input) in
  let signed (z : Z) := Finite (if neg then - z else z) 0 in
  if starts_with "0x" s || starts_with "0X" s then
    match hex_prefix None (drop 2 s) with
    | Some z => signed z
    | None => NaN
    end
  else
    match span_digits s with
    | ("", _) => NaN
    | (d, _) => signed (digits_val d)
    end.

(** The exponent part of a decimal literal, when it is complete. *)
Definition read_exponent (s : string) : Z :=
  match s with
  | String ("e" | "E")%char r =>
      let (neg, r') := read_sign r in
      match span_digits r' with
      | ("", _) => 0
      | (d, _) => if neg then - digits_val d else digits_val d
      end
  | _ => 0
  end.

(** ** [parseFloat(string)], ECMA-262 19.2.4: the longest prefix that is a
    [StrDecimalLiteral]. *)
Definition parseFloat (input : string) : number :=
  let (neg, s) := read_sign (trim_left input) in
  if starts_with "Infinity" s then Infinity neg
  else
    let (ip, r1) := span_digits s in
    let (fp, r2) :=
      match r1 with
      | String "." r => span_digits r
      | _ => ("", r1)
      end in
    let after := match r1 with
                 | String "." _ =>
                     if ((ip =? "") && (fp =? ""))%string then r1 else r2
                 | _ => r1
                 end in
    if ((ip =? "") && (fp =? ""))%string then NaN
    else
      let m := digits_val (ip ++ fp) in
      let e := read_exponent after - Z.of_nat (String.length fp) in
      Finite (if neg then - m else m) e.

(* ================================================================== *)
(** * Values and outcomes *)

(** JavaScript values as the module meets them.  An object is the list of
    its own enumerable properties in the order [Object.keys] reports them;
    a [Date] holds its time value in milliseconds since the epoch ([None]
    for an invalid date); functions and symbols are opaque. *)
Inductive value : Type :=
| VUndefined
| VNull
| VBool (b : bool)
| VNum (n : number)
| VStr (s : string)
| VSymbol
| VFunction
| VDate (t : option Z)
| VBuffer (bytes : list Byte.byte)
| VArr (elems : list value)
| VObj (props : list (string * value)).

(** What a call can throw.  [Error] is the module's own [throw Error(msg)];
    [TypeError] and [RangeError] come from the language.  [Unmodelled] marks
    the few places where the result depends on text or code this model does
    not hold (the string form of a date, a buffer or a function, inherited
    members); nothing below is proved about that outcome. *)
Inductive exn : Type :=
| Error (msg : string)
| TypeError
| RangeError
| Unmodelled.

Inductive result (A : Type) : Type :=
| Ok (a : A)
| Throw (e : exn).

Arguments Ok {A} a.
Arguments Throw {A} e.

Definition bind {A B} (r : result A) (k : A -> result B) : result B :=
  match r with
  | Ok a => k a
  | Throw e => Throw e
  end.

Declare Scope js_scope.
Delimit Scope js_scope with js.
Notation "x <- r ;; k" := (bind r (fun x => k))
  (at level 61, r at next level, right associativity) : js_scope.
Open Scope js_scope.

(** The module's [error] helper. *)
Definition error {A} (msg : string) : result A := Throw (Error msg).

(** [reduce] with a callback that can throw; [foldMi] also hands the
    callback the index of the element. *)
Section Reduce.
Context {A B : Type}.

Section Plain.
Variable f : B -> A -> result B.

Fixpoint foldM (l : list A) (acc : B) : result B :=
  match l with
  | [] => Ok acc
  | x :: r => acc' <- f acc x ;; foldM r acc'
  end.

End Plain.

Section Indexed.
Variable f : B -> A -> nat -> result B.

Fixpoint foldMi_from (i : nat) (l : list A) (acc : B) : result B :=
  match l with
  | [] => Ok acc
  | x :: r => acc' <- f acc x i ;; foldMi_from (S i) r acc'
  end.

Definition foldMi : list A -> B -> result B := foldMi_from O.

End Indexed.
End Reduce.

(* ------------------------------------------------------------------ *)
(** ** Operators *)

Definition typeof (v : value) : string :=
  match v with
  | VUndefined => "undefined"
  | VBool _ => "boolean"
  | VNum _ => "number"
  | VStr _ => "string"
  | VSymbol => "symbol"
  | VFunction => "function"
  | VNull | VDate _ | VBuffer _ | VArr _ | VObj _ => "object"
  end.

(** Truthiness of a value in a condition. *)
Definition truthy (v : value) : bool :=
  match v with
  | VUndefined | VNull => false
  | VBool b => b
  | VNum NaN => false
  | VNum n => negb (num_is_zero n)
  | VStr s => negb (s =? "")%string
  | _ => true
  end.

Definition Array_isArray (v : value) : bool :=
  match v with VArr _ => true | _ => false end.

Definition Buffer_isBuffer (v : value) : bool :=
  match v with VBuffer _ => true | _ => false end.

(** [v === 'text'], [v === true], [v === null], [v === undefined]: the only
    strict comparisons the module makes are against these constants and
    between numbers. *)
Definition is_str (v : value) (s : string) : bool :=
  match v with VStr s' => (s' =? s)%string | _ => false end.

Definition is_true (v : value) : bool :=
  match v with VBool true => true | _ => false end.

Definition is_false (v : value) : bool :=
  match v with VBool false => true | _ => false end.

Definition is_null (v : value) : bool :=
  match v with VNull => true | _ => false end.

Definition is_undefined (v : value) : bool :=
  match v with VUndefined => true | _ => false end.

(** [a && b] and [a || b]: the right operand is only looked at when the
    left one does not decide. *)
Definition and_also (a b : result value) : result value :=
  x <- a ;; if truthy x then b else Ok x.

Definition or_else (a b : result value) : result value :=
  x <- a ;; if truthy x then Ok x else b.

Infix "&&&" := and_also (at level 40, left associativity) : js_scope.
Infix "|||" := or_else (at level 50, left associativity) : js_scope.

(* ------------------------------------------------------------------ *)
(** ** Properties *)

Fixpoint lookup (k : string) (props : list (string * value)) : option value :=
  match props with
  | [] => None
  | (k', v) :: r => if (k' =? k)%string then Some v else lookup k r
  end.

(** Assignment of one property: an existing key keeps its place. *)
Fixpoint set_prop (k : string) (v : value) (props : list (string * value))
  : list (string * value) :=
  match props with
  | [] => [(k, v)]
  | (k', v') :: r =>
      if (k' =? k)%string then (k, v) :: r else (k', v') :: set_prop k v r
  end.

(** [Object.assign(target, source)] on property lists. *)
Definition Object_assign (target source : list (string * value))
  : list (string * value) :=
  fold_left (fun acc kv => set_prop (fst kv) (snd kv) acc) source target.

(** Members every plain object inherits from [Object.prototype]. *)
Definition Object_prototype_members : list string :=
  [ "constructor"; "__proto__"; "hasOwnProperty"; "isPrototypeOf";
    "propertyIsEnumerable"; "toLocaleString"; "toString"; "valueOf";
    "__defineGetter__"; "__defineSetter__"; "__lookupGetter__";
    "__lookupSetter__" ].

(** The property names the module reads by name; no built-in prototype of a
    non-function value has a member of one of these names ([length] is an
    own property of arrays, strings and buffers, and is answered there). *)
Definition plain_names : list string :=
  [ "parameters"; "name"; "value"; "cast"; "isNull"; "label"; "typeName";
    "field"; "longValue"; "generatedFields"; "columnMetadata";
    "numberOfRecordsUpdated"; "records"; "updateResults"; "engine";
    "hydrateColumnNames"; "formatOptions"; "deserializeDate";
    "treatAsLocalDate"; "length"; "undefined" ].

Definition mem_string (s : string) (l : list string) : bool :=
  existsb (fun x => (x =? s)%string) l.

(** An array index written as a property key. *)
Definition index_of_key (k : string) : option nat :=
  match k with
  | "" => None
  | _ =>
      match span_digits k with
      | (d, "") =>
          let i := Z.to_nat (digits_val d) in
          if (string_of_nat i =? k)%string then Some i else None
      | _ => None
      end
  end.

Definition string_at (s : string) (i : nat) : value :=
  match String.get i s with
  | Some c => VStr (String c "")
  | None => VUndefined
  end.

Definition byte_value (b : Byte.byte) : value :=
  VNum (Finite (Z.of_N (Byte.to_N b)) 0).

(** A key that is not an own property: [undefined] when nothing inherited
    can answer to it. *)
Definition absent (k : string) : result value :=
  if mem_string k plain_names then Ok VUndefined else Throw Unmodelled.

(** [v[k]] for a string key. *)
Definition get_prop (v : value) (k : string) : result value :=
  match v with
  | VUndefined | VNull => Throw TypeError
  | VObj props =>
      match lookup k props with
      | Some x => Ok x
      | None =>
          if mem_string k Object_prototype_members
          then Throw Unmodelled else Ok VUndefined
      end
  | VArr l =>
      if (k =? "length")%string then Ok (VNum (num_of_nat (List.length l)))
      else match index_of_key k with
           | Some i => Ok (nth i l VUndefined)
           | None => absent k
           end
  | VStr s =>
      if (k =? "length")%string then Ok (VNum (num_of_nat (String.length s)))
      else match index_of_key k with
           | Some i => Ok (string_at s i)
           | None => absent k
           end
  | VBuffer b =>
      if (k =? "length")%string then Ok (VNum (num_of_nat (List.length b)))
      else match index_of_key k with
           | Some i => Ok (nth i (map byte_value b) VUndefined)
           | None => absent k
           end
  | VFunction => Throw Unmodelled
  | VBool _ | VNum _ | VSymbol | VDate _ =>
      match index_of_key k with
      | Some _ => Ok VUndefined
      | None => absent k
      end
  end.

(** [v[i]] for a number [i]: an element of an array, a string or a buffer,
    the property of that name of an object. *)
Definition get_index (v : value) (i : nat) : result value :=
  match v with
  | VArr l => Ok (nth i l VUndefined)
  | VStr s => Ok (string_at s i)
  | VBuffer b => Ok (nth i (map byte_value b) VUndefined)
  | _ => get_prop v (string_of_nat i)
  end.

Definition index_keys (n : nat) : list string := map string_of_nat (seq 0 n).

(** [Object.keys(v)]. *)
Definition Object_keys (v : value) : result (list string) :=
  match v with
  | VUndefined | VNull => Throw TypeError
  | VObj props => Ok (map fst props)
  | VArr l => Ok (index_keys (List.length l))
  | VStr s => Ok (index_keys (String.length s))
  | VBuffer b => Ok (index_keys (List.length b))
  | VBool _ | VNum _ | VSymbol | VFunction | VDate _ => Ok []
  end.

(** [acc.concat(x)]: an array argument is spread, anything else appended. *)
Definition Array_concat (acc : list value) (x : value) : list value :=
  match x with
  | VArr l => acc ++ l
  | _ => acc ++ [x]
  end.

(** The receiver of a call to an array method ([map], [reduce]). *)
Definition array_receiver (method : string) (v : value)
  : result (list value) :=
  match v with
  | VArr l => Ok l
  | VUndefined | VNull => Throw TypeError
  | VBuffer _ | VFunction => Throw Unmodelled
  | VObj props =>
      match lookup method props with
      | Some VFunction => Throw Unmodelled
      | _ => Throw TypeError
      end
  | _ => Throw TypeError
  end.

(* ------------------------------------------------------------------ *)
(** ** Conversion to string *)

Definition join_with (sep : string) (l : list string) : string :=
  match l with
  | [] => ""
  | x :: r => fold_left (fun acc y => acc ++ sep ++ y) r x
  end.

(** [ToString(v)], as used by template literals, [+ ''], [RegExp.test] and
    computed keys. *)
Fixpoint ToString (v : value) : result string :=
  match v with
  | VUndefined => Ok "undefined"
  | VNull => Ok "null"
  | VBool true => Ok "true"
  | VBool false => Ok "false"
  | VNum n => Ok (Number_toString n)
  | VStr s => Ok s
  | VSymbol => Throw TypeError
  | VArr l =>
      parts <- (fix each (l : list value) : result (list string) :=
                  match l with
                  | [] => Ok []
                  | x :: r =>
                      s <- match x with
                           | VUndefined | VNull => Ok ""
                           | _ => ToString x
                           end ;;
                      rest <- each r ;;
                      Ok (s :: rest)
                  end) l ;;
      Ok (join_with "," parts)
  | VObj props =>
      match lookup "toString" props, lookup "valueOf" props with
      | None, None => Ok "[object Object]"
      | _, _ => Throw Unmodelled
      end
  | VDate _ | VBuffer _ | VFunction => Throw Unmodelled
  end.

(** [ToPropertyKey(v)]: objects here have string keys only. *)
Definition ToPropertyKey (v : value) : result string :=
  match v with
  | VSymbol => Throw Unmodelled
  | _ => ToString v
  end.

(* ================================================================== *)
(** * Dates *)

(** ** Calendar arithmetic of ECMA-262 21.4.1 *)

Definition msPerDay : Z := 86400000.
Definition msPerHour : Z := 3600000.
Definition msPerMinute : Z := 60000.
Definition msPerSecond : Z := 1000.

Definition Day (t : Z) : Z := t / msPerDay.

Definition is_leap (y : Z) : bool :=
  ((y mod 4 =? 0) && negb (y mod 100 =? 0)) || (y mod 400 =? 0).

Definition DaysInYear (y : Z) : Z := if is_leap y then 366 else 365.

Definition DayFromYear (y : Z) : Z :=
  365 * (y - 1970) + (y - 1969) / 4 - (y - 1901) / 100 + (y - 1601) / 400.

(** The year a day number falls in: the largest [y] with
    [DayFromYear y <= day].  The estimate from the mean year length is off
    by one at most. *)
Definition YearFromDay (day : Z) : Z :=
  let y := 1970 + (400 * day) / 146097 in
  if day <? DayFromYear y then y - 1
  else if DayFromYear (y + 1) <=? day then y + 1
  else y.

Definition YearFromTime (t : Z) : Z := YearFromDay (Day t).

Definition DayWithinYear (t : Z) : Z := Day t - DayFromYear (YearFromTime t).

Definition InLeapYear (t : Z) : Z :=
  if is_leap (YearFromTime t) then 1 else 0.

(** Day of the year on which month [m] (0 to 11) starts. *)
Definition month_start (leap m : Z) : Z :=
  match m with
  | 0 => 0
  | 1 => 31
  | 2 => 59 + leap
  | 3 => 90 + leap
  | 4 => 120 + leap
  | 5 => 151 + leap
  | 6 => 181 + leap
  | 7 => 212 + leap
  | 8 => 243 + leap
  | 9 => 273 + leap
  | 10 => 304 + leap
  | 11 => 334 + leap
  | _ => 365 + leap
  end.

Definition MonthFromTime (t : Z) : Z :=
  let d := DayWithinYear t in
  let leap := InLeapYear t in
  if d <? 31 then 0
  else if d <? 59 + leap then 1
  else if d <? 90 + leap then 2
  else if d <? 120 + leap then 3
  else if d <? 151 + leap then 4
  else if d <? 181 + leap then 5
  else if d <? 212 + leap then 6
  else if d <? 243 + leap then 7
  else if d <? 273 + leap then 8
  else if d <? 304 + leap then 9
  else if d <? 334 + leap then 10
  else 11.

Definition DateFromTime (t : Z) : Z :=
  DayWithinYear t - month_start (InLeapYear t) (MonthFromTime t) + 1.

Definition HourFromTime (t : Z) : Z := (t / msPerHour) mod 24.
Definition MinFromTime (t : Z) : Z := (t / msPerMinute) mod 60.
Definition SecFromTime (t : Z) : Z := (t / msPerSecond) mod 60.
Definition msFromTime (t : Z) : Z := t mod msPerSecond.

Definition MakeTime (h m s ms : Z) : Z :=
  h * msPerHour + m * msPerMinute + s * msPerSecond + ms.

(** [MakeDay] for a month in 0..11 and a day of the month. *)
Definition MakeDay (y m d : Z) : Z :=
  DayFromYear y + month_start (if is_leap y then 1 else 0) m + d - 1.

Definition MakeDate (day time : Z) : Z := day * msPerDay + time.

Definition DaysInMonth (y m : Z) : Z :=
  let leap := if is_leap y then 1 else 0 in
  month_start leap (m + 1) - month_start leap m.

(* ------------------------------------------------------------------ *)
(** ** The host *)

(** What the engine decides and the language leaves open: the local time
    zone, and how [Date] reads a string that is outside the formats the
    model interprets itself (see [Date_parse]). *)
Record host : Type := {
  LocalTZA : Z -> Z;                      (* offset of local time, in ms, at a UTC time *)
  host_date_parse : string -> option Z
}.

Definition LocalTime (h : host) (t : Z) : Z := t + LocalTZA h t.

(** ** Getters of [Date.prototype]: a number, [NaN] on an invalid date *)

Definition date_field (f : Z -> Z) (t : option Z) : number :=
  match t with
  | Some t => num_of_Z (f t)
  | None => NaN
  end.

Definition getUTCFullYear := date_field YearFromTime.
Definition getUTCMonth := date_field MonthFromTime.
Definition getUTCDate := date_field DateFromTime.
Definition getUTCHours := date_field HourFromTime.
Definition getUTCMinutes := date_field MinFromTime.
Definition getUTCSeconds := date_field SecFromTime.
Definition getUTCMilliseconds := date_field msFromTime.

Definition getFullYear (h : host) := date_field (fun t => YearFromTime (LocalTime h t)).
Definition getMonth (h : host) := date_field (fun t => MonthFromTime (LocalTime h t)).
Definition getDate (h : host) := date_field (fun t => DateFromTime (LocalTime h t)).
Definition getHours (h : host) := date_field (fun t => HourFromTime (LocalTime h t)).
Definition getMinutes (h : host) := date_field (fun t => MinFromTime (LocalTime h t)).
Definition getSeconds (h : host) := date_field (fun t => SecFromTime (LocalTime h t)).
Definition getMilliseconds (h : host) := date_field (fun t => msFromTime (LocalTime h t)).

(* ------------------------------------------------------------------ *)
(** ** Reading a date from a string *)

(** Exactly [n] decimal digits at the head of [s]: their value and the rest. *)
Fixpoint read_digits (n : nat) (acc : Z) (s : string) : option (Z * string) :=
  match n with
  | O => Some (acc, s)
  | S k =>
      match s with
      | String c r =>
          if is_digit c then read_digits k (10 * acc + digit_val c) r else None
      | "" => None
      end
  end.

Definition read_char (p : ascii -> bool) (s : string) : option string :=
  match s with
  | String c r => if p c then Some r else None
  | "" => None
  end.

Definition is_char (c : ascii) : ascii -> bool := fun x => (x =? c)%char.

Declare Scope opt_scope.
Delimit Scope opt_scope with opt.
Notation "' p <- o ;; k" :=
  (match o with Some p => k | None => None end)
  (at level 61, p pattern, o at next level, right associativity) : opt_scope.
Notation "x <- o ;; k" :=
  (match o with Some x => k | None => None end)
  (at level 61, o at next level, right associativity) : opt_scope.

(** [YYYY-MM-DD] at the head of [s]. *)
Definition read_ymd (s : string) : option (Z * Z * Z * string) :=
  ('(y, s) <- read_digits 4 0 s ;;
   s <- read_char (is_char "-") s ;;
   '(m, s) <- read_digits 2 0 s ;;
   s <- read_char (is_char "-") s ;;
   '(d, s) <- read_digits 2 0 s ;;
   Some (y, m, d, s))%opt.

(** [HH:MM:SS] at the head of [s]. *)
Definition read_hms (s : string) : option (Z * Z * Z * string) :=
  ('(hh, s) <- read_digits 2 0 s ;;
   s <- read_char (is_char ":") s ;;
   '(mi, s) <- read_digits 2 0 s ;;
   s <- read_char (is_char ":") s ;;
   '(ss, s) <- read_digits 2 0 s ;;
   Some (hh, mi, ss, s))%opt.

(** The regular expression of [formatFromTimeStamp],
    [/^\d{4}-\d{2}-\d{2}(\s\d{2}:\d{2}:\d{2}(\.\d{3})?)?$/]. *)
Definition timestamp_re (s : string) : bool :=
  match read_ymd s with
  | Some (_, _, _, "") => true
  | Some (_, _, _, r) =>
      match ('r <- read_char is_space r ;; read_hms r)%opt with
      | Some (_, _, _, "") => true
      | Some (_, _, _, r) =>
          match ('r <- read_char (is_char ".") r ;; read_digits 3 0 r)%opt with
          | Some (_, "") => true
          | _ => false
          end
      | None => false
      end
  | None => false
  end.

Definition valid_ymd (y m d : Z) : bool :=
  (1 <=? m) && (m <=? 12) && (1 <=? d) && (d <=? DaysInMonth y (m - 1)).

Definition valid_hms (hh mi ss : Z) : bool :=
  (hh <=? 23) && (mi <=? 59) && (ss <=? 59).

(** A UTC timestamp [YYYY-MM-DD[ HH:MM:SS[.FFF]]Z] naming a real calendar
    date and time of day. *)
Definition read_utc_timestamp (s : string) : option Z :=
  ('(y, m, d, r) <- read_ymd s ;;
   if valid_ymd y m d then
     let day := MakeDay y (m - 1) d in
     match r with
     | "Z" => Some (MakeDate day 0)
     | _ =>
         r <- read_char (is_char " ") r ;;
         '(hh, mi, ss, r) <- read_hms r ;;
         if valid_hms hh mi ss then
           match r with
           | "Z" => Some (MakeDate day (MakeTime hh mi ss 0))
           | _ =>
               r <- read_char (is_char ".") r ;;
               '(ms, r) <- read_digits 3 0 r ;;
               match r with
               | "Z" => Some (MakeDate day (MakeTime hh mi ss ms))
               | _ => None
               end
           end
         else None
     end
   else None)%opt.

(** [Date.parse]: the engine the module runs on (Node.js) reads a timestamp
    in the form above as a UTC time; every other string is left to the
    host. *)
Definition Date_parse (h : host) (s : string) : option Z :=
  match read_utc_timestamp s with
  | Some t => Some t
  | None => host_date_parse h s
  end.

(** The integer part of a finite number, towards zero. *)
Definition num_trunc (m e : Z) : Z :=
  if 0 <=? e then m * 10 ^ e else Z.quot m (10 ^ (- e)).

(** The time value [new Date(n)] holds for a number [n] ([TimeClip]): none
    beyond 8.64e15 ms either side of the epoch. *)
Definition time_of_number (n : number) : option Z :=
  match n with
  | Finite m e =>
      if num_leb (Finite (Z.abs m) e) (num_of_Z 8640000000000000)
      then Some (num_trunc m e) else None
  | _ => None
  end.

(** [new Date(v)] with one argument. *)
Definition Date_new (h : host) (v : value) : result value :=
  match v with
  | VDate t => Ok (VDate t)
  | VStr s => Ok (VDate (Date_parse h s))
  | VUndefined => Ok (VDate None)
  | VNull => Ok (VDate (Some 0))
  | VBool b => Ok (VDate (Some (if b then 1 else 0)))
  | VNum n => Ok (VDate (time_of_number n))
  | VSymbol => Throw TypeError
  | VFunction | VBuffer _ | VArr _ | VObj _ => Throw Unmodelled
  end.

(* ================================================================== *)
(** * The module [index.js] *)

(** Supported value types in the Data API. *)
Definition supportedTypes : list string :=
  [ "arrayValue"; "blobValue"; "booleanValue"; "doubleValue"; "isNull";
    "longValue"; "stringValue"; "structValue" ].

(** Parse the parameters from provided arguments. *)
Definition parseParams (args : list value) : result value :=
  let a0 := nth 0 args VUndefined in
  let a1 := nth 1 args VUndefined in
  parameters <- get_prop a0 "parameters" ;;
  if Array_isArray parameters then Ok parameters
  else if (typeof parameters =? "object")%string then Ok (VArr [parameters])
  else if Array_isArray a1 then Ok a1
  else if (typeof a1 =? "object")%string then Ok (VArr [a1])
  else if truthy parameters then error "'parameters' must be an object or array"
  else if truthy a1 then error "Parameters must be an object or array"
  else Ok (VArr []).

(** Converts object params into name/value format. *)
Definition splitParams (p : value) : result (list value) :=
  keys <- Object_keys p ;;
  foldM (fun arr x =>
           v <- get_prop p x ;;
           Ok (Array_concat arr (VObj [("name", VStr x); ("value", v)])))
        keys [].

Definition keys_length_is (p : value) (n : nat) : result value :=
  keys <- Object_keys p ;; Ok (VBool (List.length keys =? n)%nat).

Definition value_is_not (p : value) (s : string) : result value :=
  v <- get_prop p "value" ;; Ok (VBool (negb (is_str v s))).

(** Normalize parameters so that they are all in standard format. *)
Fixpoint normalizeParams (params : value) : result (list value) :=
  match params with
  | VArr l =>
      foldM (fun acc p =>
               if Array_isArray p then
                 inner <- normalizeParams p ;;
                 Ok (Array_concat acc (VArr [VArr inner]))
               else
                 atomic <-
                   (keys_length_is p 2 &&& get_prop p "name"
                      &&& value_is_not p "undefined")
                   ||| (keys_length_is p 3 &&& get_prop p "name"
                          &&& value_is_not p "undefined" &&& get_prop p "cast") ;;
                 if truthy atomic then Ok (Array_concat acc p)
                 else
                   parts <- splitParams p ;;
                   Ok (Array_concat acc (VArr parts)))
            l []
  | _ => array_receiver "reduce" params
  end.

Definition isDate (val : value) : bool :=
  match val with VDate _ => true | _ => false end.

(** [typeof val === 'number' && parse(val) === val]: the parser is handed
    the number and so reads its string form. *)
Definition number_reads_as_itself (parse : string -> number) (val : value)
  : bool :=
  match val with
  | VNum n => num_eqb (parse (Number_toString n)) n
  | _ => false
  end.

(** Gets the value type and returns the correct value field name. *)
Definition getType (val : value) : value :=
  if (typeof val =? "string")%string then VStr "stringValue"
  else if (typeof val =? "boolean")%string then VStr "booleanValue"
  else if number_reads_as_itself parseInt val then VStr "longValue"
  else if number_reads_as_itself parseFloat val then VStr "doubleValue"
  else if is_null val then VStr "isNull"
  else if isDate val then VStr "stringValue"
  else if Buffer_isBuffer val then VStr "blobValue"
  else if (typeof val =? "object")%string
          && match Object_keys val with
             | Ok [k] => mem_string k supportedTypes
             | _ => false
             end
       then VNull
  else VUndefined.

(** Hint to specify the underlying object type for data type mapping. *)
Definition getTypeHint (val : value) : value :=
  if isDate val then VStr "TIMESTAMP" else VUndefined.

(** [pad] of [formatToTimeStamp]. *)
Definition pad (val : number) (num : Z) : result string :=
  let s := Number_toString val in
  let count := num - Z.of_nat (String.length s) in
  if count <? 0 then Throw RangeError else Ok (zeros (Z.to_nat count) ++ s).

(** Formats the (UTC) date to the AWS accepted YYYY-MM-DD HH:MM:SS[.FFF]
    format. *)
Definition formatToTimeStamp (h : host) (date treatAsLocalDate : value)
  : result string :=
  let local := truthy treatAsLocalDate in
  match date with
  | VDate t =>
      let year := if local then getFullYear h t else getUTCFullYear t in
      let month :=
        num_add (if local then getMonth h t else getUTCMonth t) (num_of_Z 1) in
      let day := if local then getDate h t else getUTCDate t in
      let hours := if local then getHours h t else getUTCHours t in
      let minutes := if local then getMinutes h t else getUTCMinutes t in
      let seconds := if local then getSeconds h t else getUTCSeconds t in
      let ms := if local then getMilliseconds h t else getUTCMilliseconds t in
      fraction <- (if num_leb ms (num_of_Z 0) then Ok ""
                   else p <- pad ms 3 ;; Ok ("." ++ p)) ;;
      mo <- pad month 2 ;;
      d <- pad day 2 ;;
      hh <- pad hours 2 ;;
      mi <- pad minutes 2 ;;
      ss <- pad seconds 2 ;;
      Ok (Number_toString year ++ "-" ++ mo ++ "-" ++ d ++ " "
            ++ hh ++ ":" ++ mi ++ ":" ++ ss ++ fraction)
  | VObj props =>
      match lookup (if local then "getFullYear" else "getUTCFullYear") props with
      | Some VFunction => Throw Unmodelled
      | _ => Throw TypeError
      end
  | VFunction => Throw Unmodelled
  | _ => Throw TypeError
  end.

(** Creates a standard Data API parameter using the supplied inputs. *)
Definition formatType (h : host) (name val type typeHint formatOptions : value)
  : result value :=
  let target :=
    if negb (is_null typeHint || is_undefined typeHint)
    then [("name", name); ("typeHint", typeHint)]
    else [("name", name)] in
  source <-
    (if is_null type then Ok [("value", val)]
     else
       key <- (if truthy type then Ok type
               else n <- ToString name ;;
                    error ("'" ++ n ++ "' is an invalid type")) ;;
       k <- ToPropertyKey key ;;
       x <- (if is_str type "isNull" then Ok (VBool true)
             else if isDate val then
               local <- Ok formatOptions
                          &&& get_prop formatOptions "treatAsLocalDate" ;;
               s <- formatToTimeStamp h val local ;;
               Ok (VStr s)
             else Ok val) ;;
       Ok [("value", VObj [(k, x)])]) ;;
  Ok (VObj (Object_assign target source)).

(** Converts parameter to the name/value format. *)
Definition formatParam (h : host) (n v formatOptions : value) : result value :=
  formatType h n v (getType v) (getTypeHint v) formatOptions.

(** Prepare parameters: the [processedParams] of the object returned. *)
Fixpoint processParams (h : host) (engine params formatOptions : value)
  (row : Z) : result (list value) :=
  match params with
  | VArr l =>
      r <- foldM (fun (st : list value * Z) p =>
                    let (acc, row) := st in
                    if Array_isArray p then
                      inner <- processParams h engine p formatOptions row ;;
                      Ok (Array_concat acc (VArr [VArr inner]),
                          if row =? 0 then row + 1 else row)
                    else
                      n <- get_prop p "name" ;;
                      v <- get_prop p "value" ;;
                      x <- formatParam h n v formatOptions ;;
                      Ok ((acc ++ [x])%list, row))
                 l ([], row) ;;
      Ok (fst r)
  | _ => array_receiver "reduce" params
  end.

(** Converts the string value to a Date object.  If standard TIMESTAMP
    format (YYYY-MM-DD[ HH:MM:SS[.FFF]]) without TZ + treatAsLocalDate=false
    then assume UTC Date; in all other cases convert value to datetime
    as-is. *)
Definition formatFromTimeStamp (h : host) (val treatAsLocalDate : value)
  : result value :=
  utc <- (if truthy treatAsLocalDate then Ok false
          else s <- ToString val ;; Ok (timestamp_re s)) ;;
  if utc then s <- ToString val ;; Date_new h (VStr (s ++ "Z"))
  else Date_new h val.

Definition date_type_names : list string :=
  [ "DATE"; "DATETIME"; "TIMESTAMP"; "TIMESTAMP WITH TIME ZONE" ].

Definition includes (l : list string) (v : value) : bool :=
  existsb (is_str v) l.

(** Format record value based on its value, the database column's typeName
    and the formatting options. *)
Definition formatRecordValue (h : host) (val typeName formatOptions : value)
  : result value :=
  c <- Ok formatOptions &&& get_prop formatOptions "deserializeDate"
         &&& Ok (VBool (includes date_type_names typeName)) ;;
  if truthy c then
    local <- (Ok formatOptions &&& get_prop formatOptions "treatAsLocalDate")
               ||| Ok (VBool (is_str typeName "TIMESTAMP WITH TIME ZONE")) ;;
    formatFromTimeStamp h val local
  else Ok val.

(** [v > 0] for a [length]. *)
Definition gt_zero (v : value) : result bool :=
  match v with
  | VNum n => Ok (num_ltb (num_of_Z 0) n)
  | VUndefined | VNull => Ok false
  | VBool b => Ok b
  | _ => Throw Unmodelled
  end.

(** [g && g.length > 0]. *)
Definition has_items (g : value) : result value :=
  Ok g &&& (len <- get_prop g "length" ;; b <- gt_zero len ;; Ok (VBool b)).

(** [{ insertId: g[0].longValue }]. *)
Definition insertId_of (g : value) : result (list (string * value)) :=
  first <- get_index g 0 ;;
  id <- get_prop first "longValue" ;;
  Ok [("insertId", id)].

(** Format updateResults and extract insertIds. *)
Definition formatUpdateResults (res : value) : result value :=
  l <- array_receiver "map" res ;;
  out <- foldM (fun acc x =>
                  g <- get_prop x "generatedFields" ;;
                  c <- has_items g ;;
                  o <- (if truthy c then insertId_of g else Ok []) ;;
                  Ok (acc ++ [VObj o])%list)
               l [] ;;
  Ok (VArr out).

(** One entry of the field map [fmap]: an object that holds [label] and
    [typeName] when column metadata came with the rows, and [field] once
    the tag of the column is known. *)
Definition fmap_entry : Type := list (string * value).

Definition entry_prop (e : fmap_entry) (k : string) : value :=
  match lookup k e with Some v => v | None => VUndefined end.

(** [fmap[i]]; [None] when it is [undefined]. *)
Definition fmap_at (fmap : list fmap_entry) (i : nat) : option fmap_entry :=
  nth_error fmap i.

(** [fmap[i]['field'] = type]. *)
Fixpoint fmap_set_field (fmap : list fmap_entry) (i : nat) (type : string)
  : list fmap_entry :=
  match fmap, i with
  | [], _ => []
  | e :: r, O => set_prop "field" (VStr type) e :: r
  | e :: r, S j => e :: fmap_set_field r j type
  end.

(** The entry of [fmap] an expression [fmap[i].x] reads from. *)
Definition fmap_get (fmap : list fmap_entry) (i : nat) : result fmap_entry :=
  match fmap_at fmap i with
  | Some e => Ok e
  | None => Throw TypeError
  end.

(** Object if hydrate, else array: [Object.assign(acc, {[label]: v})] or
    [acc.concat(v)]. *)
Definition emit (hydrate : bool) (acc : value) (fmap : list fmap_entry)
  (i : nat) (v : value) : result value :=
  if hydrate then
    e <- fmap_get fmap i ;;
    k <- ToPropertyKey (entry_prop e "label") ;;
    match acc with
    | VObj props => Ok (VObj (Object_assign props [(k, v)]))
    | _ => Throw Unmodelled
    end
  else
    match acc with
    | VArr l => Ok (VArr (Array_concat l v))
    | _ => Throw Unmodelled
    end.

(** Create map for efficient value parsing: one entry per field of the
    first row. *)
Definition make_fmap (recs columns : value) : result (list fmap_entry) :=
  first <- Ok recs &&& get_index recs 0 ;;
  if truthy first then
    l <- array_receiver "map" first ;;
    foldMi (fun acc (_ : value) i =>
              e <- (if truthy columns then
                      c <- get_index columns i ;;
                      lab <- get_prop c "label" ;;
                      c' <- get_index columns i ;;
                      ty <- get_prop c' "typeName" ;;
                      Ok [("label", lab); ("typeName", ty)]
                    else Ok []) ;;
              Ok (acc ++ [Object_assign [] e])%list)
           l []
  else Ok [].

(** Look for non-null fields: every key of the field other than [isNull]
    whose value is not [null] is written to [fmap[i].field] in turn. *)
Definition discover (fmap : list fmap_entry) (field : value) (i : nat)
  : result (list fmap_entry) :=
  keys <- Object_keys field ;;
  foldM (fun fm type =>
           if negb (type =? "isNull")%string then
             v <- get_prop field type ;;
             if negb (is_null v) then
               _ <- fmap_get fm i ;;
               Ok (fmap_set_field fm i type)
             else Ok fm
           else Ok fm)
        keys fmap.

(** The reducer over the fields of one record (row). *)
Definition format_field (h : host) (hydrate : bool) (formatOptions : value)
  (st : list fmap_entry * value) (field : value) (i : nat)
  : result (list fmap_entry * value) :=
  let (fmap, acc) := st in
  isNull <- get_prop field "isNull" ;;
  (* If the field is null, always return null *)
  if is_true isNull then
    acc' <- emit hydrate acc fmap i VNull ;;
    Ok (fmap, acc')
  (* If the field is mapped, return the mapped field *)
  else if match fmap_at fmap i with
          | Some e => truthy (entry_prop e "field")
          | None => false
          end
  then
    e <- fmap_get fmap i ;;
    k <- ToPropertyKey (entry_prop e "field") ;;
    raw <- get_prop field k ;;
    v <- formatRecordValue h raw (entry_prop e "typeName") formatOptions ;;
    acc' <- emit hydrate acc fmap i v ;;
    Ok (fmap, acc')
  (* Else discover the field type *)
  else
    fmap' <- discover fmap field i ;;
    e <- fmap_get fmap' i ;;
    k <- ToPropertyKey (entry_prop e "field") ;;
    raw <- get_prop field k ;;
    v <- formatRecordValue h raw (entry_prop e "typeName") formatOptions ;;
    acc' <- emit hydrate acc fmap' i v ;;
    Ok (fmap', acc').

(** Processes records and either extracts Typed Values into an array, or
    object with named column labels. *)
Definition formatRecords (h : host) (recs columns : value) (hydrate : bool)
  (formatOptions : value) : result value :=
  fmap <- make_fmap recs columns ;;
  if truthy recs then
    rows <- array_receiver "map" recs ;;
    r <- foldM (fun (st : list fmap_entry * list value) rec =>
                  let (fmap, out) := st in
                  fields <- array_receiver "reduce" rec ;;
                  r <- foldMi (format_field h hydrate formatOptions) fields
                         (fmap, if hydrate then VObj [] else VArr []) ;;
                  Ok (fst r, (out ++ [snd r])%list))
               rows (fmap, []) ;;
    Ok (VArr (snd r))
  else Ok (VArr []).

(** Formats the results of a query response. *)
Definition formatResults (h : host) (results : value) (hydrate : bool)
  (includeMeta formatOptions : value) : result value :=
  columnMetadata <- get_prop results "columnMetadata" ;;
  numberOfRecordsUpdated <- get_prop results "numberOfRecordsUpdated" ;;
  records <- get_prop results "records" ;;
  generatedFields <- get_prop results "generatedFields" ;;
  updateResults <- get_prop results "updateResults" ;;
  let meta :=
    if truthy includeMeta then [("columnMetadata", columnMetadata)] else [] in
  let count :=
    if negb (is_undefined numberOfRecordsUpdated) && negb (truthy records)
    then [("numberOfRecordsUpdated", numberOfRecordsUpdated)] else [] in
  recs <- (if truthy records then
             r <- formatRecords h records columnMetadata hydrate formatOptions ;;
             Ok [("records", r)]
           else Ok []) ;;
  updates <- (if truthy updateResults then
                u <- formatUpdateResults updateResults ;;
                Ok [("updateResults", u)]
              else Ok []) ;;
  c <- has_items generatedFields ;;
  insert <- (if truthy c then insertId_of generatedFields else Ok []) ;;
  Ok (VObj (Object_assign (Object_assign (Object_assign
              (Object_assign meta count) recs) updates) insert)).

(* ------------------------------------------------------------------ *)
(** ** Instantiation *)

(** The configuration for an instance. *)
Record config : Type := {
  engine : value;
  hydrateColumnNames : bool;
  formatOptions : value
}.

(** [init(params)]: the configuration the public methods close over. *)
Definition init (params : value) : result config :=
  let params := if is_undefined params then VObj [] else params in
  e <- get_prop params "engine" ;;
  hy <- get_prop params "hydrateColumnNames" ;;
  fo <- get_prop params "formatOptions" ;;
  dd <- Ok (VBool (typeof fo =? "object")%string)
          &&& (d <- get_prop fo "deserializeDate" ;; Ok (VBool (is_false d))) ;;
  tl <- Ok (VBool (typeof fo =? "object")%string)
          &&& get_prop fo "treatAsLocalDate" ;;
  Ok {| engine := if (typeof e =? "string")%string then e else VStr "mysql";
        hydrateColumnNames := match hy with VBool b => b | _ => true end;
        formatOptions :=
          VObj [("deserializeDate", VBool (negb (truthy dd)));
                ("treatAsLocalDate", tl)] |}.

(** Format parameters method, pass parameters. *)
Definition formatParameters (h : host) (cfg : config) (p : value)
  : result value :=
  params <- parseParams [VObj [("parameters", p)]] ;;
  normal <- normalizeParams params ;;
  out <- processParams h (engine cfg) (VArr normal) (formatOptions cfg) 0 ;;
  Ok (VArr out).

(** Format response method, pass response. *)
Definition formatResponse (h : host) (cfg : config) (r : value)
  : result value :=
  includeMeta <- get_prop r "columnMetadata" ;;
  formatResults h r (hydrateColumnNames cfg) includeMeta (formatOptions cfg).

(* ================================================================== *)
(** * Vocabulary of the statements *)

(** The wire shape [{ name: n, value: v }] of a parameter and the tagged
    value [{ tag: v }]. *)
Definition param (n : string) (v : value) : value :=
  VObj [("name", VStr n); ("value", v)].

Definition tagged (tag : string) (v : value) : value := VObj [(tag, v)].

(** The message of the error [formatType] raises for parameter [n]. *)
Definition invalid_type (n : string) : exn :=
  Error ("'" ++ n ++ "' is an invalid type").

(** The configuration [init()] builds when called without options. *)
Definition default_config : config :=
  {| engine := VStr "mysql";
     hydrateColumnNames := true;
     formatOptions :=
       VObj [("deserializeDate", VBool true);
             ("treatAsLocalDate", VBool false)] |}.

(** The [formatOptions] object of a configuration, as [init] builds it. *)
Definition format_options (deserializeDate : bool) (treatAsLocalDate : value)
  : value :=
  VObj [("deserializeDate", VBool deserializeDate);
        ("treatAsLocalDate", treatAsLocalDate)].

(** ** A host for the examples

    A host in the manner of Node.js with the time zone set to UTC.  For a
    date written with numbers and dashes outside the modelled format its
    parser follows V8's fallback: the three numbers are year, month, day
    unless the first one could be a day of the month (then month, day,
    year); a year below 50 is taken in the 2000s and one below 100 in the
    1900s; the result is a local time. *)
Definition read_number (s : string) : option (Z * string) :=
  match span_digits s with
  | ("", _) => None
  | (d, r) => Some (digits_val d, r)
  end.

Definition legacy_date_parse (tza : Z) (s : string) : option Z :=
  ('(a, s) <- read_number s ;;
   s <- read_char (is_char "-") s ;;
   '(b, s) <- read_number s ;;
   s <- read_char (is_char "-") s ;;
   '(c, s) <- read_number s ;;
   let '(y, m, d) :=
     if (1 <=? a) && (a <=? 31) then (c, a, b) else (a, b, c) in
   let y := if y <=? 49 then y + 2000 else if y <=? 99 then y + 1900 else y in
   if (1 <=? m) && (m <=? 12) && (1 <=? d) && (d <=? 31) then
     let day := MakeDay y (m - 1) d in
     match s with
     | "" => Some (MakeDate day 0 - tza)
     | _ =>
         s <- read_char (is_char " ") s ;;
         '(hh, s) <- read_number s ;;
         s <- read_char (is_char ":") s ;;
         '(mi, s) <- read_number s ;;
         s <- read_char (is_char ":") s ;;
         '(ss, s) <- read_number s ;;
         match s with
         | "" =>
             if valid_hms hh mi ss
             then Some (MakeDate day (MakeTime hh mi ss 0) - tza)
             else None
         | _ => None
         end
     end
   else None)%opt.

Definition node_utc : host :=
  {| LocalTZA := fun _ => 0; host_date_parse := legacy_date_parse 0 |}.

(** The keys a response can hold. *)
Definition response_keys : list string :=
  [ "columnMetadata"; "numberOfRecordsUpdated"; "records"; "updateResults";
    "insertId" ].

(** ** Decimal digits *)

(** The character of a digit, and the two- and four-digit form of a
    number. *)
Definition digit_char (z : Z) : ascii := ascii_of_nat (48 + Z.to_nat z).

Definition two_digits (z : Z) : string :=
  String (digit_char (z / 10)) (String (digit_char (z mod 10)) "").

Definition four_digits (z : Z) : string :=
  String (digit_char (z / 1000))
    (String (digit_char ((z / 100) mod 10)) (two_digits (z mod 100))).

(** The numbers [0 .. n-1]. *)
Definition upto (n : Z) : list Z := map Z.of_nat (seq 0 (Z.to_nat n)).

Definition pads_to_two (z : Z) : bool :=
  match pad (Finite z 0) 2 with
  | Ok s => (s =? two_digits z)%string
  | Throw _ => false
  end.

Definition prints_four (z : Z) : bool :=
  (z <? 1000) || (Number_toString (Finite z 0) =? four_digits z)%string.

(** The text [HH:MM:SS] and the text [YYYY-MM-DD HH:MM:SS] of a time value
    read in UTC, followed by [suffix]. *)
Definition utc_clock (t : Z) (suffix : string) : string :=
  two_digits (HourFromTime t) ++ ":" ++ two_digits (MinFromTime t)
    ++ ":" ++ two_digits (SecFromTime t) ++ suffix.

Definition utc_stamp (t : Z) (suffix : string) : string :=
  four_digits (YearFromTime t) ++ "-" ++ two_digits (MonthFromTime t + 1)
    ++ "-" ++ two_digits (DateFromTime t) ++ " " ++ utc_clock t suffix.


(** ** Result sets *)

(** The tags a field can carry a value under. *)
Definition value_tags : list string :=
  [ "arrayValue"; "blobValue"; "booleanValue"; "doubleValue"; "longValue";
    "stringValue"; "structValue" ].

(** The null field [{ isNull: true }]. *)
Definition null_field : value := VObj [("isNull", VBool true)].

Definition scalar (v : value) : bool :=
  match v with
  | VStr _ | VNum _ | VBool _ => true
  | _ => false
  end.

(** A field as the Data API sends it: the null field, or one scalar under
    one tag. *)
Inductive raw_field : value -> Prop :=
| raw_null : raw_field null_field
| raw_tagged (tag : string) (v : value) :
    In tag value_tags -> scalar v = true -> raw_field (tagged tag v).

(** Column metadata: a label and a type name per column. *)
Definition column_meta (m : string * value) : value :=
  VObj [("label", VStr (fst m)); ("typeName", snd m)].

Definition columns_of (metas : list (string * value)) : value :=
  VArr (map column_meta metas).

(** A projected row: an object keyed by label when hydrating, else an
    array. *)
Definition row_value (hydrate : bool) (labels : list string)
  (vals : list value) : value :=
  if hydrate then VObj (combine labels vals) else VArr vals.

(** [field.isNull === true]. *)
Definition is_null_field (f : value) : bool :=
  match f with
  | VObj props =>
      match lookup "isNull" props with
      | Some (VBool true) => true
      | _ => false
      end
  | _ => false
  end.

(** The tag a field carries its value under; none for the null field. *)
Definition field_tag (f : value) : option string :=
  match f with
  | VObj [(tag, _)] => if (tag =? "isNull")%string then None else Some tag
  | _ => None
  end.

(** The tag of a column: that of its first field that is not null, unless
    one is known already. *)
Fixpoint first_tag_from (memo : option string) (col : list value)
  : option string :=
  match memo, col with
  | Some t, _ => Some t
  | None, [] => None
  | None, f :: r => first_tag_from (field_tag f) r
  end.


(** [field[tag]]. *)
Definition unwrapped (tag : option string) (f : value) : value :=
  match tag, f with
  | Some t, VObj props =>
      match lookup t props with Some v => v | None => VUndefined end
  | _, _ => VUndefined
  end.

(** The value [formatRecordValue] returns. *)
Definition coerced (h : host) (fo ty v : value) : value :=
  match formatRecordValue h v ty fo with
  | Ok x => x
  | Throw _ => VUndefined
  end.



(** *** The field map, and the pass over the rows, as pure functions *)

(** The entry of [fmap] for a column with metadata [m] whose tag is
    [memo]. *)
Definition entry_of (m : string * value) (memo : option string) : fmap_entry :=
  ([("label", VStr (fst m)); ("typeName", snd m)]
     ++ match memo with
        | Some t => [("field", VStr t)]
        | None => []
        end)%list.

Fixpoint fmap_of (metas : list (string * value)) (memos : list (option string))
  : list fmap_entry :=
  match metas, memos with
  | m :: ms, memo :: memos' => entry_of m memo :: fmap_of ms memos'
  | _, _ => []
  end.

(** One field: the tag of the column afterwards and the value projected. *)
Definition cell_step (h : host) (fo ty : value) (memo : option string)
  (f : value) : option string * value :=
  let memo' := first_tag_from memo [f] in
  (memo', if is_null_field f then VNull
          else coerced h fo ty (unwrapped memo' f)).

Fixpoint row_step (h : host) (fo : value) (metas : list (string * value))
  (memos : list (option string)) (fields : list value)
  : list (option string) * list value :=
  match metas, memos, fields with
  | m :: ms, memo :: memos', f :: fs =>
      let (memo', v) := cell_step h fo (snd m) memo f in
      let (rest, vs) := row_step h fo ms memos' fs in
      (memo' :: rest, v :: vs)
  | _, _, _ => (memos, [])
  end.

Fixpoint rows_run (h : host) (fo : value) (metas : list (string * value))
  (memos : list (option string)) (rows : list (list value))
  : list (list value) :=
  match rows with
  | [] => []
  | r :: rs =>
      let (memos', vs) := row_step h fo metas memos r in
      vs :: rows_run h fo metas memos' rs
  end.

(** A known tag of a column is one of the value tags. *)
Definition memo_ok (memo : option string) : Prop :=
  forall t, memo = Some t -> In t value_tags.

(** The field map before any tag is known. *)
Definition no_memos (metas : list (string * value)) : list (option string) :=
  map (fun _ => None) metas.

(** The callback of [recs.map] in [formatRecords], with the field map
    threaded through. *)
Definition record_step (h : host) (hydrate : bool) (fo : value)
  (st : list fmap_entry * list value) (rec : value)
  : result (list fmap_entry * list value) :=
  let (fmap, out) := st in
  fields <- array_receiver "reduce" rec ;;
  r <- foldMi (format_field h hydrate fo) fields
         (fmap, if hydrate then VObj [] else VArr []) ;;
  Ok (fst r, (out ++ [snd r])%list).

(** The callback of [recs[0].map] in [formatRecords]. *)
Definition fmap_entry_step (columns : value) (acc : list fmap_entry)
  (x : value) (i : nat) : result (list fmap_entry) :=
  e <- (if truthy columns then
          c <- get_index columns i ;;
          lab <- get_prop c "label" ;;
          c' <- get_index columns i ;;
          ty <- get_prop c' "typeName" ;;
          Ok [("label", lab); ("typeName", ty)]
        else Ok []) ;;
  Ok (acc ++ [Object_assign [] e])%list.

(** The result set of the example: two columns, the second one null in the
    first row and a string in the second. *)
Definition example_metas : list (string * value) :=
  [("id", VStr "INT"); ("name", VStr "VARCHAR")].

Definition example_rows : list (list value) :=
  [ [tagged "longValue" (VNum (Finite 1 0)); null_field];
    [tagged "longValue" (VNum (Finite 2 0)); tagged "stringValue" (VStr "x")] ].

(** ** Payloads *)

(** The payload of a query: column metadata, an update count and rows. *)
Definition query_payload (metas : list (string * value)) (updated : number)
  (rows : list (list value)) : value :=
  VObj [("columnMetadata", columns_of metas);
        ("numberOfRecordsUpdated", VNum updated);
        ("records", VArr (map VArr rows))].

(** The payload of an insert, update or delete: an update count and the
    generated keys. *)
Definition update_payload (updated : number) (ids : list Z) : value :=
  VObj [("numberOfRecordsUpdated", VNum updated);
        ("generatedFields",
         VArr (map (fun id => tagged "longValue" (VNum (num_of_Z id))) ids))].

(** A configuration with the options object [init] builds. *)
Definition config_of (e : value) (hydrate dd : bool) (tl : value) : config :=
  {| engine := e;
     hydrateColumnNames := hydrate;
     formatOptions := format_options dd tl |}.

(** ** The value of a decimal numeral *)

(** The number a numeral of the standard library denotes, digit by digit
    as [digits_val_acc] reads its text. *)
Fixpoint uint_val (acc : Z) (d : Decimal.uint) : Z :=
  match d with
  | Decimal.Nil => acc
  | Decimal.D0 l => uint_val (10 * acc + 0) l
  | Decimal.D1 l => uint_val (10 * acc + 1) l
  | Decimal.D2 l => uint_val (10 * acc + 2) l
  | Decimal.D3 l => uint_val (10 * acc + 3) l
  | Decimal.D4 l => uint_val (10 * acc + 4) l
  | Decimal.D5 l => uint_val (10 * acc + 5) l
  | Decimal.D6 l => uint_val (10 * acc + 6) l
  | Decimal.D7 l => uint_val (10 * acc + 7) l
  | Decimal.D8 l => uint_val (10 * acc + 8) l
  | Decimal.D9 l => uint_val (10 * acc + 9) l
  end.

Fixpoint all_digits (s : string) : bool :=
  match s with
  | "" => true
  | String c r => is_digit c && all_digits r
  end.

(* ================================================================== *)
(** * Vocabulary of the further properties *)

(** ** The parameter pipeline, element by element *)

(** [map] with a callback that can throw: the first failure is the
    result. *)
Fixpoint mapM {A B} (f : A -> result B) (l : list A) : result (list B) :=
  match l with
  | [] => Ok []
  | x :: r => y <- f x ;; ys <- mapM f r ;; Ok (y :: ys)
  end.

(** What one element of the array handed to [normalizeParams] adds to the
    normalized list. *)
Definition normal_item (p : value) : result (list value) :=
  if Array_isArray p then
    inner <- normalizeParams p ;; Ok [VArr inner]
  else
    atomic <-
      (keys_length_is p 2 &&& get_prop p "name" &&& value_is_not p "undefined")
      ||| (keys_length_is p 3 &&& get_prop p "name"
             &&& value_is_not p "undefined" &&& get_prop p "cast") ;;
    if truthy atomic then Ok [p] else splitParams p.

(** What one element of the normalized list becomes in [processParams]. *)
Definition process_item (h : host) (engine formatOptions p : value)
  : result value :=
  if Array_isArray p then
    inner <- processParams h engine p formatOptions 0 ;; Ok (VArr inner)
  else
    n <- get_prop p "name" ;;
    v <- get_prop p "value" ;;
    formatParam h n v formatOptions.

(** The callback of [params.reduce] in [processParams]. *)
Definition process_step (h : host) (engine formatOptions : value)
  (st : list value * Z) (p : value) : result (list value * Z) :=
  let (acc, row) := st in
  if Array_isArray p then
    inner <- processParams h engine p formatOptions row ;;
    Ok (Array_concat acc (VArr [VArr inner]),
        if row =? 0 then row + 1 else row)
  else
    n <- get_prop p "name" ;;
    v <- get_prop p "value" ;;
    x <- formatParam h n v formatOptions ;;
    Ok ((acc ++ [x])%list, row).

(** The formatted parameter of one entry of a mapping. *)
Definition format_entry (h : host) (formatOptions : value)
  (kv : string * value) : result value :=
  formatParam h (VStr (fst kv)) (snd kv) formatOptions.

(** ** The wire shape of a formatted parameter *)

(** A Data API field: an object with one key, that key a supported type. *)
Definition wire_value (v : value) : bool :=
  match v with
  | VObj [(k, _)] => mem_string k supportedTypes
  | _ => false
  end.

(** [{ name, value }] or [{ name, typeHint: 'TIMESTAMP', value }] with a
    Data API field as [value]. *)
Definition wire_param (v : value) : bool :=
  match v with
  | VObj [(a, _); (b, x)] =>
      (a =? "name")%string && (b =? "value")%string && wire_value x
  | VObj [(a, _); (t, VStr hint); (b, x)] =>
      (a =? "name")%string && (t =? "typeHint")%string
      && (hint =? "TIMESTAMP")%string && (b =? "value")%string && wire_value x
  | _ => false
  end.

(** A parameter set: wire parameters, or arrays of them (batches). *)
Fixpoint wire (v : value) : bool :=
  match v with
  | VArr l => forallb wire l
  | _ => wire_param v
  end.

(** The tag of the values that map to one type whatever they hold, and the
    value filed under it. *)
Definition native_tag (v : value) : option string :=
  match v with
  | VStr _ => Some "stringValue"
  | VBool _ => Some "booleanValue"
  | VNull => Some "isNull"
  | VBuffer _ => Some "blobValue"
  | _ => None
  end.

Definition native_payload (v : value) : value :=
  match v with VNull => VBool true | _ => v end.

(** Values no type is inferred for: [undefined], symbols, functions, arrays,
    and objects that are not one supported key. *)
Definition untyped (v : value) : bool :=
  match v with
  | VUndefined | VSymbol | VFunction | VArr _ => true
  | VObj [(k, _)] => negb (mem_string k supportedTypes)
  | VObj _ => true
  | _ => false
  end.

(** The [{ name, value }] object [splitParams] builds for one entry. *)
Definition split_entry (kv : string * value) : value :=
  VObj [("name", VStr (fst kv)); ("value", snd kv)].

(** ** Timestamps with milliseconds *)

Definition three_digits (z : Z) : string :=
  String (digit_char (z / 100)) (two_digits (z mod 100)).

Definition pads_to_three (z : Z) : bool :=
  match pad (Finite z 0) 3 with
  | Ok s => (s =? three_digits z)%string
  | Throw _ => false
  end.

(** The fraction written after the seconds: nothing for a whole second. *)
Definition fraction_text (ms : Z) : string :=
  if ms =? 0 then "" else String "." (three_digits ms).

(** The time value whose UTC fields are the fields [formatToTimeStamp]
    prints: the date itself, or the date moved to local time. *)
Definition shown_time (h : host) (treatAsLocalDate : value) (t : Z) : Z :=
  if truthy treatAsLocalDate then LocalTime h t else t.

(** The parameter made from a date: the type hint sits between the name and
    the value. *)
Definition timestamp_param (n text : string) : value :=
  VObj [("name", VStr n); ("typeHint", VStr "TIMESTAMP");
        ("value", VObj [("stringValue", VStr text)])].

(** ** Responses *)

(** The fields of a payload that [formatResults] destructures. *)
Definition payload_fields : list string :=
  [ "columnMetadata"; "numberOfRecordsUpdated"; "records"; "generatedFields";
    "updateResults" ].

(** One entry of [updateResults] in a batch payload: the keys generated by
    the statement, if the entry has a [generatedFields] at all. *)
Definition update_entry (g : option (list Z)) : value :=
  VObj match g with
       | Some ids =>
           [("generatedFields",
             VArr (map (fun id => tagged "longValue" (VNum (num_of_Z id))) ids))]
       | None => []
       end.

(** What it is turned into: the first key, or an empty object. *)
Definition insert_entry (g : option (list Z)) : value :=
  VObj match g with
       | Some (id :: _) => [("insertId", VNum (num_of_Z id))]
       | _ => []
       end.


(** ** Result sets without column metadata *)

(** The entry of [fmap] for a column without metadata whose tag is
    [memo]. *)
Definition bare_entry (memo : option string) : fmap_entry :=
  match memo with
  | Some t => [("field", VStr t)]
  | None => []
  end.

(** A projected row when no column has a label: every value is assigned to
    the key [undefined] when hydrating, so that the last one is left. *)
Definition unlabelled_row (hydrate : bool) (vals : list value) : value :=
  if hydrate then
    VObj match vals with
         | [] => []
         | _ => [("undefined", last vals VUndefined)]
         end
  else VArr vals.

(** Metadata that says nothing, for [n] columns. *)
Definition blank_metas (n : nat) : list (string * value) :=
  repeat (""%string, VUndefined) n.

(** The field a plain value is sent as, going by its inferred type. *)
Definition wire_field (v : value) : value :=
  match getType v with
  | VStr tag => if (tag =? "isNull")%string then null_field else tagged tag v
  | _ => VUndefined
  end.

(** Strings, booleans, [null], and the numbers a type is inferred for. *)
Definition plain (v : value) : bool :=
  match v with
  | VStr _ | VBool _ | VNull => true
  | VNum _ => truthy (getType v)
  | _ => false
  end.

(** ** The text of a number *)

(** The text [Number::toString] writes for the digits [d] of a number,
    [z] zeros having been taken off their end, at exponent [e]. *)
Definition number_body (d : string) (z : nat) (e : Z) : string :=
  let k := Z.of_nat (String.length d) in
  let n := k + (e + Z.of_nat z) in
  if (k <=? n) && (n <=? 21) then d ++ zeros (Z.to_nat (n - k))
  else if (0 <? n) && (n <=? 21)
       then take (Z.to_nat n) d ++ "." ++ drop (Z.to_nat n) d
  else if (-6 <? n) && (n <=? 0) then "0." ++ zeros (Z.to_nat (- n)) ++ d
  else
    let ex := n - 1 in
    let mant := if k =? 1 then d else take 1 d ++ "." ++ drop 1 d in
    mant ++ "e" ++ (if ex <? 0 then "-" else "+")
         ++ digits_of_N (Z.to_N (Z.abs ex)).

(** The sign written before a number. *)
Definition sign_text (neg : bool) : string := if neg then "-" else "".

Definition signed (neg : bool) (z : Z) : Z := if neg then - z else z.

(** The tag of a number that is not [NaN]. *)
Definition number_tag (x : number) : string :=
  if num_eqb (parseInt (Number_toString x)) x then "longValue"
  else "doubleValue".

(** What may follow the digits of a number: nothing, or an exponent. *)
Definition exponent_or_end (rest : string) : Prop :=
  rest = ""%string \/ exists x, rest = String "e" x.

(** What may follow the integer digits of a number: nothing, a point, or
    an exponent. *)
Definition point_exponent_or_end (rest : string) : Prop :=
  rest = ""%string \/ exists x, rest = String "." x \/ rest = String "e" x.

(* ================================================================== *)
(** * Properties *)

(** ** Printing and reading integers *)

Lemma digits_val_uint (d : Decimal.uint) (acc : Z) :
  digits_val_acc acc (NilEmpty.string_of_uint d) = uint_val acc d.
Proof.
  revert acc. induction d; intros acc; cbn [NilEmpty.string_of_uint
    digits_val_acc uint_val]; try reflexivity; rewrite <- IHd; reflexivity.
Qed.

Lemma of_uint_acc_val (d : Decimal.uint) (acc : positive) :
  Z.pos (Pos.of_uint_acc d acc) = uint_val (Z.pos acc) d.
Proof.
  revert acc. induction d; intros acc; cbn [Pos.of_uint_acc uint_val];
    try reflexivity; rewrite IHd; f_equal; lia.
Qed.

Lemma of_uint_val (d : Decimal.uint) : Z.of_N (Pos.of_uint d) = uint_val 0 d.
Proof.
  induction d; cbn [Pos.of_uint uint_val]; try reflexivity;
    try (rewrite IHd; reflexivity);
    cbn [Z.of_N]; rewrite of_uint_acc_val; reflexivity.
Qed.

Lemma all_digits_uint (d : Decimal.uint) :
  all_digits (NilEmpty.string_of_uint d) = true.
Proof. induction d; cbn [NilEmpty.string_of_uint all_digits]; auto. Qed.

(** A numeral is worth at least its leading digits shifted by its length. *)
Lemma uint_val_lower (d : Decimal.uint) (acc : Z) :
  0 <= acc ->
  acc * 10 ^ Z.of_nat (String.length (NilEmpty.string_of_uint d))
  <= uint_val acc d.
Proof.
  revert acc. induction d; intros acc Hacc;
    cbn [NilEmpty.string_of_uint String.length uint_val];
    try (cbn; lia);
    rewrite Nat2Z.inj_succ, Z.pow_succ_r by lia;
    (eapply Z.le_trans; [|apply IHd; lia]);
    match goal with
    | |- _ <= ?a * ?p => assert (0 <= p) by (apply Z.pow_nonneg; lia)
    end; nia.
Qed.

(** The numeral of a positive number starts with a digit other than 0. *)
Lemma to_uint_head (n : N) :
  n <> 0%N ->
  match N.to_uint n with
  | Decimal.Nil | Decimal.D0 _ => False
  | _ => True
  end.
Proof.
  intros Hn.
  pose proof (DecimalN.Unsigned.of_to n) as Hof.
  pose proof (DecimalN.Unsigned.to_of (N.to_uint n)) as Hto.
  rewrite Hof in Hto.
  destruct (N.to_uint n) as [|l| | | | | | | | |] eqn:E; try exact I.
  - discriminate Hto.
  - rewrite DecimalFacts.unorm_D0 in Hto.
    destruct l as [|l'| | | | | | | | |] eqn:El;
      try (cbn in Hto; discriminate Hto).
    + apply Hn. rewrite <- Hof. reflexivity.
    + assert (L : l <> Decimal.Nil) by (subst l; discriminate).
      pose proof (DecimalFacts.nb_digits_unorm l L) as B.
      subst l. rewrite <- Hto in B. cbn [Decimal.nb_digits] in B. lia.
Qed.

Lemma digit_char_facts (c : ascii) :
  is_digit c = true ->
  is_space c = false /\ (c =? "-")%char = false /\ (c =? "+")%char = false
  /\ ("x" =? c)%char = false /\ ("X" =? c)%char = false.
Proof.
  destruct c as [b0 b1 b2 b3 b4 b5 b6 b7].
  destruct b0, b1, b2, b3, b4, b5, b6, b7; intros H; try discriminate H;
    repeat split; reflexivity.
Qed.

Lemma span_all_digits (s : string) :
  all_digits s = true -> span_digits s = (s, "").
Proof.
  induction s as [|c r IH]; intros H; [reflexivity|].
  cbn [all_digits] in H. apply andb_true_iff in H as [Hc Hr].
  cbn [span_digits]. now rewrite Hc, IH.
Qed.

Lemma strip_zeros_spec (s : string) :
  (fst (strip_zeros s) ++ zeros (snd (strip_zeros s)))%string = s
  /\ (String.length (fst (strip_zeros s)) + snd (strip_zeros s))%nat
     = String.length s.
Proof.
  induction s as [|c r [IH1 IH2]]; [split; reflexivity|].
  cbn [strip_zeros]. destruct (strip_zeros r) as [r' k]. cbn [fst snd] in *.
  destruct (String.eqb_spec r' "") as [-> | Hne];
    [destruct (Ascii.eqb_spec c "0") as [-> | Hc]|];
    cbn [andb fst snd String.length append zeros Nat.add] in *.
  - split; [now rewrite IH1 | now rewrite IH2].
  - split; [now rewrite IH1 | now rewrite IH2].
  - split; [now rewrite IH1 | now rewrite IH2].
Qed.

(** The decimal text of a positive number: digits only, not empty, worth
    the number, and no longer than the number is large. *)
Lemma digits_of_N_spec (n : N) :
  n <> 0%N ->
  all_digits (digits_of_N n) = true
  /\ digits_of_N n <> ""
  /\ digits_val (digits_of_N n) = Z.of_N n
  /\ 10 ^ (Z.of_nat (String.length (digits_of_N n)) - 1) <= Z.of_N n.
Proof.
  intros Hn. unfold digits_of_N, digits_val.
  pose proof (to_uint_head n Hn) as Hh.
  pose proof (DecimalN.Unsigned.of_to n) as Hof. unfold N.of_uint in Hof.
  pose proof (of_uint_val (N.to_uint n)) as Hv. rewrite Hof in Hv.
  pose proof (all_digits_uint (N.to_uint n)) as Hd.
  pose proof (digits_val_uint (N.to_uint n) 0) as Hs.
  destruct (N.to_uint n) as [|l|l|l|l|l|l|l|l|l|l] eqn:E; try contradiction;
    cbn [NilZero.string_of_uint]; (split; [exact Hd|]);
    (split; [cbn [NilEmpty.string_of_uint]; discriminate|]);
    (split; [now rewrite Hs, <- Hv|]);
    rewrite Hv; cbn [NilEmpty.string_of_uint String.length uint_val];
    rewrite Nat2Z.inj_succ;
    replace (Z.succ (Z.of_nat (String.length (NilEmpty.string_of_uint l))) - 1)
      with (Z.of_nat (String.length (NilEmpty.string_of_uint l))) by lia;
    (eapply Z.le_trans; [|apply uint_val_lower; lia]);
    match goal with
    | |- ?p <= _ => assert (0 <= p) by (apply Z.pow_nonneg; lia)
    end; lia.
Qed.

Lemma digits_length_bound (n : N) :
  n <> 0%N -> Z.of_N n < 10 ^ 21 ->
  Z.of_nat (String.length (digits_of_N n)) <= 21.
Proof.
  intros Hn Hlt. destruct (digits_of_N_spec n Hn) as (_ & _ & _ & Hlow).
  assert (H : 10 ^ (Z.of_nat (String.length (digits_of_N n)) - 1) < 10 ^ 21)
    by lia.
  apply Z.pow_lt_mono_r_iff in H; lia.
Qed.

(** An integer below [10^21] is printed as its digits, after its sign. *)
Lemma Number_toString_int (z : Z) :
  z <> 0 -> Z.abs z < 10 ^ 21 ->
  Number_toString (Finite z 0)
  = ((if (z <? 0)%Z then "-" else "") ++ digits_of_N (Z.to_N (Z.abs z)))%string.
Proof.
  intros Hz Hlt.
  assert (Hn : Z.to_N (Z.abs z) <> 0%N) by lia.
  pose proof (digits_length_bound (Z.to_N (Z.abs z)) Hn ltac:(lia)) as Hlen.
  destruct (strip_zeros_spec (digits_of_N (Z.to_N (Z.abs z)))) as [S1 S2].
  assert (B : forall m, m = z ->
            (let (d, k0) := strip_zeros (digits_of_N (Z.to_N (Z.abs m))) in
             let k := Z.of_nat (String.length d) in
             let n := k + (0 + Z.of_nat k0) in
             if (k <=? n) && (n <=? 21) then (d ++ zeros (Z.to_nat (n - k)))%string
             else ""%string)
            = digits_of_N (Z.to_N (Z.abs z))).
  { intros m ->. destruct (strip_zeros (digits_of_N (Z.to_N (Z.abs z))))
      as [d k0]. cbn [fst snd] in *. cbv zeta.
    replace (Z.of_nat (String.length d) <=?
             Z.of_nat (String.length d) + (0 + Z.of_nat k0)) with true
      by (symmetry; apply Z.leb_le; lia).
    replace (Z.of_nat (String.length d) + (0 + Z.of_nat k0) <=? 21) with true
      by (symmetry; apply Z.leb_le; lia).
    cbn [andb].
    replace (Z.to_nat (Z.of_nat (String.length d) + (0 + Z.of_nat k0)
                       - Z.of_nat (String.length d))) with k0 by lia.
    exact S1. }
  destruct z as [|p|p]; [contradiction| |];
    unfold Number_toString;
    specialize (B _ eq_refl);
    destruct (strip_zeros (digits_of_N (Z.to_N (Z.abs _)))) as [d k0];
    cbv zeta in *;
    destruct ((Z.of_nat (String.length d) <=?
               Z.of_nat (String.length d) + (0 + Z.of_nat k0))
              && (Z.of_nat (String.length d) + (0 + Z.of_nat k0) <=? 21)) eqn:E;
    cbn [fst snd] in *.
  - rewrite B. reflexivity.
  - exfalso. apply andb_false_iff in E as [E | E]; apply Z.leb_gt in E; lia.
  - rewrite B. reflexivity.
  - exfalso. apply andb_false_iff in E as [E | E]; apply Z.leb_gt in E; lia.
Qed.

Lemma no_hex_prefix (s : string) :
  all_digits s = true -> starts_with "0x" s || starts_with "0X" s = false.
Proof.
  destruct s as [|c [|c2 r]]; intros H.
  - reflexivity.
  - cbn [starts_with]. now rewrite !andb_false_r.
  - cbn [all_digits] in H. apply andb_true_iff in H as [_ H].
    apply andb_true_iff in H as [H _].
    destruct (digit_char_facts c2 H) as (_ & _ & _ & Hx & HX).
    cbn [starts_with]. rewrite Hx, HX. cbn [andb]. now rewrite !andb_false_r.
Qed.

Lemma read_sign_digit (s : string) :
  all_digits s = true -> s <> "" ->
  trim_left s = s /\ read_sign s = (false, s).
Proof.
  destruct s as [|c r]; intros H Hne; [contradiction|].
  cbn [all_digits] in H. apply andb_true_iff in H as [H _].
  destruct (digit_char_facts c H) as (Hs & Hm & Hp & _).
  cbn [trim_left]. rewrite Hs. split; [reflexivity|].
  destruct c as [b0 b1 b2 b3 b4 b5 b6 b7].
  destruct b0, b1, b2, b3, b4, b5, b6, b7; try discriminate Hm;
    try discriminate Hp; reflexivity.
Qed.

(** [parseInt] reads a run of digits, with or without a minus, as the
    number it writes. *)
Lemma parseInt_digits (s : string) (neg : bool) :
  all_digits s = true -> s <> "" ->
  parseInt ((if neg then "-" else "") ++ s)
  = Finite (if neg then - digits_val s else digits_val s) 0.
Proof.
  intros H Hne. unfold parseInt.
  destruct (read_sign_digit s H Hne) as [Ht Hr].
  assert (E : read_sign (trim_left ((if neg then "-" else "") ++ s))
              = (neg, s)).
  { destruct neg; cbn [append]; [reflexivity | now rewrite Ht]. }
  rewrite E, (no_hex_prefix s H), (span_all_digits s H).
  destruct s; [contradiction | reflexivity].
Qed.

(** Every integer of magnitude below [10^21] is read back by [parseInt] as
    itself. *)
Lemma integer_reads_as_itself (z : Z) :
  Z.abs z < 10 ^ 21 ->
  num_eqb (parseInt (Number_toString (Finite z 0))) (Finite z 0) = true.
Proof.
  intros Hlt. destruct (Z.eq_dec z 0) as [-> | Hz]; [reflexivity|].
  assert (Hn : Z.to_N (Z.abs z) <> 0%N) by lia.
  destruct (digits_of_N_spec _ Hn) as (Hd & Hne & Hv & _).
  rewrite Number_toString_int by assumption.
  rewrite (parseInt_digits _ (z <? 0) Hd Hne), Hv.
  unfold num_eqb, fin_compare.
  replace (if z <? 0 then - Z.of_N (Z.to_N (Z.abs z))
           else Z.of_N (Z.to_N (Z.abs z))) with z
    by (destruct (Z.ltb_spec z 0); lia).
  now rewrite Z.compare_refl.
Qed.

(** ** Parameters: type inference *)

Lemma init_default : init VUndefined = Ok default_config.
Proof. reflexivity. Qed.

(** A one-key mapping [{ n: v }] is split into the single parameter [n]. *)
Lemma formatParameters_single (h : host) (cfg : config) (n : string) (v : value) :
  formatParameters h cfg (VObj [(n, v)]) =
  (x <- formatParam h (VStr n) v (formatOptions cfg) ;; Ok (VArr [x])).
Proof.
  unfold formatParameters. simpl. unfold splitParams. simpl.
  rewrite String.eqb_refl. simpl.
  destruct (formatParam _ _ _ _); reflexivity.
Qed.

(** A number whose inferred type is a tag is wrapped in that tag. *)
Lemma formatParam_number (h : host) (n : string) (v : number) (fo : value)
  (tag : string) :
  getType (VNum v) = VStr tag -> tag <> "" -> tag <> "isNull" ->
  formatParam h (VStr n) (VNum v) fo = Ok (param n (tagged tag (VNum v))).
Proof.
  intros Ht Hne Hn. unfold formatParam, formatType. rewrite Ht. simpl.
  destruct (String.eqb_spec tag ""); [congruence|]. simpl.
  destruct (String.eqb_spec tag "isNull"); [congruence|]. reflexivity.
Qed.

Lemma getType_long (v : number) :
  num_eqb (parseInt (Number_toString v)) v = true ->
  getType (VNum v) = VStr "longValue".
Proof. intros H. unfold getType. simpl. rewrite H. reflexivity. Qed.

Lemma getType_double (v : number) :
  num_eqb (parseInt (Number_toString v)) v = false ->
  num_eqb (parseFloat (Number_toString v)) v = true ->
  getType (VNum v) = VStr "doubleValue".
Proof. intros H1 H2. unfold getType. simpl. rewrite H1, H2. reflexivity. Qed.

(** C1.  A numeric parameter whose integer parse equals it is tagged
    [longValue]; otherwise, when its float parse equals it, it is tagged
    [doubleValue]; every integer of magnitude below [10^21] is of the first
    kind; so [5] and [5.0] go out as [longValue] and [5.5] as
    [doubleValue]. *)
Theorem C1_numeric_inference :
  forall (h : host) (cfg : config) (n : string) (v : number),
    (num_eqb (parseInt (Number_toString v)) v = true ->
     formatParameters h cfg (VObj [(n, VNum v)])
     = Ok (VArr [param n (tagged "longValue" (VNum v))]))
    /\ (num_eqb (parseInt (Number_toString v)) v = false ->
        num_eqb (parseFloat (Number_toString v)) v = true ->
        formatParameters h cfg (VObj [(n, VNum v)])
        = Ok (VArr [param n (tagged "doubleValue" (VNum v))]))
    /\ (forall z : Z,
           Z.abs z < 10 ^ 21 ->
           formatParameters h cfg (VObj [(n, VNum (num_of_Z z))])
           = Ok (VArr [param n (tagged "longValue" (VNum (num_of_Z z)))]))
    /\ formatParameters h cfg (VObj [(n, VNum (Finite 5 0))])
       = Ok (VArr [param n (tagged "longValue" (VNum (Finite 5 0)))])
    /\ formatParameters h cfg (VObj [(n, VNum (Finite 50 (-1)))])
       = Ok (VArr [param n (tagged "longValue" (VNum (Finite 50 (-1))))])
    /\ formatParameters h cfg (VObj [(n, VNum (Finite 55 (-1)))])
       = Ok (VArr [param n (tagged "doubleValue" (VNum (Finite 55 (-1))))]).
Proof.
  intros h cfg n v.
  assert (L : forall x, num_eqb (parseInt (Number_toString x)) x = true ->
              formatParameters h cfg (VObj [(n, VNum x)])
              = Ok (VArr [param n (tagged "longValue" (VNum x))])).
  { intros x Hx. rewrite formatParameters_single.
    rewrite (formatParam_number h n x _ "longValue");
      [reflexivity | now apply getType_long | discriminate | discriminate]. }
  assert (D : forall x, num_eqb (parseInt (Number_toString x)) x = false ->
              num_eqb (parseFloat (Number_toString x)) x = true ->
              formatParameters h cfg (VObj [(n, VNum x)])
              = Ok (VArr [param n (tagged "doubleValue" (VNum x))])).
  { intros x H1 H2. rewrite formatParameters_single.
    rewrite (formatParam_number h n x _ "doubleValue");
      [reflexivity | now apply getType_double | discriminate | discriminate]. }
  repeat split.
  - apply L.
  - apply D.
  - intros z Hz. apply L. now apply integer_reads_as_itself.
  - apply L. reflexivity.
  - apply L. reflexivity.
  - apply D; reflexivity.
Qed.

Lemma C1_numeric_inference_witness :
  formatParameters node_utc default_config (VObj [("age", VNum (Finite 18 0))])
  = Ok (VArr [param "age" (tagged "longValue" (VNum (Finite 18 0)))])
  /\ formatParameters node_utc
       default_config (VObj [("ratio", VNum (Finite 25 (-2)))])
     = Ok (VArr [param "ratio" (tagged "doubleValue" (VNum (Finite 25 (-2))))]).
Proof.
  split.
  - apply (proj1 (C1_numeric_inference _ default_config "age" (Finite 18 0))).
    reflexivity.
  - apply (proj1 (proj2 (C1_numeric_inference _ default_config "ratio"
                           (Finite 25 (-2))))); reflexivity.
Defined.

Lemma formatParam_untyped (h : host) (n : string) (v fo : value) :
  getType v = VUndefined ->
  formatParam h (VStr n) v fo = Throw (invalid_type n).
Proof.
  intros Ht. unfold formatParam, formatType. rewrite Ht.
  destruct (getTypeHint v); reflexivity.
Qed.

(** C5 as stated fails at [Infinity]: its float parse is [Infinity] again,
    so the parameter is accepted and tagged [doubleValue]. *)
Lemma C5_infinity_is_accepted :
  formatParameters node_utc default_config (VObj [("x", VNum (Infinity false))])
  = Ok (VArr [param "x" (tagged "doubleValue" (VNum (Infinity false)))])
  /\ forall e, formatParameters node_utc default_config
                 (VObj [("x", VNum (Infinity false))]) <> Throw e.
Proof. split; [reflexivity | intros e; discriminate]. Qed.

(** C5, amended.  For the numeric parameter value [NaN] no type-inference
    rule matches and [formatParameters] fails with the error naming the
    parameter; the infinities pass the float-parse rule and go out as
    [doubleValue]. *)
Theorem C5_nan_is_rejected :
  forall (h : host) (cfg : config) (n : string),
    getType (VNum NaN) = VUndefined
    /\ formatParameters h cfg (VObj [(n, VNum NaN)]) = Throw (invalid_type n)
    /\ forall neg : bool,
         formatParameters h cfg (VObj [(n, VNum (Infinity neg))])
         = Ok (VArr [param n (tagged "doubleValue" (VNum (Infinity neg)))]).
Proof.
  intros h cfg n. split; [reflexivity | split].
  - rewrite formatParameters_single, formatParam_untyped; reflexivity.
  - intros neg. rewrite formatParameters_single.
    rewrite (formatParam_number h n (Infinity neg) _ "doubleValue");
      [reflexivity | destruct neg; reflexivity | discriminate | discriminate].
Qed.

(** ** Parameters: extraction *)

(** C4 as stated fails at [0]: the argument is present and is neither an
    object nor an array, yet the call returns the empty list.  The same
    holds for the empty string and for [false]. *)
Lemma C4_falsy_argument_is_accepted :
  typeof (VNum (Finite 0 0)) <> "object"
  /\ Array_isArray (VNum (Finite 0 0)) = false
  /\ formatParameters node_utc default_config (VNum (Finite 0 0)) = Ok (VArr [])
  /\ formatParameters node_utc default_config (VStr "") = Ok (VArr [])
  /\ formatParameters node_utc default_config (VBool false) = Ok (VArr []).
Proof. repeat split; try reflexivity. discriminate. Qed.

(** C4, amended.  [formatParameters] fails with the shape error for every
    truthy argument that is neither an object nor an array, and returns the
    empty list when called with nothing. *)
Theorem C4_parameter_shape :
  forall (h : host) (cfg : config),
    (forall p : value,
        typeof p <> "object" -> truthy p = true ->
        formatParameters h cfg p
        = Throw (Error "'parameters' must be an object or array"))
    /\ formatParameters h cfg VUndefined = Ok (VArr []).
Proof.
  intros h cfg. split; [|reflexivity].
  intros p Hty Htr. unfold formatParameters, parseParams. simpl.
  destruct p; simpl in *; try congruence; try reflexivity;
    rewrite Htr; reflexivity.
Qed.

Lemma C4_parameter_shape_witness :
  formatParameters node_utc default_config (VStr "id = 1")
  = Throw (Error "'parameters' must be an object or array").
Proof.
  apply (proj1 (C4_parameter_shape node_utc default_config)).
  - discriminate.
  - reflexivity.
Defined.

(** ** Parameters: normalization *)

Lemma nonempty_truthy (n : string) : n <> "" -> truthy (VStr n) = true.
Proof.
  intros H. simpl. destruct (String.eqb_spec n ""); [congruence | reflexivity].
Qed.

(** C9.  The atomic-shape test compares the value with the string
    ['undefined']: [{ name: n, value: "undefined" }] is not passed through
    but split into the two string parameters [name] and [value], while
    [{ name: n, value: undefined }] is taken as atomic and then fails type
    inference with the error naming [n]. *)
Theorem C9_undefined_string_test :
  forall (h : host) (cfg : config) (n : string),
    formatParameters h cfg (VObj [("name", VStr n); ("value", VStr "undefined")])
    = Ok (VArr [param "name" (tagged "stringValue" (VStr n));
                param "value" (tagged "stringValue" (VStr "undefined"))])
    /\ (n <> "" ->
        formatParameters h cfg (VObj [("name", VStr n); ("value", VUndefined)])
        = Throw (invalid_type n)).
Proof.
  intros h cfg n. split.
  - unfold formatParameters. simpl.
    destruct (n =? "")%string eqn:E; simpl; try rewrite E; reflexivity.
  - intros Hn. pose proof (nonempty_truthy n Hn) as T. simpl in T.
    unfold formatParameters. simpl. rewrite T. reflexivity.
Qed.

Lemma C9_undefined_string_test_witness :
  formatParameters node_utc default_config
    (VObj [("name", VStr "id"); ("value", VUndefined)])
  = Throw (invalid_type "id").
Proof.
  apply (proj2 (C9_undefined_string_test node_utc default_config "id")).
  discriminate.
Defined.

Lemma getType_tagged (tag : string) (x : value) :
  In tag supportedTypes -> getType (tagged tag x) = VNull.
Proof.
  intros H. unfold getType, tagged. simpl.
  repeat (destruct H as [<- | H]; [reflexivity|]). destruct H.
Qed.

(** A parameter already in wire shape comes out of the formatter as
    [{ name, value }]. *)
Lemma formatParam_tagged (h : host) (n tag : string) (x fo : value) :
  In tag supportedTypes ->
  formatParam h (VStr n) (tagged tag x) fo = Ok (param n (tagged tag x)).
Proof.
  intros H. unfold formatParam. rewrite (getType_tagged tag x H). reflexivity.
Qed.

(** C2 as stated fails when [cast] is the third key: the object is taken
    as atomic, but the output parameter is rebuilt from [name] and [value]
    alone and the [cast] key is gone. *)
Lemma C2_cast_is_not_preserved :
  formatParameters node_utc default_config
    (VObj [("name", VStr "x"); ("value", tagged "stringValue" (VStr "hi"));
           ("cast", VStr "varchar")])
  = Ok (VArr [VObj [("name", VStr "x");
                    ("value", tagged "stringValue" (VStr "hi"))]])
  /\ formatParameters node_utc default_config
       (VObj [("name", VStr "x"); ("value", tagged "stringValue" (VStr "hi"));
              ("cast", VStr "varchar")])
     <> Ok (VArr [VObj [("name", VStr "x");
                        ("value", tagged "stringValue" (VStr "hi"));
                        ("cast", VStr "varchar")]]).
Proof. split; [reflexivity | discriminate]. Qed.

(** C2, amended.  A parameter object in wire shape, with a non-empty name
    and a value whose single key is a recognized tag, passes through with
    [name] and [value] unchanged: the two-key object comes out identical;
    with a (truthy) [cast] as third key the normalizer keeps the object as
    it is, and the output holds [name] and [value] only. *)
Theorem C2_wire_shape_passes_through :
  forall (h : host) (cfg : config) (n tag : string) (x : value),
    n <> "" -> In tag supportedTypes ->
    formatParameters h cfg (param n (tagged tag x))
    = Ok (VArr [param n (tagged tag x)])
    /\ forall c : value,
         truthy c = true ->
         normalizeParams
           (VArr [VObj [("name", VStr n); ("value", tagged tag x); ("cast", c)]])
         = Ok [VObj [("name", VStr n); ("value", tagged tag x); ("cast", c)]]
         /\ formatParameters h cfg
              (VObj [("name", VStr n); ("value", tagged tag x); ("cast", c)])
            = Ok (VArr [param n (tagged tag x)]).
Proof.
  intros h cfg n tag x Hn Htag.
  pose proof (nonempty_truthy n Hn) as T. simpl in T.
  pose proof (formatParam_tagged h n tag x (formatOptions cfg) Htag) as F.
  split.
  - unfold formatParameters, param. simpl. rewrite T. simpl.
    fold (tagged tag x). rewrite F. reflexivity.
  - intros c Hc. split.
    + simpl. rewrite T. simpl. rewrite Hc. reflexivity.
    + unfold formatParameters. simpl. rewrite T. simpl.
      rewrite Hc. simpl. rewrite F. reflexivity.
Qed.

Lemma C2_wire_shape_passes_through_witness :
  formatParameters node_utc default_config
    (param "createDate" (tagged "blobValue" (VBuffer [Byte.x32; Byte.x30])))
  = Ok (VArr [param "createDate"
                (tagged "blobValue" (VBuffer [Byte.x32; Byte.x30]))]).
Proof.
  apply (proj1 (C2_wire_shape_passes_through node_utc default_config
                  "createDate" "blobValue" (VBuffer [Byte.x32; Byte.x30])
                  ltac:(discriminate) ltac:(simpl; tauto))).
Defined.

(** ** Results: the value coercer *)

(** Only the truthiness of the flag matters to [formatFromTimeStamp]. *)
Lemma formatFromTimeStamp_flag (h : host) (v a : value) :
  formatFromTimeStamp h v a = formatFromTimeStamp h v (VBool (truthy a)).
Proof. unfold formatFromTimeStamp. simpl. reflexivity. Qed.

(** With the flag set, the string is handed to [Date] as it is. *)
Lemma formatFromTimeStamp_local (h : host) (v a : value) :
  truthy a = true -> formatFromTimeStamp h v a = Date_new h v.
Proof. intros H. unfold formatFromTimeStamp. rewrite H. reflexivity. Qed.

(** C6 as stated fails on its last clause: the coercer does not look at
    the type of the value, so a number in a [DATE] column is turned into a
    [Date] as well. *)
Lemma C6_non_string_is_converted :
  formatRecordValue node_utc (VNum (Finite 5 0)) (VStr "DATE")
    (formatOptions default_config)
  = Ok (VDate (Some 5))
  /\ formatRecordValue node_utc (VNum (Finite 5 0)) (VStr "DATE")
       (formatOptions default_config)
     <> Ok (VNum (Finite 5 0)).
Proof. split; [reflexivity | discriminate]. Qed.

(** C6, amended.  When date deserialization is enabled and the type name
    is one of [DATE], [DATETIME], [TIMESTAMP], [TIMESTAMP WITH TIME ZONE],
    the coercer converts the value through [formatFromTimeStamp], and
    [TIMESTAMP WITH TIME ZONE] forces the local-time reading whatever
    [treatAsLocalDate] says; for every other type name, and whenever
    deserialization is off, the value is returned unchanged. *)
Theorem C6_value_coercer :
  forall (h : host) (v ty tl : value) (dd : bool),
    (dd = true -> includes date_type_names ty = true ->
     formatRecordValue h v ty (format_options dd tl)
     = formatFromTimeStamp h v
         (VBool (truthy tl || is_str ty "TIMESTAMP WITH TIME ZONE")))
    /\ (dd = true ->
        formatRecordValue h v (VStr "TIMESTAMP WITH TIME ZONE")
          (format_options dd tl)
        = Date_new h v)
    /\ (dd = false \/ includes date_type_names ty = false ->
        formatRecordValue h v ty (format_options dd tl) = Ok v)
    /\ formatRecordValue h v ty VUndefined = Ok v.
Proof.
  intros h v ty tl dd. repeat split.
  - intros -> Hty. unfold formatRecordValue.
    remember (includes date_type_names ty) as b. subst b. rewrite Hty. simpl.
    destruct (truthy tl) eqn:T; simpl.
    + rewrite (formatFromTimeStamp_flag h v tl), T. reflexivity.
    + reflexivity.
  - intros ->. unfold formatRecordValue. simpl.
    destruct (truthy tl) eqn:T; simpl;
      apply formatFromTimeStamp_local; [exact T | reflexivity].
  - intros [-> | Hty]; unfold formatRecordValue; [reflexivity|].
    rewrite Hty. destruct dd; reflexivity.
Qed.

Lemma C6_value_coercer_witness :
  formatRecordValue node_utc (VStr "2020-02-29 01:02:03") (VStr "DATETIME")
    (format_options true (VBool false))
  = Ok (VDate (Some 1582938123000))
  /\ formatRecordValue node_utc (VStr "2020-02-29 01:02:03") (VStr "VARCHAR")
       (format_options true (VBool false))
     = Ok (VStr "2020-02-29 01:02:03").
Proof.
  split.
  - rewrite (proj1 (C6_value_coercer node_utc (VStr "2020-02-29 01:02:03")
                      (VStr "DATETIME") (VBool false) true));
      reflexivity.
  - apply (proj1 (proj2 (proj2 (C6_value_coercer node_utc
              (VStr "2020-02-29 01:02:03") (VStr "VARCHAR") (VBool false) true)))).
    right. reflexivity.
Defined.

(** ** The calendar *)

(** One more year adds one leap day when the divisibility test says so. *)
Lemma step4 (y : Z) :
  (y + 1 - 1969) / 4 = (y - 1969) / 4 + (if y mod 4 =? 0 then 1 else 0).
Proof. destruct (Z.eqb_spec (y mod 4) 0); Z.div_mod_to_equations; lia. Qed.
Lemma step100 (y : Z) :
  (y + 1 - 1901) / 100 = (y - 1901) / 100 + (if y mod 100 =? 0 then 1 else 0).
Proof. destruct (Z.eqb_spec (y mod 100) 0); Z.div_mod_to_equations; lia. Qed.
Lemma step400 (y : Z) :
  (y + 1 - 1601) / 400 = (y - 1601) / 400 + (if y mod 400 =? 0 then 1 else 0).
Proof. destruct (Z.eqb_spec (y mod 400) 0); Z.div_mod_to_equations; lia. Qed.
Lemma mod_100_4 (y : Z) : y mod 100 = 0 -> y mod 4 = 0.
Proof. intros. Z.div_mod_to_equations; lia. Qed.
Lemma mod_400_100 (y : Z) : y mod 400 = 0 -> y mod 100 = 0.
Proof. intros. Z.div_mod_to_equations; lia. Qed.

Lemma DayFromYear_step (y : Z) :
  DayFromYear (y + 1) = DayFromYear y + DaysInYear y.
Proof.
  unfold DayFromYear, DaysInYear, is_leap.
  rewrite step4, step100, step400.
  destruct (Z.eqb_spec (y mod 4) 0) as [H4|H4],
    (Z.eqb_spec (y mod 100) 0) as [H100|H100],
    (Z.eqb_spec (y mod 400) 0) as [H400|H400]; cbn [andb orb negb]; try lia;
    pose proof (mod_400_100 y); pose proof (mod_100_4 y); intuition lia.
Qed.

(** [YearFromDay] finds the year the day falls in. *)
Lemma YearFromDay_spec (day : Z) :
  DayFromYear (YearFromDay day) <= day < DayFromYear (YearFromDay day + 1).
Proof.
  unfold YearFromDay.
  set (y := 1970 + 400 * day / 146097).
  assert (B : DayFromYear (y - 1) <= day < DayFromYear (y + 2)).
  { unfold DayFromYear, y. Z.div_mod_to_equations. lia. }
  destruct (Z.ltb_spec day (DayFromYear y)).
  - replace (y - 1 + 1) with y by lia. lia.
  - destruct (Z.leb_spec (DayFromYear (y + 1)) day).
    + replace (y + 1 + 1) with (y + 2) by lia. lia.
    + lia.
Qed.

Lemma DayWithinYear_range (t : Z) :
  0 <= DayWithinYear t < DaysInYear (YearFromTime t).
Proof.
  unfold DayWithinYear, YearFromTime.
  pose proof (YearFromDay_spec (Day t)) as H.
  rewrite DayFromYear_step in H. lia.
Qed.

Lemma MonthFromTime_range (t : Z) : 0 <= MonthFromTime t <= 11.
Proof.
  unfold MonthFromTime.
  repeat match goal with
         | |- context [if ?c then _ else _] => destruct c
         end; lia.
Qed.

(** The calendar date of a time value names a day of its month. *)
Lemma DateFromTime_range (t : Z) :
  1 <= DateFromTime t <= DaysInMonth (YearFromTime t) (MonthFromTime t).
Proof.
  pose proof (DayWithinYear_range t) as R.
  unfold DateFromTime, DaysInMonth, MonthFromTime, InLeapYear, DaysInYear in *.
  set (d := DayWithinYear t) in *. set (y := YearFromTime t) in *.
  destruct (is_leap y);
    repeat match goal with
           | |- context [if ?c <? ?e then _ else _] =>
               destruct (Z.ltb_spec c e)
           end; cbn; lia.
Qed.

Lemma MakeDay_of_time (t : Z) :
  MakeDay (YearFromTime t) (MonthFromTime t) (DateFromTime t) = Day t.
Proof.
  unfold MakeDay, DateFromTime, DayWithinYear, InLeapYear. lia.
Qed.

Lemma MakeDate_of_time (t : Z) :
  msFromTime t = 0 ->
  MakeDate (Day t) (MakeTime (HourFromTime t) (MinFromTime t) (SecFromTime t) 0)
  = t.
Proof.
  unfold msFromTime, MakeDate, MakeTime, Day, HourFromTime, MinFromTime,
    SecFromTime, msPerDay, msPerHour, msPerMinute, msPerSecond.
  intros H. Z.div_mod_to_equations. lia.
Qed.

Lemma time_fields_range (t : Z) :
  0 <= HourFromTime t <= 23 /\ 0 <= MinFromTime t <= 59
  /\ 0 <= SecFromTime t <= 59.
Proof.
  unfold HourFromTime, MinFromTime, SecFromTime.
  repeat split; Z.div_mod_to_equations; lia.
Qed.

(** ** Digits *)

Lemma upto_In (n z : Z) : 0 <= z < n -> In z (upto n).
Proof.
  intros H. unfold upto. apply in_map_iff. exists (Z.to_nat z). split.
  - lia.
  - apply in_seq. lia.
Qed.

Lemma pad_two (z : Z) :
  0 <= z <= 99 -> pad (Finite z 0) 2 = Ok (two_digits z).
Proof.
  intros H.
  assert (A : forallb pads_to_two (upto 100) = true) by (vm_compute; reflexivity).
  rewrite forallb_forall in A. specialize (A z (upto_In 100 z ltac:(lia))).
  unfold pads_to_two in A. destruct (pad (Finite z 0) 2); [|discriminate].
  apply String.eqb_eq in A. now subst.
Qed.

Lemma year_four (z : Z) :
  1000 <= z <= 9999 -> Number_toString (Finite z 0) = four_digits z.
Proof.
  intros H.
  assert (A : forallb prints_four (upto 10000) = true) by (vm_compute; reflexivity).
  rewrite forallb_forall in A. specialize (A z (upto_In 10000 z ltac:(lia))).
  unfold prints_four in A. apply orb_true_iff in A as [A | A].
  - apply Z.ltb_lt in A. lia.
  - now apply String.eqb_eq in A.
Qed.

Lemma digit_char_spec (a : Z) :
  0 <= a <= 9 -> is_digit (digit_char a) = true /\ digit_val (digit_char a) = a.
Proof.
  intros H.
  assert (E : a = 0 \/ a = 1 \/ a = 2 \/ a = 3 \/ a = 4 \/ a = 5 \/ a = 6
              \/ a = 7 \/ a = 8 \/ a = 9) by lia.
  repeat (destruct E as [-> | E]; [split; reflexivity|]). subst. split; reflexivity.
Qed.

Lemma read_digits_digit (n : nat) (acc a : Z) (r : string) :
  0 <= a <= 9 ->
  read_digits (S n) acc (String (digit_char a) r)
  = read_digits n (10 * acc + a) r.
Proof.
  intros H. destruct (digit_char_spec a H) as [D V].
  cbn [read_digits]. now rewrite D, V.
Qed.

Lemma read_digits_two (z acc : Z) (r : string) :
  0 <= z <= 99 ->
  read_digits 2 acc (two_digits z ++ r) = Some (100 * acc + z, r).
Proof.
  intros H. unfold two_digits. cbn [append].
  rewrite !read_digits_digit by (Z.div_mod_to_equations; lia).
  cbn [read_digits]. f_equal. f_equal. Z.div_mod_to_equations; lia.
Qed.

Lemma read_digits_four (z : Z) (r : string) :
  1000 <= z <= 9999 -> read_digits 4 0 (four_digits z ++ r) = Some (z, r).
Proof.
  intros H. unfold four_digits. cbn [append].
  rewrite !read_digits_digit by (Z.div_mod_to_equations; lia).
  rewrite read_digits_two by (Z.div_mod_to_equations; lia).
  f_equal. f_equal. Z.div_mod_to_equations; lia.
Qed.

(** ** The timestamp codec *)

Lemma append_assoc (a b c : string) : ((a ++ b) ++ c = a ++ (b ++ c))%string.
Proof. induction a as [|x a IH]; simpl; [reflexivity | now rewrite IH]. Qed.

Lemma num_add_Z (a b : Z) : num_add (num_of_Z a) (num_of_Z b) = num_of_Z (a + b).
Proof.
  unfold num_add, num_of_Z. change (Z.min 0 0) with 0.
  change (10 ^ (0 - 0)) with 1. f_equal. lia.
Qed.

Lemma read_char_lit (c : ascii) (r : string) :
  read_char (is_char c) (String c r) = Some r.
Proof. unfold read_char, is_char. now rewrite Ascii.eqb_refl. Qed.

Lemma DateFromTime_two_digits (t : Z) : 1 <= DateFromTime t <= 31.
Proof.
  pose proof (MonthFromTime_range t) as Hm.
  pose proof (DateFromTime_range t) as Hd.
  assert (DaysInMonth (YearFromTime t) (MonthFromTime t) <= 31); [|lia].
  unfold DaysInMonth. destruct (is_leap (YearFromTime t));
    assert (E : MonthFromTime t = 0 \/ MonthFromTime t = 1
                \/ MonthFromTime t = 2 \/ MonthFromTime t = 3
                \/ MonthFromTime t = 4 \/ MonthFromTime t = 5
                \/ MonthFromTime t = 6 \/ MonthFromTime t = 7
                \/ MonthFromTime t = 8 \/ MonthFromTime t = 9
                \/ MonthFromTime t = 10 \/ MonthFromTime t = 11) by lia;
    repeat (destruct E as [-> | E]; [cbn; lia|]); rewrite E; cbn; lia.
Qed.


Lemma read_ymd_stamp (t : Z) (sfx : string) :
  1000 <= YearFromTime t <= 9999 ->
  read_ymd (utc_stamp t sfx)
  = Some (YearFromTime t, MonthFromTime t + 1, DateFromTime t,
          String " " (utc_clock t sfx)).
Proof.
  intros Hy.
  pose proof (MonthFromTime_range t) as Hm.
  pose proof (DateFromTime_two_digits t) as Hd.
  unfold utc_stamp, read_ymd.
  rewrite read_digits_four by lia. cbn [append]. rewrite read_char_lit.
  rewrite read_digits_two by lia. cbn [append]. rewrite read_char_lit.
  rewrite read_digits_two by lia. reflexivity.
Qed.

Lemma read_hms_clock (t : Z) (sfx : string) :
  read_hms (utc_clock t sfx)
  = Some (HourFromTime t, MinFromTime t, SecFromTime t, sfx).
Proof.
  pose proof (time_fields_range t) as (Hh & Hmi & Hs).
  unfold utc_clock, read_hms.
  rewrite read_digits_two by lia. cbn [append]. rewrite read_char_lit.
  rewrite read_digits_two by lia. cbn [append]. rewrite read_char_lit.
  rewrite read_digits_two by lia. reflexivity.
Qed.


Lemma utc_stamp_suffix (t : Z) (sfx : string) :
  (utc_stamp t "" ++ sfx = utc_stamp t sfx)%string.
Proof.
  unfold utc_stamp, utc_clock. rewrite !append_assoc. reflexivity.
Qed.

(** The text of a date, with the zone marker, is read back as that date. *)
Lemma read_utc_timestamp_stamp (t : Z) :
  msFromTime t = 0 -> 1000 <= YearFromTime t <= 9999 ->
  read_utc_timestamp (utc_stamp t "Z") = Some t.
Proof.
  intros Hms Hy.
  pose proof (MonthFromTime_range t) as Hm.
  pose proof (DateFromTime_range t) as Hd.
  pose proof (time_fields_range t) as (Hh & Hmi & Hs).
  unfold read_utc_timestamp. rewrite read_ymd_stamp by assumption.
  replace (MonthFromTime t + 1 - 1) with (MonthFromTime t) by lia.
  assert (V : valid_ymd (YearFromTime t) (MonthFromTime t + 1) (DateFromTime t)
              = true).
  { unfold valid_ymd.
    replace (MonthFromTime t + 1 - 1) with (MonthFromTime t) by lia.
    repeat (apply andb_true_intro; split); apply Z.leb_le; lia. }
  rewrite V. rewrite read_char_lit, read_hms_clock.
  assert (W : valid_hms (HourFromTime t) (MinFromTime t) (SecFromTime t) = true).
  { unfold valid_hms.
    repeat (apply andb_true_intro; split); apply Z.leb_le; lia. }
  rewrite W, MakeDay_of_time, MakeDate_of_time by assumption. reflexivity.
Qed.




(** ** Results: the field map *)

Open Scope list_scope.

Lemma value_tag_facts (t : string) :
  In t value_tags ->
  (t =? "isNull")%string = false /\ (t =? "")%string = false
  /\ mem_string t Object_prototype_members = false.
Proof.
  intros H. unfold value_tags in H. simpl in H.
  repeat (destruct H as [<- | H]; [repeat split; reflexivity|]). destruct H.
Qed.

(** A scalar, or [undefined], is coerced without failure, and never to an
    array. *)
Lemma formatRecordValue_simple (h : host) (v ty tl : value) (dd : bool) :
  scalar v = true \/ v = VUndefined ->
  formatRecordValue h v ty (format_options dd tl)
  = Ok (coerced h (format_options dd tl) ty v)
  /\ Array_isArray (coerced h (format_options dd tl) ty v) = false.
Proof.
  intros Hv. unfold coerced.
  assert (E : exists x, formatRecordValue h v ty (format_options dd tl) = Ok x
                        /\ Array_isArray x = false).
  { unfold formatRecordValue. cbn [format_options get_prop lookup String.eqb
      Ascii.eqb Bool.eqb and_also or_else bind truthy].
    destruct dd; cbn [truthy bind].
    2:{ exists v. split; [reflexivity|]. destruct Hv as [Hv | ->];
        [destruct v; try discriminate|]; reflexivity. }
    destruct (includes date_type_names ty); cbn [truthy bind].
    2:{ exists v. split; [reflexivity|]. destruct Hv as [Hv | ->];
        [destruct v; try discriminate|]; reflexivity. }
    unfold or_else, bind.
    assert (F : forall a, exists t, formatFromTimeStamp h v a = Ok (VDate t)).
    { intros a. unfold formatFromTimeStamp.
      destruct Hv as [Hv | ->]; [destruct v; try discriminate|];
        destruct (truthy a); cbn [bind ToString Date_new];
        try (eexists; reflexivity);
        match goal with
        | |- context [if ?c then _ else _] => destruct c
        end; cbn [bind ToString Date_new]; try destruct b; eexists; reflexivity. }
    destruct (truthy tl);
      match goal with
      | |- context [formatFromTimeStamp h v ?a] => destruct (F a) as (t & ->)
      end; eexists; split; reflexivity. }
  destruct E as (x & -> & Hx). auto.
Qed.

Lemma fmap_at_middle (pre post : list fmap_entry) (e : fmap_entry) :
  fmap_at (pre ++ e :: post) (List.length pre) = Some e.
Proof.
  unfold fmap_at. induction pre as [|x pre IH]; [reflexivity | exact IH].
Qed.

Lemma fmap_set_field_middle (pre post : list fmap_entry) (e : fmap_entry)
  (t : string) :
  fmap_set_field (pre ++ e :: post) (List.length pre) t
  = (pre ++ set_prop "field" (VStr t) e :: post)%list.
Proof.
  induction pre as [|x pre IH]; [reflexivity|]. simpl. now rewrite IH.
Qed.

Lemma set_prop_fresh (k : string) (v : value) (props : list (string * value)) :
  ~ In k (map fst props) -> set_prop k v props = (props ++ [(k, v)])%list.
Proof.
  induction props as [|[k' v'] ps IH]; intros H; [reflexivity|].
  simpl in *. destruct (String.eqb_spec k' k) as [-> | Hne].
  - exfalso. apply H. now left.
  - rewrite IH; [reflexivity | tauto].
Qed.

Lemma combine_snoc {A B} (la : list A) (lb : list B) (a : A) (b : B) :
  List.length la = List.length lb ->
  combine (la ++ [a]) (lb ++ [b]) = (combine la lb ++ [(a, b)])%list.
Proof.
  revert lb. induction la as [|x la IH]; intros [|y lb] H; try discriminate.
  - reflexivity.
  - simpl. rewrite IH; [reflexivity | now inversion H].
Qed.

Lemma combine_keys {A B} (la : list A) (lb : list B) :
  List.length la = List.length lb -> map fst (combine la lb) = la.
Proof.
  revert lb. induction la as [|x la IH]; intros [|y lb] H; try discriminate.
  - reflexivity.
  - simpl. rewrite IH; [reflexivity | now inversion H].
Qed.

(** Adding a value to the row under construction. *)
Lemma emit_row (hydrate : bool) (labels : list string) (vals : list value)
  (pre post : list fmap_entry) (m : string * value) (memo : option string)
  (v : value) :
  List.length labels = List.length vals ->
  (hydrate = true -> ~ In (fst m) labels) ->
  Array_isArray v = false ->
  emit hydrate (row_value hydrate labels vals)
    (pre ++ entry_of m memo :: post) (List.length pre) v
  = Ok (row_value hydrate (labels ++ [fst m]) (vals ++ [v])).
Proof.
  intros Hlen Hfresh Hv. unfold emit, row_value, fmap_get.
  destruct hydrate.
  - rewrite fmap_at_middle. cbn [bind entry_of entry_prop lookup app
      String.eqb Ascii.eqb Bool.eqb ToPropertyKey ToString].
    unfold Object_assign. cbn [fold_left fst snd].
    rewrite set_prop_fresh, combine_snoc; auto.
    rewrite combine_keys; auto.
  - destruct v; try discriminate; reflexivity.
Qed.

Lemma get_prop_tagged (tag t : string) (v : value) :
  In t value_tags ->
  get_prop (tagged tag v) t = Ok (unwrapped (Some t) (tagged tag v)).
Proof.
  intros Ht. destruct (value_tag_facts t Ht) as (_ & _ & Hm).
  unfold tagged, unwrapped, get_prop. cbn [lookup].
  destruct (tag =? t)%string; [reflexivity | now rewrite Hm].
Qed.

Lemma unwrapped_simple (tag : string) (memo : option string) (v : value) :
  scalar v = true ->
  scalar (unwrapped memo (tagged tag v)) = true
  \/ unwrapped memo (tagged tag v) = VUndefined.
Proof.
  intros Hv. destruct memo as [t|]; [|now right].
  unfold unwrapped, tagged. cbn [lookup].
  destruct (tag =? t)%string; [now left | now right].
Qed.

(** The reducer on one raw field does what [cell_step] says. *)
Lemma format_field_raw (h : host) (hydrate dd : bool) (tl : value)
  (labels : list string) (vals : list value)
  (pre post : list fmap_entry) (m : string * value) (memo : option string)
  (f : value) :
  raw_field f ->
  (forall t, memo = Some t -> In t value_tags) ->
  List.length labels = List.length vals ->
  (hydrate = true -> ~ In (fst m) labels) ->
  format_field h hydrate (format_options dd tl)
    (pre ++ entry_of m memo :: post, row_value hydrate labels vals)
    f (List.length pre)
  = Ok (pre ++ entry_of m (fst (cell_step h (format_options dd tl) (snd m) memo f))
            :: post,
        row_value hydrate (labels ++ [fst m])
          (vals ++ [snd (cell_step h (format_options dd tl) (snd m) memo f)]))%list.
Proof.
  intros Hf Hmemo Hlen Hfresh.
  destruct Hf as [| tag v Htag Hv].
  - (* the null field *)
    unfold format_field. cbn [null_field get_prop lookup String.eqb Ascii.eqb
      Bool.eqb bind is_true].
    rewrite emit_row by auto. cbn [bind].
    unfold cell_step. cbn [null_field is_null_field lookup String.eqb Ascii.eqb
      Bool.eqb fst snd].
    destruct memo; reflexivity.
  - (* a tagged value *)
    destruct (value_tag_facts tag Htag) as (Hn & He & Hm).
    unfold format_field.
    assert (N : get_prop (tagged tag v) "isNull" = Ok VUndefined).
    { unfold tagged, get_prop. cbn [lookup]. now rewrite Hn. }
    rewrite N. cbn [bind is_true]. rewrite fmap_at_middle.
    assert (Hnull : is_null_field (tagged tag v) = false).
    { unfold is_null_field, tagged. cbn [lookup]. now rewrite Hn. }
    unfold cell_step. rewrite Hnull. cbn [fst snd].
    destruct memo as [t|].
    + (* the tag of the column is known *)
      specialize (Hmemo t eq_refl).
      destruct (value_tag_facts t Hmemo) as (_ & Het & _).
      cbn [entry_of entry_prop lookup app String.eqb Ascii.eqb Bool.eqb truthy].
      rewrite Het. cbn [negb]. unfold fmap_get. rewrite fmap_at_middle.
      cbn [bind entry_of entry_prop lookup app String.eqb Ascii.eqb Bool.eqb
        ToPropertyKey ToString first_tag_from].
      rewrite get_prop_tagged by assumption. cbn [bind].
      change [("label", VStr (fst m)); ("typeName", snd m); ("field", VStr t)]
        with (entry_of m (Some t)).
      destruct (formatRecordValue_simple h (unwrapped (Some t) (tagged tag v))
                  (snd m) tl dd (unwrapped_simple tag (Some t) v Hv)) as [-> Ha].
      cbn [bind].
      rewrite (emit_row hydrate labels vals pre post m (Some t)) by auto.
      reflexivity.
    + (* discovery *)
      cbn [entry_of entry_prop lookup app String.eqb Ascii.eqb Bool.eqb truthy].
      unfold discover. cbn [tagged Object_keys map fst bind foldM].
      rewrite Hn. cbn [negb].
      assert (G : get_prop (tagged tag v) tag = Ok v).
      { unfold tagged, get_prop. cbn [lookup]. now rewrite String.eqb_refl. }
      rewrite G. cbn [bind].
      assert (Hnn : is_null v = false) by (destruct v; try discriminate; reflexivity).
      rewrite Hnn. cbn [negb]. unfold fmap_get. rewrite fmap_at_middle.
      cbn [bind]. rewrite fmap_set_field_middle, fmap_at_middle.
      cbn [entry_of app set_prop String.eqb Ascii.eqb Bool.eqb bind entry_prop
        lookup ToPropertyKey ToString].
      rewrite G. cbn [bind].
      cbn [first_tag_from field_tag tagged]. rewrite Hn.
      cbn [first_tag_from unwrapped lookup tagged]. rewrite String.eqb_refl.
      change [("label", VStr (fst m)); ("typeName", snd m); ("field", VStr tag)]
        with (entry_of m (Some tag)).
      destruct (formatRecordValue_simple h v (snd m) tl dd (or_introl Hv))
        as [-> Ha].
      cbn [bind].
      rewrite (emit_row hydrate labels vals pre post m (Some tag)) by auto.
      reflexivity.
Qed.

Lemma cell_step_memo_ok (h : host) (fo ty : value) (memo : option string)
  (f : value) :
  raw_field f -> memo_ok memo -> memo_ok (fst (cell_step h fo ty memo f)).
Proof.
  intros Hf Hm. unfold cell_step. cbn [fst].
  destruct memo as [t|]; [exact Hm|].
  destruct Hf as [|tag v Htag Hv]; intros t Ht; [discriminate|].
  destruct (value_tag_facts tag Htag) as (Hn & _).
  cbn [first_tag_from field_tag tagged] in Ht. rewrite Hn in Ht.
  inversion Ht; now subst.
Qed.

(** The reducer over the fields of a row does what [row_step] says. *)
Lemma row_fold (h : host) (hydrate dd : bool) (tl : value) :
  forall (fields : list value) (metas : list (string * value))
         (memos : list (option string)) (pre : list fmap_entry)
         (labels : list string) (vals : list value),
    Forall raw_field fields ->
    List.length metas = List.length fields ->
    List.length memos = List.length fields ->
    Forall memo_ok memos ->
    List.length labels = List.length vals ->
    (hydrate = true -> NoDup (labels ++ map fst metas)) ->
    foldMi_from (format_field h hydrate (format_options dd tl))
      (List.length pre) fields
      (pre ++ fmap_of metas memos, row_value hydrate labels vals)
    = Ok (pre ++ fmap_of metas
                   (fst (row_step h (format_options dd tl) metas memos fields)),
          row_value hydrate (labels ++ map fst metas)
            (vals ++ snd (row_step h (format_options dd tl) metas memos fields))).
Proof.
  induction fields as [|f fs IH];
    intros [|m ms] [|memo memos] pre labels vals Hf Hlm Hlmemo Hok Hlen Hnd;
    try discriminate.
  - cbn [foldMi_from row_step fmap_of fst snd map]. now rewrite !app_nil_r.
  - inversion Hf as [|? ? Hf1 Hf2]; subst.
    inversion Hok as [|? ? Hok1 Hok2]; subst.
    cbn [foldMi_from fmap_of].
    rewrite (format_field_raw h hydrate dd tl labels vals pre (fmap_of ms memos)
               m memo f Hf1 Hok1 Hlen).
    2:{ intros Hh. specialize (Hnd Hh). apply NoDup_remove_2 in Hnd.
        intros Hin. apply Hnd. apply in_or_app. now left. }
    cbn [bind row_step].
    destruct (cell_step h (format_options dd tl) (snd m) memo f) as [memo' v] eqn:Ec.
    cbn [fst snd].
    destruct (row_step h (format_options dd tl) ms memos fs) as [rest vs] eqn:Er.
    cbn [fst snd fmap_of map].
    replace (pre ++ entry_of m memo' :: fmap_of ms memos)
      with ((pre ++ [entry_of m memo']) ++ fmap_of ms memos)
      by (now rewrite <- app_assoc).
    replace (S (List.length pre)) with (List.length (pre ++ [entry_of m memo']))
      by (rewrite length_app; cbn [List.length]; lia).
    rewrite (IH ms memos (pre ++ [entry_of m memo']) (labels ++ [fst m])
               (vals ++ [v])).
    + rewrite Er. cbn [fst snd]. now rewrite <- !app_assoc.
    + assumption.
    + cbn [List.length] in Hlm. lia.
    + cbn [List.length] in Hlmemo. lia.
    + assumption.
    + rewrite !length_app. cbn [List.length]. lia.
    + intros Hh. rewrite <- app_assoc. exact (Hnd Hh).
Qed.

Lemma row_step_shape (h : host) (fo : value) :
  forall (fields : list value) (metas : list (string * value))
         (memos : list (option string)),
    Forall raw_field fields ->
    List.length metas = List.length fields ->
    List.length memos = List.length fields ->
    Forall memo_ok memos ->
    List.length (fst (row_step h fo metas memos fields)) = List.length fields
    /\ List.length (snd (row_step h fo metas memos fields)) = List.length fields
    /\ Forall memo_ok (fst (row_step h fo metas memos fields)).
Proof.
  induction fields as [|f fs IH]; intros [|m ms] [|memo memos] Hf Hlm Hlmemo Hok;
    try discriminate.
  - cbn. auto.
  - inversion Hf; subst. inversion Hok; subst. cbn [row_step].
    destruct (cell_step h fo (snd m) memo f) as [memo' v] eqn:Ec.
    destruct (row_step h fo ms memos fs) as [rest vs] eqn:Er.
    destruct (IH ms memos) as (L1 & L2 & L3); auto.
    rewrite Er in L1, L2, L3. cbn [fst snd] in *. cbn [List.length].
    repeat split; try lia.
    constructor; [|assumption].
    replace memo' with (fst (cell_step h fo (snd m) memo f)) by now rewrite Ec.
    now apply cell_step_memo_ok.
Qed.

(** The pass over the rows does what [rows_run] says. *)
Lemma rows_fold (h : host) (hydrate dd : bool) (tl : value)
  (metas : list (string * value)) :
  (hydrate = true -> NoDup (map fst metas)) ->
  forall (rows : list (list value)) (memos : list (option string))
         (out : list value),
    Forall (fun r => Forall raw_field r
                     /\ List.length r = List.length metas) rows ->
    List.length memos = List.length metas ->
    Forall memo_ok memos ->
    exists memos' : list (option string),
      foldM (record_step h hydrate (format_options dd tl)) (map VArr rows)
        (fmap_of metas memos, out)
      = Ok (fmap_of metas memos',
            out ++ map (row_value hydrate (map fst metas))
                     (rows_run h (format_options dd tl) metas memos rows)).
Proof.
  intros Hnd. induction rows as [|r rs IH]; intros memos out Hrows Hlen Hok.
  - exists memos. cbn. now rewrite app_nil_r.
  - inversion Hrows as [|? ? [Hr Hrl] Hrs]; subst.
    assert (Hmr : List.length metas = List.length r) by lia.
    assert (Hor : List.length memos = List.length r) by lia.
    cbn [map foldM]. unfold record_step at 1.
    cbn [array_receiver bind]. unfold foldMi.
    pose proof (row_fold h hydrate dd tl r metas memos [] [] []
                  Hr Hmr Hor Hok eq_refl Hnd) as F.
    cbn [app List.length] in F.
    assert (E : row_value hydrate [] [] = if hydrate then VObj [] else VArr [])
      by (destruct hydrate; reflexivity).
    rewrite E in F. rewrite F; clear F.
    cbn [bind fst snd rows_run].
    destruct (row_step_shape h (format_options dd tl) r metas memos
                Hr Hmr Hor Hok) as (L1 & L2 & L3).
    destruct (row_step h (format_options dd tl) metas memos r) as [memos1 vs].
    cbn [fst snd] in *.
    destruct (IH memos1 (out ++ [row_value hydrate (map fst metas) vs])
                Hrs ltac:(lia) L3) as (memos' & ->).
    exists memos'. cbn [map]. now rewrite <- app_assoc.
Qed.

Lemma column_at (done todo : list (string * value)) (m : string * value) :
  nth (List.length done) (map column_meta (done ++ m :: todo)) VUndefined
  = column_meta m.
Proof.
  rewrite map_app. cbn [map].
  rewrite <- (length_map column_meta done). apply nth_middle.
Qed.

Lemma fmap_entry_step_at (done todo : list (string * value))
  (m : string * value) (acc : list fmap_entry) (x : value) :
  fmap_entry_step (columns_of (done ++ m :: todo)) acc x (List.length done)
  = Ok (acc ++ [entry_of m None]).
Proof.
  unfold fmap_entry_step. cbn [columns_of truthy get_index].
  rewrite column_at. reflexivity.
Qed.

(** The field map [formatRecords] starts from. *)
Lemma make_fmap_fold :
  forall (fields : list value) (todo done : list (string * value))
         (acc : list fmap_entry),
    List.length fields = List.length todo ->
    foldMi_from (fmap_entry_step (columns_of (done ++ todo)))
      (List.length done) fields acc
    = Ok (acc ++ fmap_of todo (no_memos todo)).
Proof.
  induction fields as [|f fs IH]; intros [|m ms] done acc Hlen; try discriminate.
  - cbn. now rewrite app_nil_r.
  - cbn [foldMi_from]. rewrite fmap_entry_step_at. cbn [bind].
    specialize (IH ms (done ++ [m]) (acc ++ [entry_of m None])).
    rewrite <- app_assoc in IH. cbn [app] in IH.
    rewrite length_app in IH. cbn [List.length] in IH.
    replace (List.length done + 1)%nat with (S (List.length done)) in IH by lia.
    rewrite IH by (cbn [List.length] in Hlen; lia).
    cbn [no_memos map fmap_of]. now rewrite <- app_assoc.
Qed.

Lemma make_fmap_rows (metas : list (string * value)) (r : list value)
  (rs : list value) :
  List.length r = List.length metas ->
  make_fmap (VArr (VArr r :: rs)) (columns_of metas)
  = Ok (fmap_of metas (no_memos metas)).
Proof.
  intros Hlen. unfold make_fmap.
  cbn [and_also bind truthy get_index nth array_receiver]. unfold foldMi.
  exact (make_fmap_fold r metas [] [] Hlen).
Qed.

(** [formatRecords] on raw rows with their metadata does what [rows_run]
    says. *)
Lemma formatRecords_run (h : host) (hydrate dd : bool) (tl : value)
  (metas : list (string * value)) (rows : list (list value)) :
  (hydrate = true -> NoDup (map fst metas)) ->
  Forall (fun r => Forall raw_field r
                   /\ List.length r = List.length metas) rows ->
  formatRecords h (VArr (map VArr rows)) (columns_of metas) hydrate
    (format_options dd tl)
  = Ok (VArr (map (row_value hydrate (map fst metas))
                (rows_run h (format_options dd tl) metas (no_memos metas) rows))).
Proof.
  intros Hnd Hrows. destruct rows as [|r rs]; [reflexivity|].
  unfold formatRecords. cbn [map].
  inversion Hrows as [|? ? [Hr Hrl] Hrs]; subst.
  rewrite make_fmap_rows by assumption. cbn [bind truthy array_receiver].
  assert (Hno : List.length (no_memos metas) = List.length metas)
    by apply length_map.
  assert (Hok : Forall memo_ok (no_memos metas)).
  { unfold no_memos. apply Forall_forall. intros x Hx.
    apply in_map_iff in Hx as (? & <- & _). intros t Ht. discriminate. }
  destruct (rows_fold h hydrate dd tl metas Hnd (r :: rs) (no_memos metas) []
              Hrows Hno Hok) as (memos' & E).
  cbn [map] in E.
  change (foldM _ (VArr r :: map VArr rs) (fmap_of metas (no_memos metas), []))
    with (foldM (record_step h hydrate (format_options dd tl))
            (VArr r :: map VArr rs) (fmap_of metas (no_memos metas), [])).
  rewrite E. reflexivity.
Qed.



Lemma row_step_length (h : host) (fo : value) :
  forall (fields : list value) (metas : list (string * value))
         (memos : list (option string)),
    List.length metas = List.length fields ->
    List.length memos = List.length fields ->
    List.length (fst (row_step h fo metas memos fields)) = List.length fields
    /\ List.length (snd (row_step h fo metas memos fields)) = List.length fields.
Proof.
  induction fields as [|x fs IH]; intros [|m ms] [|memo memos] Hlm Hlo;
    try discriminate; [cbn; auto|].
  cbn [row_step].
  destruct (cell_step h fo (snd m) memo x) as [memo' v].
  destruct (IH ms memos) as (L1 & L2);
    [cbn [List.length] in Hlm; lia | cbn [List.length] in Hlo; lia|].
  destruct (row_step h fo ms memos fs) as [rest vs].
  cbn [fst snd List.length] in *. lia.
Qed.


Lemma rows_run_length (h : host) (fo : value) (metas : list (string * value)) :
  forall (rows : list (list value)) (memos : list (option string)),
    List.length (rows_run h fo metas memos rows) = List.length rows.
Proof.
  induction rows as [|r rs IH]; intros memos; [reflexivity|].
  cbn [rows_run]. destruct (row_step h fo metas memos r) as [memos1 vs].
  cbn [List.length]. now rewrite IH.
Qed.




(** ** Results: the response assembler *)

Lemma bind_Ok {A B} (r : result A) (k : A -> result B) (b : B) :
  bind r k = Ok b -> exists a, r = Ok a /\ k a = Ok b.
Proof. destruct r; simpl; intros H; [eauto | discriminate]. Qed.

Lemma formatRecords_array (h : host) (recs cols : value) (hy : bool)
  (fo out : value) :
  formatRecords h recs cols hy fo = Ok out -> exists rows, out = VArr rows.
Proof.
  unfold formatRecords. intros H.
  apply bind_Ok in H as (fm & _ & H).
  destruct (truthy recs).
  - apply bind_Ok in H as (rows & _ & H). apply bind_Ok in H as (r & _ & H).
    inversion H. eauto.
  - inversion H. eauto.
Qed.

Lemma formatUpdateResults_array (res out : value) :
  formatUpdateResults res = Ok out -> exists l, out = VArr l.
Proof.
  unfold formatUpdateResults. intros H.
  apply bind_Ok in H as (l & _ & H). apply bind_Ok in H as (o & _ & H).
  inversion H. eauto.
Qed.

(** What a successful [formatResponse] is made of: each key is present
    exactly under the condition the code tests, with the value shown. *)
Lemma formatResponse_inv (h : host) (cfg : config) (r out : value) :
  formatResponse h cfg r = Ok out ->
  exists cm nru recs gf ur c props,
    get_prop r "columnMetadata" = Ok cm
    /\ get_prop r "numberOfRecordsUpdated" = Ok nru
    /\ get_prop r "records" = Ok recs
    /\ get_prop r "generatedFields" = Ok gf
    /\ get_prop r "updateResults" = Ok ur
    /\ has_items gf = Ok c
    /\ out = VObj props
    /\ lookup "columnMetadata" props = (if truthy cm then Some cm else None)
    /\ lookup "numberOfRecordsUpdated" props
       = (if negb (is_undefined nru) && negb (truthy recs) then Some nru else None)
    /\ (if truthy recs
        then exists rows,
            formatRecords h recs cm (hydrateColumnNames cfg) (formatOptions cfg)
            = Ok (VArr rows)
            /\ lookup "records" props = Some (VArr rows)
        else lookup "records" props = None)
    /\ (if truthy ur
        then exists l, formatUpdateResults ur = Ok (VArr l)
                       /\ lookup "updateResults" props = Some (VArr l)
        else lookup "updateResults" props = None)
    /\ (if truthy c
        then exists id, insertId_of gf = Ok [("insertId", id)]
                        /\ lookup "insertId" props = Some id
        else lookup "insertId" props = None)
    /\ (forall k, In k (map fst props) -> In k response_keys).
Proof.
  unfold formatResponse, formatResults. intros H.
  apply bind_Ok in H as (cm & Hcm & H). rewrite Hcm in H. simpl in H.
  apply bind_Ok in H as (nru & Hnru & H).
  apply bind_Ok in H as (recs & Hrecs & H).
  apply bind_Ok in H as (gf & Hgf & H).
  apply bind_Ok in H as (ur & Hur & H).
  apply bind_Ok in H as (rp & Hrp & H).
  apply bind_Ok in H as (up & Hup & H).
  apply bind_Ok in H as (c & Hc & H).
  apply bind_Ok in H as (ip & Hip & H).
  inversion H; subst out; clear H.
  exists cm, nru, recs, gf, ur, c. eexists.
  do 6 (split; [eassumption|]). split; [reflexivity|].
  assert (Hrp' : if truthy recs
                 then exists rows,
                     formatRecords h recs cm (hydrateColumnNames cfg)
                       (formatOptions cfg) = Ok (VArr rows)
                     /\ rp = [("records", VArr rows)]
                 else rp = []).
  { destruct (truthy recs); [|inversion Hrp; reflexivity].
    apply bind_Ok in Hrp as (x & Hx & Hrp). inversion Hrp; subst.
    destruct (formatRecords_array _ _ _ _ _ _ Hx) as (rows & ->). eauto. }
  assert (Hup' : if truthy ur
                 then exists l, formatUpdateResults ur = Ok (VArr l)
                                /\ up = [("updateResults", VArr l)]
                 else up = []).
  { destruct (truthy ur); [|inversion Hup; reflexivity].
    apply bind_Ok in Hup as (x & Hx & Hup). inversion Hup; subst.
    destruct (formatUpdateResults_array _ _ Hx) as (l & ->). eauto. }
  assert (Hip' : if truthy c
                 then exists id, insertId_of gf = Ok [("insertId", id)]
                                 /\ ip = [("insertId", id)]
                 else ip = []).
  { destruct (truthy c); [|inversion Hip; reflexivity].
    unfold insertId_of in *. apply bind_Ok in Hip as (f & Hf & Hip).
    apply bind_Ok in Hip as (id & Hid & Hip). inversion Hip; subst.
    rewrite Hf. simpl. rewrite Hid. simpl. eauto. }
  clear Hrp Hup Hip.
  destruct (truthy cm), (negb (is_undefined nru) && negb (truthy recs)),
    (truthy recs), (truthy ur), (truthy c);
  repeat match goal with
         | H : exists _, _ /\ _ |- _ => destruct H as (? & ? & ->)
         | H : _ = [] |- _ => rewrite H; clear H
         end; simpl; unfold response_keys; simpl;
  (repeat split; eauto; intros k Hk; tauto).
Qed.

(** Every configuration [init] returns has the options object of
    [config_of]. *)
Lemma init_shape (params : value) (cfg : config) :
  init params = Ok cfg ->
  exists (e : value) (hydrate dd : bool) (tl : value),
    cfg = config_of e hydrate dd tl.
Proof.
  unfold init. intros H.
  apply bind_Ok in H as (e & _ & H). apply bind_Ok in H as (hy & _ & H).
  apply bind_Ok in H as (fo & _ & H). apply bind_Ok in H as (d & _ & H).
  apply bind_Ok in H as (tl & _ & H). inversion H. unfold config_of.
  do 4 eexists. reflexivity.
Qed.

(** The response to a query: the metadata and the projected rows. *)
Lemma formatResponse_query (h : host) (e : value) (hydrate dd : bool)
  (tl : value) (metas : list (string * value)) (updated : number)
  (rows : list (list value)) :
  (hydrate = true -> NoDup (map fst metas)) ->
  Forall (fun r => Forall raw_field r
                   /\ List.length r = List.length metas) rows ->
  formatResponse h (config_of e hydrate dd tl) (query_payload metas updated rows)
  = Ok (VObj [("columnMetadata", columns_of metas);
              ("records",
               VArr (map (row_value hydrate (map fst metas))
                       (rows_run h (format_options dd tl) metas
                          (no_memos metas) rows)))]).
Proof.
  intros Hnd Hrows. unfold formatResponse, formatResults, query_payload.
  cbn [get_prop lookup String.eqb Ascii.eqb Bool.eqb bind mem_string existsb
         Object_prototype_members orb config_of hydrateColumnNames formatOptions].
  cbn [truthy columns_of is_undefined negb andb].
  rewrite formatRecords_run by assumption. reflexivity.
Qed.

(** The response to an update: the count and, when a key was generated,
    the first one. *)
Lemma formatResponse_update (h : host) (cfg : config) (updated : number)
  (ids : list Z) :
  formatResponse h cfg (update_payload updated ids)
  = Ok (VObj (("numberOfRecordsUpdated", VNum updated)
              :: match ids with
                 | [] => []
                 | id :: _ => [("insertId", VNum (num_of_Z id))]
                 end)).
Proof.
  destruct ids as [|id ids]; reflexivity.
Qed.

(** C10.  Whether the response holds [columnMetadata] depends on the
    payload alone: under every configuration the key is present exactly
    when the payload's [columnMetadata] is truthy, and its value is then
    the payload's own.  So the response to a query carries its metadata and
    the response to an update carries none, with hydration on or off. *)
Theorem C10_metadata_by_presence :
  (forall (h : host) (cfg : config) (r out : value),
      formatResponse h cfg r = Ok out ->
      exists (cm : value) (props : list (string * value)),
        get_prop r "columnMetadata" = Ok cm
        /\ out = VObj props
        /\ lookup "columnMetadata" props = (if truthy cm then Some cm else None))
  /\ (forall (h : host) (e : value) (hydrate dd : bool) (tl : value)
             (metas : list (string * value)) (updated : number)
             (rows : list (list value)),
         (hydrate = true -> NoDup (map fst metas)) ->
         Forall (fun r => Forall raw_field r
                          /\ List.length r = List.length metas) rows ->
         exists props : list (string * value),
           formatResponse h (config_of e hydrate dd tl)
             (query_payload metas updated rows) = Ok (VObj props)
           /\ lookup "columnMetadata" props = Some (columns_of metas))
  /\ (forall (h : host) (cfg : config) (updated : number) (ids : list Z),
         exists props : list (string * value),
           formatResponse h cfg (update_payload updated ids) = Ok (VObj props)
           /\ lookup "columnMetadata" props = None).
Proof.
  split; [|split].
  - intros h cfg r out H.
    destruct (formatResponse_inv h cfg r out H)
      as (cm & nru & recs & gf & ur & c & props & Hcm & _ & _ & _ & _ & _
          & Hout & Hmeta & _).
    exists cm, props. auto.
  - intros h e hydrate dd tl metas updated rows Hnd Hrows.
    rewrite formatResponse_query by assumption.
    eexists. split; reflexivity.
  - intros h cfg updated ids. rewrite formatResponse_update.
    eexists. split; [reflexivity|]. destruct ids; reflexivity.
Qed.

Lemma C10_metadata_by_presence_witness :
  exists (cm : value) (props : list (string * value)),
    get_prop (query_payload example_metas (Finite 0 0) example_rows)
      "columnMetadata" = Ok cm
    /\ VObj [("columnMetadata", columns_of example_metas);
             ("records",
              VArr [VObj [("id", VNum (Finite 1 0)); ("name", VNull)];
                    VObj [("id", VNum (Finite 2 0)); ("name", VStr "x")]])]
       = VObj props
    /\ lookup "columnMetadata" props = (if truthy cm then Some cm else None).
Proof.
  apply (proj1 C10_metadata_by_presence node_utc default_config
           (query_payload example_metas (Finite 0 0) example_rows)).
  reflexivity.
Defined.

(** C8 as stated fails on its last clause: when the first generated field
    carries no [longValue], the response still holds the key [insertId],
    with the value [undefined]. *)
Lemma C8_insertId_without_value :
  formatResponse node_utc default_config
    (VObj [("generatedFields", VArr [tagged "stringValue" (VStr "k")])])
  = Ok (VObj [("insertId", VUndefined)]).
Proof. reflexivity. Qed.

(** C8, amended.  A payload holding only [numberOfRecordsUpdated: 3] gives
    exactly [{ numberOfRecordsUpdated: 3 }]; the response to a query holds
    the metadata and the records and not the update count that came with
    them; the response to an update holds the count, and an [insertId]
    when a key was generated.  In every response a key is present exactly
    when its source is: [columnMetadata], [records] and [updateResults]
    when the payload's field is truthy, [numberOfRecordsUpdated] when it is
    defined and there are no records, [insertId] when [generatedFields] is
    not empty; there is no other key; and no key other than [insertId]
    holds [undefined] -- [insertId] is the [longValue] of the first
    generated field, whatever that is. *)
Theorem C8_response_keys :
  forall (h : host) (cfg : config),
    formatResponse h cfg (VObj [("numberOfRecordsUpdated", VNum (Finite 3 0))])
    = Ok (VObj [("numberOfRecordsUpdated", VNum (Finite 3 0))])
    /\ (forall (hydrate dd : bool) (tl : value)
               (metas : list (string * value)) (updated : number)
               (rows : list (list value)),
           (hydrate = true -> NoDup (map fst metas)) ->
           Forall (fun r => Forall raw_field r
                            /\ List.length r = List.length metas) rows ->
           exists recs : list value,
             formatResponse h (config_of (engine cfg) hydrate dd tl)
               (query_payload metas updated rows)
             = Ok (VObj [("columnMetadata", columns_of metas);
                         ("records", VArr recs)]))
    /\ (forall (updated : number) (ids : list Z),
           formatResponse h cfg (update_payload updated ids)
           = Ok (VObj (("numberOfRecordsUpdated", VNum updated)
                       :: match ids with
                          | [] => []
                          | id :: _ => [("insertId", VNum (num_of_Z id))]
                          end)))
    /\ forall r out : value,
        formatResponse h cfg r = Ok out ->
        exists (cm nru recs gf ur c : value) (props : list (string * value)),
          get_prop r "columnMetadata" = Ok cm
          /\ get_prop r "numberOfRecordsUpdated" = Ok nru
          /\ get_prop r "records" = Ok recs
          /\ get_prop r "generatedFields" = Ok gf
          /\ get_prop r "updateResults" = Ok ur
          /\ has_items gf = Ok c
          /\ out = VObj props
          /\ (forall k, In k (map fst props) -> In k response_keys)
          /\ lookup "columnMetadata" props
             = (if truthy cm then Some cm else None)
          /\ lookup "numberOfRecordsUpdated" props
             = (if negb (is_undefined nru) && negb (truthy recs)
                then Some nru else None)
          /\ (if truthy recs
              then exists rows, lookup "records" props = Some (VArr rows)
              else lookup "records" props = None)
          /\ (if truthy ur
              then exists l, lookup "updateResults" props = Some (VArr l)
              else lookup "updateResults" props = None)
          /\ (if truthy c
              then exists id, insertId_of gf = Ok [("insertId", id)]
                              /\ lookup "insertId" props = Some id
              else lookup "insertId" props = None)
          /\ (forall k v, lookup k props = Some v -> k <> "insertId" ->
                          v <> VUndefined).
Proof.
  intros h cfg. split; [reflexivity|]. split; [|split].
  { intros hydrate dd tl metas updated rows Hnd Hrows.
    rewrite formatResponse_query by assumption. eexists. reflexivity. }
  { intros updated ids. apply formatResponse_update. }
  intros r out H.
  destruct (formatResponse_inv h cfg r out H)
    as (cm & nru & recs & gf & ur & c & props & Hcm & Hnru & Hrecs & Hgf
        & Hur & Hc & Hout & Hmeta & Hcount & Hrows & Hupd & Hins & Hkeys).
  exists cm, nru, recs, gf, ur, c, props.
  do 9 (split; [assumption|]).
  assert (Hrows' : if truthy recs
                   then exists rows, lookup "records" props = Some (VArr rows)
                   else lookup "records" props = None).
  { destruct (truthy recs); [destruct Hrows as (rows & _ & E); eauto | auto]. }
  assert (Hupd' : if truthy ur
                  then exists l, lookup "updateResults" props = Some (VArr l)
                  else lookup "updateResults" props = None).
  { destruct (truthy ur); [destruct Hupd as (l & _ & E); eauto | auto]. }
  do 4 (split; [assumption|]).
  intros k v Hk Hne.
  assert (In k (map fst props)) as Hin.
  { clear - Hk. induction props as [|[k' v'] ps IH]; [discriminate|].
    simpl in *. destruct (String.eqb_spec k' k); [auto | right; auto]. }
  apply Hkeys in Hin. unfold response_keys in Hin. simpl in Hin.
  destruct Hin as [<- | [<- | [<- | [<- | [<- | []]]]]].
  - rewrite Hmeta in Hk. destruct (truthy cm) eqn:T; [|discriminate].
    inversion Hk; subst. intros ->. discriminate T.
  - rewrite Hcount in Hk. destruct (is_undefined nru) eqn:U; [discriminate|].
    destruct (negb (truthy recs)); [|discriminate].
    inversion Hk; subst. intros ->. discriminate U.
  - destruct (truthy recs); [destruct Hrows' as (rows & E) | congruence].
    rewrite E in Hk. inversion Hk. discriminate.
  - destruct (truthy ur); [destruct Hupd' as (l & E) | congruence].
    rewrite E in Hk. inversion Hk. discriminate.
  - congruence.
Qed.

Lemma C8_response_keys_witness :
  exists (cm nru recs gf ur c : value) (props : list (string * value)),
    get_prop (VObj [("numberOfRecordsUpdated", VNum (Finite 3 0))])
      "columnMetadata" = Ok cm
    /\ get_prop (VObj [("numberOfRecordsUpdated", VNum (Finite 3 0))])
         "numberOfRecordsUpdated" = Ok nru
    /\ get_prop (VObj [("numberOfRecordsUpdated", VNum (Finite 3 0))])
         "records" = Ok recs
    /\ get_prop (VObj [("numberOfRecordsUpdated", VNum (Finite 3 0))])
         "generatedFields" = Ok gf
    /\ get_prop (VObj [("numberOfRecordsUpdated", VNum (Finite 3 0))])
         "updateResults" = Ok ur
    /\ has_items gf = Ok c
    /\ VObj [("numberOfRecordsUpdated", VNum (Finite 3 0))] = VObj props
    /\ (forall k, In k (map fst props) -> In k response_keys)
    /\ lookup "columnMetadata" props = (if truthy cm then Some cm else None)
    /\ lookup "numberOfRecordsUpdated" props
       = (if negb (is_undefined nru) && negb (truthy recs)
          then Some nru else None)
    /\ (if truthy recs
        then exists rows, lookup "records" props = Some (VArr rows)
        else lookup "records" props = None)
    /\ (if truthy ur
        then exists l, lookup "updateResults" props = Some (VArr l)
        else lookup "updateResults" props = None)
    /\ (if truthy c
        then exists id, insertId_of gf = Ok [("insertId", id)]
                        /\ lookup "insertId" props = Some id
        else lookup "insertId" props = None)
    /\ (forall k v, lookup k props = Some v -> k <> "insertId" ->
                    v <> VUndefined).
Proof.
  apply (proj2 (proj2 (proj2 (C8_response_keys node_utc default_config)))
           (VObj [("numberOfRecordsUpdated", VNum (Finite 3 0))])).
  reflexivity.
Defined.


(* ================================================================== *)
(** * Further properties *)

(** ** Induction on values *)

(** Induction on a value with the hypothesis at hand for every element of
    an array. *)
Lemma value_array_ind (P : value -> Prop) :
  (forall l : list value, Forall P l -> P (VArr l)) ->
  (forall v : value, Array_isArray v = false -> P v) ->
  forall v : value, P v.
Proof.
  intros Harr Hother.
  fix IH 1. intros v.
  destruct v as [| | b | n | s | | | t | bs | l | props];
    try (apply Hother; reflexivity).
  apply Harr.
  induction l as [|x r IHr]; constructor; [apply IH | exact IHr].
Qed.

Lemma bind_assoc {A B C} (r : result A) (f : A -> result B) (g : B -> result C) :
  bind (bind r f) g = bind r (fun a => bind (f a) g).
Proof. destruct r; reflexivity. Qed.

Lemma bind_ret {A} (r : result A) : bind r Ok = r.
Proof. destruct r; reflexivity. Qed.

Lemma mapM_app {A B} (f : A -> result B) (l1 l2 : list A) :
  mapM f (l1 ++ l2)
  = (a <- mapM f l1 ;; b <- mapM f l2 ;; Ok (a ++ b)).
Proof.
  induction l1 as [|x r IH]; cbn [app mapM].
  - cbn [bind]. destruct (mapM f l2); reflexivity.
  - destruct (f x); cbn [bind]; [|reflexivity]. rewrite IH.
    destruct (mapM f r); cbn [bind]; [|reflexivity].
    destruct (mapM f l2); reflexivity.
Qed.

(** The result of [processParams] does not depend on the row counter. *)
Lemma processParams_row (h : host) (e fo : value) :
  forall (p : value) (row row' : Z),
    processParams h e p fo row = processParams h e p fo row'.
Proof.
  intros p. induction p as [l IH | v Hv] using value_array_ind;
    intros row row'; [|destruct v; try discriminate; reflexivity].
  cbn [processParams].
  assert (F : forall (acc : list value) (r r' : Z),
            (x <- foldM (process_step h e fo) l (acc, r) ;; Ok (fst x))
            = (x <- foldM (process_step h e fo) l (acc, r') ;; Ok (fst x))).
  { induction IH as [|x xs Hx Hxs IHxs]; intros acc r r'; [reflexivity|].
    cbn [foldM]. unfold process_step at 1 3.
    destruct (Array_isArray x).
    - rewrite (Hx r r'). destruct (processParams h e x fo r'); [|reflexivity].
      cbn [bind]. apply IHxs.
    - destruct (get_prop x "name"); [|reflexivity]. cbn [bind].
      destruct (get_prop x "value"); [|reflexivity]. cbn [bind].
      destruct (formatParam h a a0 fo); [|reflexivity]. cbn [bind].
      apply IHxs. }
  exact (F [] row row').
Qed.

(** ** The parameter pipeline is elementwise *)

Lemma Array_concat_item (acc : list value) (p : value) :
  Array_isArray p = false -> Array_concat acc p = acc ++ [p].
Proof. destruct p; try reflexivity; discriminate. Qed.

Lemma normalize_fold (l : list value) :
  forall acc : list value,
    foldM (fun acc p =>
             if Array_isArray p then
               inner <- normalizeParams p ;;
               Ok (Array_concat acc (VArr [VArr inner]))
             else
               atomic <-
                 (keys_length_is p 2 &&& get_prop p "name"
                    &&& value_is_not p "undefined")
                 ||| (keys_length_is p 3 &&& get_prop p "name"
                        &&& value_is_not p "undefined" &&& get_prop p "cast") ;;
               if truthy atomic then Ok (Array_concat acc p)
               else
                 parts <- splitParams p ;;
                 Ok (Array_concat acc (VArr parts)))
          l acc
    = (cs <- mapM normal_item l ;; Ok (acc ++ List.concat cs)).
Proof.
  induction l as [|p r IH]; intros acc.
  - cbn [foldM mapM bind List.concat]. now rewrite app_nil_r.
  - cbn [foldM mapM]. unfold normal_item at 1.
    destruct (Array_isArray p) eqn:Ea.
    + destruct (normalizeParams p); [|reflexivity]. cbn [bind Array_concat].
      rewrite IH. destruct (mapM normal_item r); [|reflexivity].
      cbn [bind List.concat]. now rewrite <- app_assoc.
    + match goal with |- context [bind (?a ||| ?b) _] =>
        destruct (a ||| b) as [atomic|] end; [|reflexivity].
      cbn [bind]. destruct (truthy atomic).
      * rewrite (Array_concat_item _ _ Ea). cbn [bind]. rewrite IH.
        destruct (mapM normal_item r); [|reflexivity].
        cbn [bind List.concat]. now rewrite <- app_assoc.
      * destruct (splitParams p); [|reflexivity]. cbn [bind Array_concat].
        rewrite IH. destruct (mapM normal_item r); [|reflexivity].
        cbn [bind List.concat]. now rewrite <- app_assoc.
Qed.

(** [normalizeParams] of an array is the concatenation of what its
    elements contribute, unless one of them throws. *)
Lemma normalizeParams_items (l : list value) :
  normalizeParams (VArr l) = (cs <- mapM normal_item l ;; Ok (List.concat cs)).
Proof. cbn [normalizeParams]. now rewrite normalize_fold. Qed.

Lemma process_fold (h : host) (e fo : value) (l : list value) :
  forall (acc : list value) (row : Z),
    (x <- foldM (process_step h e fo) l (acc, row) ;; Ok (fst x))
    = (ys <- mapM (process_item h e fo) l ;; Ok (acc ++ ys)).
Proof.
  induction l as [|p r IH]; intros acc row.
  - cbn [foldM mapM bind fst]. now rewrite app_nil_r.
  - cbn [foldM mapM]. unfold process_step at 1, process_item at 1.
    destruct (Array_isArray p).
    + rewrite (processParams_row h e fo p row 0).
      destruct (processParams h e p fo 0); [|reflexivity].
      cbn [bind Array_concat]. rewrite IH.
      destruct (mapM (process_item h e fo) r); [|reflexivity].
      cbn [bind]. now rewrite <- app_assoc.
    + destruct (get_prop p "name"); [|reflexivity]. cbn [bind].
      destruct (get_prop p "value"); [|reflexivity]. cbn [bind].
      destruct (formatParam h a a0 fo); [|reflexivity]. cbn [bind].
      rewrite IH. destruct (mapM (process_item h e fo) r); [|reflexivity].
      cbn [bind]. now rewrite <- app_assoc.
Qed.

(** [processParams] of an array formats its elements one by one. *)
Lemma processParams_items (h : host) (e fo : value) (l : list value) (row : Z) :
  processParams h e (VArr l) fo row = mapM (process_item h e fo) l.
Proof.
  cbn [processParams].
  change (x <- foldM (process_step h e fo) l ([], row) ;; Ok (fst x)
          = mapM (process_item h e fo) l).
  rewrite process_fold. cbn [app]. apply bind_ret.
Qed.

(** The formatter on an array of arguments. *)
Lemma formatParameters_array (h : host) (cfg : config) (l : list value) :
  formatParameters h cfg (VArr l)
  = (cs <- mapM normal_item l ;;
     out <- mapM (process_item h (engine cfg) (formatOptions cfg)) (List.concat cs) ;;
     Ok (VArr out)).
Proof.
  unfold formatParameters, parseParams.
  cbn [nth get_prop lookup String.eqb Ascii.eqb Bool.eqb Array_isArray bind].
  cbv beta. change (("parameters" =? "parameters")%string) with true.
  cbn [bind Array_isArray].
  rewrite normalizeParams_items.
  destruct (mapM normal_item l) as [cs|]; [|reflexivity]. cbn [bind].
  now rewrite processParams_items.
Qed.

(** ** Type inference and the wire shape *)

Lemma getType_null_inv (v : value) :
  getType v = VNull ->
  exists k x, v = VObj [(k, x)] /\ mem_string k supportedTypes = true.
Proof.
  unfold getType. destruct v as [| | b | n | s | | | t | bs | l | props];
    cbn [typeof String.eqb Ascii.eqb Bool.eqb number_reads_as_itself is_null
         isDate Buffer_isBuffer andb Object_keys]; try discriminate.
  - destruct (num_eqb _ _); [discriminate|].
    destruct (num_eqb _ _); discriminate.
  - change (("object" =? "string")%string) with false.
    change (("object" =? "boolean")%string) with false.
    change (("object" =? "object")%string) with true.
    cbn [andb]. unfold index_keys.
    destruct l as [|x [|y r]]; cbn [List.length seq map]; discriminate.
  - change (("object" =? "string")%string) with false.
    change (("object" =? "boolean")%string) with false.
    change (("object" =? "object")%string) with true.
    cbn [andb].
    destruct props as [|[k x] [|y r]]; cbn [map fst]; try discriminate.
    destruct (mem_string k supportedTypes) eqn:E; [|discriminate].
    intros _. now exists k, x.
Qed.

Lemma getType_cases (v : value) :
  getType v = VNull \/ getType v = VUndefined
  \/ (exists tag, getType v = VStr tag /\ tag <> "isNull"%string
                  /\ mem_string tag supportedTypes = true
                  /\ is_null v = false)
  \/ (getType v = VStr "isNull" /\ v = VNull).
Proof.
  destruct v as [| | b | n | s | | | t | bs | l | props].
  - right; left; reflexivity.
  - right; right; right. split; reflexivity.
  - right; right; left. exists "booleanValue"%string.
    repeat split; [discriminate].
  - unfold getType. cbn [typeof number_reads_as_itself].
    change (("number" =? "string")%string) with false.
    change (("number" =? "boolean")%string) with false. cbv iota.
    destruct (num_eqb (parseInt _) _).
    { right; right; left. exists "longValue"%string.
      repeat split; [discriminate]. }
    destruct (num_eqb (parseFloat _) _).
    { right; right; left. exists "doubleValue"%string.
      repeat split; [discriminate]. }
    right; left; reflexivity.
  - right; right; left. exists "stringValue"%string.
    repeat split; [discriminate].
  - right; left; reflexivity.
  - right; left; reflexivity.
  - right; right; left. exists "stringValue"%string.
    repeat split; [discriminate].
  - right; right; left. exists "blobValue"%string.
    repeat split; [discriminate].
  - right; left. unfold getType. cbn. unfold index_keys.
    destruct l as [|x [|y r]]; reflexivity.
  - unfold getType. cbn [typeof number_reads_as_itself is_null isDate
                           Buffer_isBuffer Object_keys].
    change (("object" =? "string")%string) with false.
    change (("object" =? "boolean")%string) with false.
    change (("object" =? "object")%string) with true. cbn [andb].
    destruct props as [|[k x] [|y r]]; cbn [map fst];
      try (right; left; reflexivity).
    destruct (mem_string k supportedTypes); [left|right; left]; reflexivity.
Qed.

(** Whatever [formatParam] returns is in wire shape. *)
Lemma formatParam_wire (h : host) (n v fo out : value) :
  formatParam h n v fo = Ok out -> wire_param out = true.
Proof.
  unfold formatParam, formatType.
  destruct (getType_cases v) as [E | [E | [(tag & E & Hn & Hm & Hv) | (E & ->)]]];
    rewrite E.
  - destruct (getType_null_inv v E) as (k & x & -> & Hk).
    cbn. intros [= <-]. cbn. exact Hk.
  - cbn [is_null truthy]. cbv iota.
    destruct (ToString n); cbn; destruct (getTypeHint v); discriminate.
  - assert (Ht : truthy (VStr tag) = true).
    { cbn. destruct tag; [discriminate|reflexivity]. }
    cbn [is_null]. cbv iota. rewrite Ht. cbn [bind ToPropertyKey ToString].
    assert (Hs : is_str (VStr tag) "isNull" = false).
    { cbn. now apply String.eqb_neq. }
    rewrite Hs.
    destruct v as [| | b | m | s | | | t | bs | l | props];
      cbn [isDate getTypeHint is_null is_undefined negb orb bind Object_assign
           fold_left fst snd set_prop String.eqb Ascii.eqb Bool.eqb];
      try (intros [= <-]; exact Hm).
    destruct (_ &&& _) as [loc|]; [|discriminate]. cbn [bind].
    destruct (formatToTimeStamp h (VDate t) loc); [|discriminate].
    cbn [bind Object_assign fold_left fst snd set_prop String.eqb Ascii.eqb
         Bool.eqb].
    intros [= <-]. exact Hm.
  - cbn. intros [= <-]. reflexivity.
Qed.

Lemma wire_of_param (v : value) : wire_param v = true -> wire v = true.
Proof. destruct v; try discriminate. trivial. Qed.

Lemma processParams_wire (h : host) (e fo : value) :
  forall (p : value) (row : Z) (out : list value),
    processParams h e p fo row = Ok out -> forallb wire out = true.
Proof.
  intros p. induction p as [l IH | v Hv] using value_array_ind;
    intros row out.
  - rewrite processParams_items. revert out.
    induction IH as [|x xs Hx Hxs IHxs]; intros out; cbn [mapM].
    + intros [= <-]. reflexivity.
    + destruct (process_item h e fo x) as [y|] eqn:Ey; [|discriminate].
      cbn [bind]. destruct (mapM _ xs) as [ys|]; [|discriminate].
      cbn [bind]. intros [= <-]. cbn [forallb]. rewrite (IHxs ys eq_refl).
      rewrite Bool.andb_true_r. unfold process_item in Ey.
      destruct (Array_isArray x).
      * destruct (processParams h e x fo 0) as [inner|] eqn:Ei; [|discriminate].
        cbn [bind] in Ey. injection Ey as <-. cbn [wire].
        exact (Hx 0 inner Ei).
      * destruct (get_prop x "name") as [a|]; [|discriminate]. cbn [bind] in Ey.
        destruct (get_prop x "value") as [b|]; [|discriminate]. cbn [bind] in Ey.
        apply wire_of_param. exact (formatParam_wire _ _ _ _ _ Ey).
  - destruct v; try discriminate; cbn [processParams array_receiver];
      try discriminate.
    destruct (lookup _ _) as [[]|]; discriminate.
Qed.

(** X3.  Whatever argument the parameter formatter accepts, its result is
    in Data API wire shape: an array whose elements are
    [{ name, value }] or [{ name, typeHint: 'TIMESTAMP', value }] objects,
    [value] holding exactly one key which is a supported type, or are
    arrays of such elements (one per batch row). *)
Theorem X3_parameters_are_wire_shaped (h : host) (cfg : config) (p out : value) :
  formatParameters h cfg p = Ok out ->
  wire out = true /\ Array_isArray out = true.
Proof.
  unfold formatParameters.
  destruct (parseParams _) as [params|]; [|discriminate]. cbn [bind].
  destruct (normalizeParams params) as [normal|]; [|discriminate]. cbn [bind].
  destruct (processParams _ _ _ _ _) as [o|] eqn:E; [|discriminate].
  cbn [bind]. intros [= <-]. split; [|reflexivity].
  cbn [wire]. exact (processParams_wire _ _ _ _ _ _ E).
Qed.

Lemma X3_parameters_are_wire_shaped_witness :
  wire (VArr [param "id" (tagged "longValue" (VNum (num_of_Z 7)));
              param "tag" (tagged "stringValue" (VStr "a"))]) = true
  /\ Array_isArray
       (VArr [param "id" (tagged "longValue" (VNum (num_of_Z 7)));
              param "tag" (tagged "stringValue" (VStr "a"))]) = true.
Proof.
  apply (X3_parameters_are_wire_shaped node_utc default_config
           (VObj [("id", VNum (num_of_Z 7)); ("tag", VStr "a")])).
  vm_compute. reflexivity.
Defined.

(** X1.  A string, a boolean, a Buffer and [null] each have one fixed type:
    passed as the sole entry of a mapping they come out as [stringValue],
    [booleanValue], [blobValue] holding the value itself, and as
    [isNull: true], whatever the name, the host and the configuration. *)
Theorem X1_native_types (h : host) (cfg : config) (n tag : string) (v : value) :
  native_tag v = Some tag ->
  formatParameters h cfg (VObj [(n, v)])
  = Ok (VArr [param n (tagged tag (native_payload v))]).
Proof.
  intros H. rewrite formatParameters_single.
  destruct v; try discriminate; injection H as <-; reflexivity.
Qed.

Lemma X1_native_types_witness :
  native_tag VNull = Some "isNull"%string
  /\ formatParameters node_utc default_config (VObj [("deleted_at", VNull)])
     = Ok (VArr [param "deleted_at" (tagged "isNull" (VBool true))]).
Proof.
  split; [reflexivity|].
  apply (X1_native_types node_utc default_config "deleted_at" "isNull" VNull).
  reflexivity.
Defined.

Lemma getType_untyped (v : value) : untyped v = true -> getType v = VUndefined.
Proof.
  destruct v as [| | b | m | s | | | t | bs | l | props]; try discriminate;
    try reflexivity.
  - intros _. unfold getType. cbn. unfold index_keys.
    destruct l as [|x [|y r]]; reflexivity.
  - unfold getType. cbn [typeof number_reads_as_itself is_null isDate
                           Buffer_isBuffer Object_keys].
    change (("object" =? "string")%string) with false.
    change (("object" =? "boolean")%string) with false.
    change (("object" =? "object")%string) with true. cbn [andb].
    destruct props as [|[k x] [|y r]]; cbn [map fst untyped]; try reflexivity.
    destruct (mem_string k supportedTypes); [discriminate|reflexivity].
Qed.

(** X2.  [undefined], a symbol, a function, an array (of any length) and an
    object that is not a single supported type key have no inferred type:
    as the sole entry of a mapping each makes the formatter throw
    ['<name>' is an invalid type], and nothing is returned. *)
Theorem X2_untyped_values_are_rejected (h : host) (cfg : config) (n : string)
  (v : value) :
  untyped v = true ->
  formatParameters h cfg (VObj [(n, v)]) = Throw (invalid_type n).
Proof.
  intros H. rewrite formatParameters_single.
  now rewrite (formatParam_untyped h n v _ (getType_untyped v H)).
Qed.

Lemma X2_untyped_values_are_rejected_witness :
  untyped (VArr [VNum (num_of_Z 1); VNum (num_of_Z 2)]) = true
  /\ formatParameters node_utc default_config
       (VObj [("ids", VArr [VNum (num_of_Z 1); VNum (num_of_Z 2)])])
     = Throw (invalid_type "ids").
Proof.
  split; [reflexivity|].
  apply (X2_untyped_values_are_rejected node_utc default_config "ids").
  reflexivity.
Defined.

(** ** Mappings, concatenation and batches *)

Lemma lookup_NoDup (props : list (string * value)) (k : string) (v : value) :
  NoDup (map fst props) -> In (k, v) props -> lookup k props = Some v.
Proof.
  induction props as [|[k' v'] r IH]; intros Hnd Hin; [destruct Hin|].
  cbn [map fst] in Hnd. inversion Hnd as [|? ? Hni Hr]; subst.
  cbn [lookup]. destruct Hin as [[= -> ->] | Hin].
  - now rewrite String.eqb_refl.
  - destruct (String.eqb_spec k' k) as [->|_].
    + exfalso. apply Hni. now apply (in_map fst) in Hin.
    + now apply IH.
Qed.

Lemma splitParams_fold (props suf : list (string * value)) :
  Forall (fun kv => lookup (fst kv) props = Some (snd kv)) suf ->
  forall acc : list value,
    foldM (fun arr x =>
             v <- get_prop (VObj props) x ;;
             Ok (Array_concat arr (VObj [("name", VStr x); ("value", v)])))
          (map fst suf) acc
    = Ok (acc ++ map split_entry suf).
Proof.
  induction 1 as [|[k v] r Hk Hr IH]; intros acc.
  - cbn [map foldM]. now rewrite app_nil_r.
  - cbn [map foldM fst]. cbn [get_prop]. cbn [fst snd] in Hk. rewrite Hk.
    cbn [bind Array_concat]. rewrite IH. rewrite <- app_assoc. reflexivity.
Qed.

(** [splitParams] of an object lists its entries in key order. *)
Lemma splitParams_object (props : list (string * value)) :
  NoDup (map fst props) ->
  splitParams (VObj props) = Ok (map split_entry props).
Proof.
  intros Hnd. unfold splitParams. cbn [Object_keys bind].
  apply (splitParams_fold props props).
  apply Forall_forall. intros [k v] Hin. now apply lookup_NoDup.
Qed.

Lemma normal_item_split (props : list (string * value)) :
  lookup "name" props = None
  \/ (List.length props <> 2%nat /\ List.length props <> 3%nat) ->
  normal_item (VObj props) = splitParams (VObj props).
Proof.
  intros H. unfold normal_item. cbn [Array_isArray].
  unfold keys_length_is. cbn [Object_keys bind]. rewrite length_map.
  destruct H as [Hn | [H2 H3]].
  - assert (G : get_prop (VObj props) "name" = Ok VUndefined).
    { cbn [get_prop]. rewrite Hn. reflexivity. }
    unfold and_also, or_else. cbn [bind]. rewrite G.
    destruct (List.length props =? 2)%nat, (List.length props =? 3)%nat;
      reflexivity.
  - apply Nat.eqb_neq in H2, H3. rewrite H2, H3. reflexivity.
Qed.

Lemma process_split_entries (h : host) (e fo : value)
  (props : list (string * value)) :
  mapM (process_item h e fo) (map split_entry props)
  = mapM (format_entry h fo) props.
Proof.
  induction props as [|[k v] r IH]; [reflexivity|].
  cbn [map mapM]. rewrite IH. reflexivity.
Qed.

(** A lone object is handled as the one-element array holding it. *)
Lemma formatParameters_object (h : host) (cfg : config)
  (props : list (string * value)) :
  formatParameters h cfg (VObj props) = formatParameters h cfg (VArr [VObj props]).
Proof. reflexivity. Qed.

(** X4.  A mapping is taken as a set of named arguments, one parameter per
    key and in key order, each formatted from its key and its value alone
    (the first failure is the failure of the call), whenever it has no key
    called [name] or has neither two nor three keys. *)
Theorem X4_mapping_is_formatted_entrywise (h : host) (cfg : config)
  (props : list (string * value)) :
  NoDup (map fst props) ->
  lookup "name" props = None
  \/ (List.length props <> 2%nat /\ List.length props <> 3%nat) ->
  formatParameters h cfg (VObj props)
  = (out <- mapM (format_entry h (formatOptions cfg)) props ;; Ok (VArr out)).
Proof.
  intros Hnd Hshape.
  rewrite formatParameters_object, formatParameters_array.
  cbn [mapM]. rewrite (normal_item_split props Hshape).
  rewrite (splitParams_object props Hnd). cbn [bind List.concat].
  rewrite app_nil_r. now rewrite process_split_entries.
Qed.

Lemma X4_mapping_is_formatted_entrywise_witness :
  formatParameters node_utc default_config
    (VObj [("id", VNum (num_of_Z 7)); ("tag", VStr "a")])
  = (out <- mapM (format_entry node_utc (formatOptions default_config))
                 [("id", VNum (num_of_Z 7)); ("tag", VStr "a")] ;;
     Ok (VArr out)).
Proof.
  apply (X4_mapping_is_formatted_entrywise node_utc default_config
           [("id", VNum (num_of_Z 7)); ("tag", VStr "a")]).
  - repeat constructor; cbn; intuition discriminate.
  - left. reflexivity.
Defined.

(** X5.  Formatting a concatenation of two argument arrays succeeds exactly
    when formatting each of them does, and its result is then the
    concatenation of their results: no element influences how another one
    is formatted. *)
Theorem X5_concatenation (h : host) (cfg : config) (l1 l2 : list value)
  (out : value) :
  formatParameters h cfg (VArr (l1 ++ l2)) = Ok out
  <-> exists o1 o2,
        formatParameters h cfg (VArr l1) = Ok (VArr o1)
        /\ formatParameters h cfg (VArr l2) = Ok (VArr o2)
        /\ out = VArr (o1 ++ o2).
Proof.
  rewrite !formatParameters_array, mapM_app.
  destruct (mapM normal_item l1) as [c1|]; cbn [bind].
  2:{ split; [discriminate | intros (? & ? & [=] & _)]. }
  destruct (mapM normal_item l2) as [c2|]; cbn [bind].
  2:{ split; [discriminate | intros (? & ? & _ & [=] & _)]. }
  rewrite concat_app, mapM_app.
  destruct (mapM _ (List.concat c1)) as [o1|]; cbn [bind].
  2:{ split; [discriminate | intros (? & ? & [=] & _)]. }
  destruct (mapM _ (List.concat c2)) as [o2|]; cbn [bind].
  2:{ split; [discriminate | intros (? & ? & _ & [=] & _)]. }
  split.
  - intros [= <-]. now exists o1, o2.
  - intros (? & ? & [= <-] & [= <-] & ->). reflexivity.
Qed.

Lemma mapM_Forall2 {A B} (f : A -> result B) (l : list A) (ys : list B) :
  mapM f l = Ok ys <-> Forall2 (fun x y => f x = Ok y) l ys.
Proof.
  revert ys. induction l as [|x r IH]; intros ys; cbn [mapM].
  - split; [intros [= <-]; constructor | inversion 1; reflexivity].
  - split.
    + destruct (f x) as [y|] eqn:E; [|discriminate]. cbn [bind].
      destruct (mapM f r) as [ys'|]; [|discriminate]. cbn [bind].
      intros [= <-]. constructor; [exact E | now apply IH].
    + inversion 1 as [|? y ? ys' Hx Hr]; subst. rewrite Hx. cbn [bind].
      apply IH in Hr. rewrite Hr. reflexivity.
Qed.

Lemma Forall2_compose {A B C} (R : A -> B -> Prop) (S : B -> C -> Prop)
  (l : list A) (os : list C) :
  (exists ns, Forall2 R l ns /\ Forall2 S ns os)
  <-> Forall2 (fun a c => exists b, R a b /\ S b c) l os.
Proof.
  revert os. induction l as [|a r IH]; intros os.
  - split.
    + intros (ns & H1 & H2). inversion H1; subst. inversion H2; subst.
      constructor.
    + inversion 1; subst. exists []. split; constructor.
  - split.
    + intros (ns & H1 & H2). inversion H1 as [|? b ? ns' Hab Hr]; subst.
      inversion H2 as [|? c ? os' Hbc Hs]; subst.
      constructor; [now exists b|]. apply IH. now exists ns'.
    + inversion 1 as [|? c ? os' (b & Hab & Hbc) Hr]; subst.
      apply IH in Hr. destruct Hr as (ns' & H1 & H2).
      exists (b :: ns'). split; constructor; assumption.
Qed.

Lemma normal_items_sets (sets : list (list value)) :
  mapM normal_item (map VArr sets)
  = (ns <- mapM (fun s => normalizeParams (VArr s)) sets ;;
     Ok (map (fun n => [VArr n]) ns)).
Proof.
  induction sets as [|s r IH]; [reflexivity|].
  cbn [map mapM]. rewrite IH. unfold normal_item at 1. cbn [Array_isArray].
  destruct (normalizeParams (VArr s)); [|reflexivity]. cbn [bind].
  destruct (mapM _ r); reflexivity.
Qed.

Lemma concat_singletons (ns : list (list value)) :
  List.concat (map (fun n => [VArr n]) ns) = map VArr ns.
Proof. induction ns as [|n r IH]; [reflexivity|]. cbn. now rewrite IH. Qed.

Lemma process_items_sets (h : host) (e fo : value) (ns : list (list value)) :
  mapM (process_item h e fo) (map VArr ns)
  = (os <- mapM (fun n => processParams h e (VArr n) fo 0) ns ;;
     Ok (map VArr os)).
Proof.
  induction ns as [|n r IH]; [reflexivity|].
  cbn [map mapM]. rewrite IH. unfold process_item at 1. cbn [Array_isArray].
  destruct (processParams h e (VArr n) fo 0); [|reflexivity]. cbn [bind].
  destruct (mapM _ r); reflexivity.
Qed.

Lemma formatParameters_set (h : host) (cfg : config) (s o : list value) :
  formatParameters h cfg (VArr s) = Ok (VArr o)
  <-> exists n, normalizeParams (VArr s) = Ok n
                /\ processParams h (engine cfg) (VArr n) (formatOptions cfg) 0
                   = Ok o.
Proof.
  unfold formatParameters, parseParams.
  cbn [nth get_prop lookup]. change (("parameters" =? "parameters")%string) with true.
  cbn [bind Array_isArray]. split.
  - destruct (normalizeParams (VArr s)) as [n|]; [|discriminate]. cbn [bind].
    destruct (processParams _ _ _ _ _) as [o'|] eqn:E; [|discriminate].
    cbn [bind]. intros [= <-]. now exists n.
  - intros (n & -> & H). cbn [bind]. rewrite H. reflexivity.
Qed.

(** X6.  A batch (an array of arrays of arguments) is formatted row by row:
    the call succeeds exactly when formatting each row on its own does, and
    its result is then the array of the rows' results, in order.  A row is
    formatted the same whatever its place in the batch. *)
Theorem X6_batch_rows_are_independent (h : host) (cfg : config)
  (sets : list (list value)) (out : value) :
  formatParameters h cfg (VArr (map VArr sets)) = Ok out
  <-> exists outs,
        Forall2 (fun s o => formatParameters h cfg (VArr s) = Ok (VArr o))
                sets outs
        /\ out = VArr (map VArr outs).
Proof.
  rewrite formatParameters_array, normal_items_sets.
  split.
  - destruct (mapM _ sets) as [ns|] eqn:En; [|discriminate]. cbn [bind].
    rewrite concat_singletons, process_items_sets.
    destruct (mapM _ ns) as [os|] eqn:Eo; [|discriminate]. cbn [bind].
    intros [= <-]. exists os. split; [|reflexivity].
    apply mapM_Forall2 in En, Eo.
    assert (F : Forall2 (fun s o => exists n,
                  normalizeParams (VArr s) = Ok n
                  /\ processParams h (engine cfg) (VArr n) (formatOptions cfg) 0
                     = Ok o) sets os).
    { apply Forall2_compose. now exists ns. }
    clear -F. induction F as [|s o ss os' H _ IH]; constructor; [|exact IH].
    now apply formatParameters_set.
  - intros (outs & F & ->).
    assert (G : Forall2 (fun s o => exists n,
                  normalizeParams (VArr s) = Ok n
                  /\ processParams h (engine cfg) (VArr n) (formatOptions cfg) 0
                     = Ok o) sets outs).
    { clear -F. induction F as [|s o ss os' H _ IH]; constructor; [|exact IH].
      now apply formatParameters_set. }
    apply (Forall2_compose
             (fun s n => normalizeParams (VArr s) = Ok n)
             (fun n o => processParams h (engine cfg) (VArr n)
                           (formatOptions cfg) 0 = Ok o)) in G.
    destruct G as (ns & G1 & G2).
    apply mapM_Forall2 in G1, G2. rewrite G1. cbn [bind].
    rewrite concat_singletons, process_items_sets, G2. reflexivity.
Qed.

(** ** Dates with milliseconds *)

Lemma pad_three (z : Z) :
  0 <= z <= 999 -> pad (Finite z 0) 3 = Ok (three_digits z).
Proof.
  intros H.
  assert (A : forallb pads_to_three (upto 1000) = true) by (vm_compute; reflexivity).
  rewrite forallb_forall in A. specialize (A z (upto_In 1000 z ltac:(lia))).
  unfold pads_to_three in A. destruct (pad (Finite z 0) 3); [|discriminate].
  apply String.eqb_eq in A. now subst.
Qed.

Lemma read_digits_three (z : Z) (r : string) :
  0 <= z <= 999 -> read_digits 3 0 (three_digits z ++ r) = Some (z, r).
Proof.
  intros H. unfold three_digits. cbn [append].
  rewrite read_digits_digit by (Z.div_mod_to_equations; lia).
  rewrite read_digits_two by (Z.div_mod_to_equations; lia).
  f_equal. f_equal. Z.div_mod_to_equations; lia.
Qed.

Lemma msFromTime_range (t : Z) : 0 <= msFromTime t <= 999.
Proof. unfold msFromTime, msPerSecond. Z.div_mod_to_equations; lia. Qed.

Lemma num_leb_zero (z : Z) :
  0 <= z -> num_leb (num_of_Z z) (num_of_Z 0) = (z =? 0).
Proof.
  intros H. unfold num_leb, num_ltb, num_eqb, num_of_Z, fin_compare.
  change (Z.min 0 0) with 0. change (10 ^ (0 - 0)) with 1.
  rewrite Z.mul_1_r. change (0 * 1) with 0.
  destruct (Z.compare_spec z 0); destruct (Z.eqb_spec z 0); try reflexivity; lia.
Qed.

(** The fields [formatToTimeStamp] prints from a time value. *)
Lemma stamp_of_fields (t : Z) :
  1000 <= YearFromTime t <= 9999 ->
  (fraction <- (if num_leb (num_of_Z (msFromTime t)) (num_of_Z 0) then Ok ""
                else p <- pad (num_of_Z (msFromTime t)) 3 ;; Ok ("." ++ p)) ;;
   mo <- pad (num_add (num_of_Z (MonthFromTime t)) (num_of_Z 1)) 2 ;;
   d <- pad (num_of_Z (DateFromTime t)) 2 ;;
   hh <- pad (num_of_Z (HourFromTime t)) 2 ;;
   mi <- pad (num_of_Z (MinFromTime t)) 2 ;;
   ss <- pad (num_of_Z (SecFromTime t)) 2 ;;
   Ok (Number_toString (num_of_Z (YearFromTime t)) ++ "-" ++ mo ++ "-" ++ d
         ++ " " ++ hh ++ ":" ++ mi ++ ":" ++ ss ++ fraction))%string
  = Ok (utc_stamp t (fraction_text (msFromTime t))).
Proof.
  intros Hy.
  pose proof (MonthFromTime_range t) as Hm.
  pose proof (DateFromTime_two_digits t) as Hd.
  pose proof (time_fields_range t) as (Hh & Hmi & Hs).
  pose proof (msFromTime_range t) as Hms.
  rewrite num_leb_zero by lia. rewrite num_add_Z. unfold num_of_Z.
  rewrite pad_three by lia. rewrite !pad_two by lia.
  rewrite year_four by lia. unfold fraction_text.
  destruct (msFromTime t =? 0); reflexivity.
Qed.

(** Formatting a date whose year, as shown, has four digits. *)
Lemma formatToTimeStamp_stamp (h : host) (tl : value) (t : Z) :
  1000 <= YearFromTime (shown_time h tl t) <= 9999 ->
  formatToTimeStamp h (VDate (Some t)) tl
  = Ok (utc_stamp (shown_time h tl t)
          (fraction_text (msFromTime (shown_time h tl t)))).
Proof.
  unfold shown_time, formatToTimeStamp. intros Hy.
  destruct (truthy tl).
  - unfold getFullYear, getMonth, getDate, getHours, getMinutes, getSeconds,
      getMilliseconds, date_field.
    exact (stamp_of_fields (LocalTime h t) Hy).
  - unfold getUTCFullYear, getUTCMonth, getUTCDate, getUTCHours, getUTCMinutes,
      getUTCSeconds, getUTCMilliseconds, date_field.
    exact (stamp_of_fields t Hy).
Qed.

Lemma MakeDate_of_time_ms (t : Z) :
  MakeDate (Day t)
    (MakeTime (HourFromTime t) (MinFromTime t) (SecFromTime t) (msFromTime t))
  = t.
Proof.
  unfold msFromTime, MakeDate, MakeTime, Day, HourFromTime, MinFromTime,
    SecFromTime, msPerDay, msPerHour, msPerMinute, msPerSecond.
  Z.div_mod_to_equations. lia.
Qed.

Lemma timestamp_re_stamp (t ms : Z) :
  1000 <= YearFromTime t <= 9999 -> 0 <= ms <= 999 ->
  timestamp_re (utc_stamp t (fraction_text ms)) = true.
Proof.
  intros Hy Hms. unfold timestamp_re. rewrite read_ymd_stamp by assumption.
  cbn [read_char is_space]. change (is_space " ") with true. cbn iota.
  rewrite read_hms_clock. unfold fraction_text.
  destruct (ms =? 0); [reflexivity|].
  rewrite read_char_lit.
  change (three_digits ms) with (three_digits ms ++ "")%string.
  rewrite read_digits_three by assumption. reflexivity.
Qed.

(** The text of a date, with the zone marker, is read back as that date. *)
Lemma read_utc_timestamp_fraction (t : Z) :
  1000 <= YearFromTime t <= 9999 ->
  read_utc_timestamp (utc_stamp t (fraction_text (msFromTime t) ++ "Z"))
  = Some t.
Proof.
  intros Hy. unfold fraction_text.
  destruct (Z.eqb_spec (msFromTime t) 0) as [Hz | Hz].
  { now apply read_utc_timestamp_stamp. }
  pose proof (MonthFromTime_range t) as Hm.
  pose proof (DateFromTime_range t) as Hd.
  pose proof (time_fields_range t) as (Hh & Hmi & Hs).
  pose proof (msFromTime_range t) as Hms.
  unfold read_utc_timestamp. rewrite read_ymd_stamp by assumption.
  replace (MonthFromTime t + 1 - 1) with (MonthFromTime t) by lia.
  assert (V : valid_ymd (YearFromTime t) (MonthFromTime t + 1) (DateFromTime t)
              = true).
  { unfold valid_ymd.
    replace (MonthFromTime t + 1 - 1) with (MonthFromTime t) by lia.
    repeat (apply andb_true_intro; split); apply Z.leb_le; lia. }
  rewrite V. rewrite read_char_lit, read_hms_clock.
  assert (W : valid_hms (HourFromTime t) (MinFromTime t) (SecFromTime t) = true).
  { unfold valid_hms.
    repeat (apply andb_true_intro; split); apply Z.leb_le; lia. }
  rewrite W. cbn [append]. rewrite read_char_lit.
  rewrite read_digits_three by assumption.
  rewrite MakeDay_of_time, MakeDate_of_time_ms by assumption. reflexivity.
Qed.

(** The parameter made from a date whose year, as shown, has four digits. *)
Lemma formatParam_date (h : host) (dd : bool) (tl : value) (n : string) (t : Z) :
  1000 <= YearFromTime (shown_time h tl t) <= 9999 ->
  formatParam h (VStr n) (VDate (Some t)) (format_options dd tl)
  = Ok (timestamp_param n
          (utc_stamp (shown_time h tl t)
             (fraction_text (msFromTime (shown_time h tl t))))).
Proof.
  intros Hy. unfold formatParam, formatType.
  change (getType (VDate (Some t))) with (VStr "stringValue").
  change (getTypeHint (VDate (Some t))) with (VStr "TIMESTAMP").
  cbn [is_null is_undefined negb orb truthy String.eqb Ascii.eqb Bool.eqb bind
       ToPropertyKey ToString is_str isDate].
  change (is_str (VStr "stringValue") "isNull") with false. cbv iota.
  assert (L : Ok (format_options dd tl)
              &&& get_prop (format_options dd tl) "treatAsLocalDate" = Ok tl)
    by reflexivity.
  rewrite L. cbn [bind]. rewrite (formatToTimeStamp_stamp h tl t Hy).
  reflexivity.
Qed.

(** X7.  A [Date] argument becomes a [stringValue] parameter with type hint
    [TIMESTAMP], the hint placed between the name and the value.  The text
    is [YYYY-MM-DD HH:MM:SS], followed by [.FFF] exactly when the
    milliseconds are not zero; its fields are the UTC fields of the date,
    or, when [treatAsLocalDate] is truthy, those of the date moved to local
    time.  This holds whenever the year so shown has four digits. *)
Theorem X7_date_parameter (h : host) (e : value) (hydrate dd : bool)
  (tl : value) (n : string) (t : Z) :
  1000 <= YearFromTime (shown_time h tl t) <= 9999 ->
  formatParameters h (config_of e hydrate dd tl) (VObj [(n, VDate (Some t))])
  = Ok (VArr [timestamp_param n
                (utc_stamp (shown_time h tl t)
                   (fraction_text (msFromTime (shown_time h tl t))))]).
Proof.
  intros Hy. rewrite formatParameters_single.
  cbn [config_of formatOptions]. now rewrite formatParam_date.
Qed.

Lemma X7_date_parameter_witness :
  formatParameters node_utc (config_of (VStr "mysql") true true (VBool false))
    (VObj [("at", VDate (Some 1582938123456))])
  = Ok (VArr [timestamp_param "at"
                (utc_stamp (shown_time node_utc (VBool false) 1582938123456)
                   (fraction_text
                      (msFromTime
                         (shown_time node_utc (VBool false) 1582938123456))))]).
Proof.
  apply (X7_date_parameter node_utc (VStr "mysql") true true (VBool false) "at"
           1582938123456).
  vm_compute. split; discriminate.
Defined.

(** The text written for a date is parsed, in UTC mode, as that date. *)
Lemma formatFromTimeStamp_stamp (h : host) (t : Z) :
  1000 <= YearFromTime t <= 9999 ->
  formatFromTimeStamp h (VStr (utc_stamp t (fraction_text (msFromTime t))))
    (VBool false)
  = Ok (VDate (Some t)).
Proof.
  intros Hy. unfold formatFromTimeStamp. cbn [truthy ToString bind].
  rewrite timestamp_re_stamp by (auto using msFromTime_range).
  cbn [Date_new]. rewrite <- utc_stamp_suffix, append_assoc, utc_stamp_suffix.
  unfold Date_parse. now rewrite read_utc_timestamp_fraction.
Qed.

(** X8.  Formatting and parsing with [treatAsLocalDate] false are inverse
    on every date whose UTC year has four digits, milliseconds included:
    the text written for the date is read back as the same instant, on
    every host. *)
Theorem X8_round_trip_with_milliseconds (h : host) (t : Z) :
  1000 <= YearFromTime t <= 9999 ->
  exists s : string,
    formatToTimeStamp h (VDate (Some t)) (VBool false) = Ok s
    /\ s = utc_stamp t (fraction_text (msFromTime t))
    /\ formatFromTimeStamp h (VStr s) (VBool false) = Ok (VDate (Some t)).
Proof.
  intros Hy. exists (utc_stamp t (fraction_text (msFromTime t))).
  split; [exact (formatToTimeStamp_stamp h (VBool false) t Hy)|].
  split; [reflexivity|].
  now apply formatFromTimeStamp_stamp.
Qed.

Lemma X8_round_trip_with_milliseconds_witness :
  exists s : string,
    formatToTimeStamp node_utc (VDate (Some 1582938123456)) (VBool false) = Ok s
    /\ s = utc_stamp 1582938123456 (fraction_text (msFromTime 1582938123456))
    /\ formatFromTimeStamp node_utc (VStr s) (VBool false)
       = Ok (VDate (Some 1582938123456)).
Proof.
  apply (X8_round_trip_with_milliseconds node_utc 1582938123456).
  vm_compute. split; discriminate.
Defined.

(** X9.  An invalid [Date] argument is not reported as an invalid type:
    its fields are [NaN], padding one of them asks [String.repeat] for a
    negative count, and the call ends in a [RangeError], in UTC and in local
    mode alike. *)
Theorem X9_invalid_date_is_a_range_error (h : host) (e : value)
  (hydrate dd : bool) (tl : value) (n : string) :
  formatParameters h (config_of e hydrate dd tl) (VObj [(n, VDate None)])
  = Throw RangeError.
Proof.
  rewrite formatParameters_single.
  unfold formatParam, formatType.
  change (getType (VDate None)) with (VStr "stringValue").
  change (getTypeHint (VDate None)) with (VStr "TIMESTAMP").
  cbn [is_null is_undefined negb orb truthy String.eqb Ascii.eqb Bool.eqb bind
       ToPropertyKey ToString is_str isDate].
  change (is_str (VStr "stringValue") "isNull") with false. cbv iota.
  assert (L : Ok (formatOptions (config_of e hydrate dd tl))
              &&& get_prop (formatOptions (config_of e hydrate dd tl))
                    "treatAsLocalDate" = Ok tl) by reflexivity.
  rewrite L. cbn [bind]. unfold formatToTimeStamp.
  destruct (truthy tl); reflexivity.
Qed.

(** ** Responses *)

(** X10.  [formatResponse] reads five fields of the payload and nothing
    else: two payloads that agree on [columnMetadata],
    [numberOfRecordsUpdated], [records], [generatedFields] and
    [updateResults] get the same response (or the same failure), whatever
    other keys they hold and in whatever order. *)
Theorem X10_only_five_fields_are_read (h : host) (cfg : config)
  (props props' : list (string * value)) :
  (forall k, In k payload_fields -> lookup k props = lookup k props') ->
  formatResponse h cfg (VObj props) = formatResponse h cfg (VObj props').
Proof.
  intros H. unfold formatResponse, formatResults. cbn [get_prop].
  rewrite (H "columnMetadata"%string), (H "numberOfRecordsUpdated"%string),
    (H "records"%string), (H "generatedFields"%string),
    (H "updateResults"%string) by (cbn; tauto).
  reflexivity.
Qed.

Lemma X10_only_five_fields_are_read_witness :
  formatResponse node_utc default_config
    (VObj [("numberOfRecordsUpdated", VNum (Finite 3 0)); ("requestId", VStr "r")])
  = formatResponse node_utc default_config
      (VObj [("numberOfRecordsUpdated", VNum (Finite 3 0))]).
Proof.
  apply (X10_only_five_fields_are_read node_utc default_config).
  intros k Hk. cbn in Hk.
  repeat (destruct Hk as [<- | Hk]; [reflexivity|]). destruct Hk.
Defined.

Lemma update_fold (gs : list (option (list Z))) :
  forall acc : list value,
    foldM (fun acc x =>
             g <- get_prop x "generatedFields" ;;
             c <- has_items g ;;
             o <- (if truthy c then insertId_of g else Ok []) ;;
             Ok (acc ++ [VObj o])%list)
          (map update_entry gs) acc
    = Ok (acc ++ map insert_entry gs).
Proof.
  induction gs as [|g r IH]; intros acc.
  - cbn [map foldM]. now rewrite app_nil_r.
  - cbn [map foldM].
    assert (E : (g0 <- get_prop (update_entry g) "generatedFields" ;;
                 c <- has_items g0 ;;
                 o <- (if truthy c then insertId_of g0 else Ok []) ;;
                 Ok (acc ++ [VObj o])%list)
                = Ok (acc ++ [insert_entry g])).
    { destruct g as [[|id ids]|]; reflexivity. }
    rewrite E. cbn [bind]. rewrite IH, <- app_assoc. reflexivity.
Qed.

(** X11.  The response to a batch: [updateResults] keeps one entry per
    statement, in order; an entry whose [generatedFields] holds keys becomes
    [{ insertId }] with the first of them, and an entry with no keys, or
    with no [generatedFields], becomes the empty object. *)
Theorem X11_batch_update_results (h : host) (cfg : config)
  (gs : list (option (list Z))) :
  formatResponse h cfg (VObj [("updateResults", VArr (map update_entry gs))])
  = Ok (VObj [("updateResults", VArr (map insert_entry gs))]).
Proof.
  unfold formatResponse, formatResults.
  cbn [get_prop lookup String.eqb Ascii.eqb Bool.eqb bind mem_string existsb
       Object_prototype_members orb].
  cbn [truthy is_undefined negb andb bind].
  unfold formatUpdateResults. cbn [array_receiver bind].
  rewrite update_fold. reflexivity.
Qed.




(** ** Rows and metadata of different lengths *)

Lemma foldM_app {A B} (f : B -> A -> result B) (l1 l2 : list A) (acc : B) :
  foldM f (l1 ++ l2) acc = (a <- foldM f l1 acc ;; foldM f l2 a).
Proof.
  revert acc. induction l1 as [|x r IH]; intros acc; [reflexivity|].
  cbn [app foldM]. destruct (f acc x); [|reflexivity]. cbn [bind]. apply IH.
Qed.

Lemma foldMi_from_app {A B} (f : B -> A -> nat -> result B) (l1 l2 : list A) :
  forall (i : nat) (acc : B),
    foldMi_from f i (l1 ++ l2) acc
    = (a <- foldMi_from f i l1 acc ;; foldMi_from f (i + List.length l1) l2 a).
Proof.
  induction l1 as [|x r IH]; intros i acc.
  - cbn [app foldMi_from bind List.length]. now rewrite Nat.add_0_r.
  - cbn [app foldMi_from List.length]. destruct (f acc x i); [|reflexivity].
    cbn [bind]. rewrite IH. now rewrite Nat.add_succ_r.
Qed.

(** X13.  Column metadata with fewer entries than the first row has fields
    cannot be used: building the field map reads the label of a column
    that is not there, and [formatRecords] ends in a [TypeError] whatever
    the fields, the later rows and the options are. *)
Theorem X13_metadata_shorter_than_the_first_row (h : host) (hydrate : bool)
  (fo : value) (metas : list (string * value)) (r rs : list value) :
  (List.length metas < List.length r)%nat ->
  formatRecords h (VArr (VArr r :: rs)) (columns_of metas) hydrate fo
  = Throw TypeError.
Proof.
  intros Hlen. unfold formatRecords, make_fmap.
  cbn [and_also bind truthy get_index nth array_receiver]. unfold foldMi.
  change (foldMi_from _ 0 r [])
    with (foldMi_from (fmap_entry_step (columns_of metas)) 0 r []).
  rewrite <- (firstn_skipn (List.length metas) r) at 1.
  rewrite foldMi_from_app.
  pose proof (make_fmap_fold (firstn (List.length metas) r) metas [] []) as F.
  cbn [app List.length] in F. rewrite F by (rewrite length_firstn; lia).
  clear F. cbn [bind]. rewrite length_firstn.
  replace (0 + Nat.min (List.length metas) (List.length r))%nat
    with (List.length metas) by lia.
  destruct (skipn (List.length metas) r) as [|x r2] eqn:Es.
  { exfalso. apply (f_equal (@List.length value)) in Es.
    rewrite length_skipn in Es. cbn [List.length] in Es. lia. }
  cbn [foldMi_from]. unfold fmap_entry_step at 1.
  cbn [app columns_of truthy get_index].
  rewrite nth_overflow by (rewrite length_map; lia).
  reflexivity.
Qed.

Lemma X13_metadata_shorter_than_the_first_row_witness :
  formatRecords node_utc (VArr [VArr [tagged "longValue" (VNum (Finite 1 0));
                                     tagged "stringValue" (VStr "x")]])
    (columns_of [("id", VStr "INT")]) true (format_options true (VBool false))
  = Throw TypeError.
Proof.
  apply (X13_metadata_shorter_than_the_first_row node_utc true
           (format_options true (VBool false)) [("id", VStr "INT")]).
  cbn. lia.
Defined.

Lemma fmap_of_length (metas : list (string * value)) :
  forall memos : list (option string),
    List.length memos = List.length metas ->
    List.length (fmap_of metas memos) = List.length metas.
Proof.
  induction metas as [|m ms IH]; intros [|memo memos] H; try discriminate;
    [reflexivity|].
  cbn [fmap_of List.length]. rewrite IH; [reflexivity|].
  cbn [List.length] in H. lia.
Qed.

(** The pass over raw rows keeps the field map in step with the metadata. *)
Lemma rows_fold_shape (h : host) (hydrate dd : bool) (tl : value)
  (metas : list (string * value)) :
  (hydrate = true -> NoDup (map fst metas)) ->
  forall (rows : list (list value)) (memos : list (option string))
         (out : list value),
    Forall (fun r => Forall raw_field r
                     /\ List.length r = List.length metas) rows ->
    List.length memos = List.length metas ->
    Forall memo_ok memos ->
    exists (memos' : list (option string)) (out' : list value),
      foldM (record_step h hydrate (format_options dd tl)) (map VArr rows)
        (fmap_of metas memos, out)
      = Ok (fmap_of metas memos', out')
      /\ List.length memos' = List.length metas
      /\ Forall memo_ok memos'.
Proof.
  intros Hnd. induction rows as [|r rs IH]; intros memos out Hrows Hlen Hok.
  - exists memos, out. cbn. auto.
  - inversion Hrows as [|? ? [Hr Hrl] Hrs]; subst.
    assert (Hmr : List.length metas = List.length r) by lia.
    assert (Hor : List.length memos = List.length r) by lia.
    cbn [map foldM]. unfold record_step at 1.
    cbn [array_receiver bind]. unfold foldMi.
    pose proof (row_fold h hydrate dd tl r metas memos [] [] []
                  Hr Hmr Hor Hok eq_refl Hnd) as F.
    cbn [app List.length] in F.
    assert (E : row_value hydrate [] [] = if hydrate then VObj [] else VArr [])
      by (destruct hydrate; reflexivity).
    rewrite E in F. rewrite F; clear F.
    cbn [bind fst snd].
    destruct (row_step_shape h (format_options dd tl) r metas memos
                Hr Hmr Hor Hok) as (L1 & L2 & L3).
    destruct (row_step h (format_options dd tl) metas memos r) as [memos1 vs].
    cbn [fst snd] in *.
    exact (IH memos1 (out ++ [row_value hydrate (map fst metas) vs])
             Hrs ltac:(lia) L3).
Qed.

(** A field beyond the end of the field map: a value cannot be recorded, and
    a null cannot be given a label. *)
Lemma format_field_beyond (h : host) (hydrate : bool) (fo : value)
  (fmap : list fmap_entry) (labels : list string) (vals : list value)
  (f : value) (i : nat) :
  raw_field f ->
  (hydrate = false -> f <> null_field) ->
  (List.length fmap <= i)%nat ->
  format_field h hydrate fo (fmap, row_value hydrate labels vals) f i
  = Throw TypeError.
Proof.
  intros Hf Hnull Hi.
  assert (N : fmap_at fmap i = None) by (now apply nth_error_None).
  destruct Hf as [|tag v Htag Hv].
  - destruct hydrate; [|now destruct Hnull].
    unfold format_field, null_field. cbn [get_prop lookup String.eqb Ascii.eqb
      Bool.eqb bind is_true]. change (("isNull" =? "isNull")%string) with true.
    cbn [bind is_true emit]. unfold fmap_get. now rewrite N.
  - destruct (value_tag_facts tag Htag) as (Hn & He & Hp).
    unfold format_field, tagged. cbn [get_prop lookup]. rewrite Hn.
    change (mem_string "isNull" Object_prototype_members) with false.
    cbn [bind is_true]. rewrite N.
    unfold discover. cbn [Object_keys map fst bind foldM]. rewrite Hn.
    cbn [negb get_prop lookup]. rewrite String.eqb_refl. cbn [bind].
    assert (Hnn : is_null v = false) by (destruct v; try discriminate; reflexivity).
    rewrite Hnn. cbn [negb]. unfold fmap_get. now rewrite N.
Qed.

(** X14.  A row may not be longer than the first row.  When the first rows
    are raw and as long as the metadata, and a later row has, after as many
    raw fields, one more raw field, [formatRecords] ends in a [TypeError] at
    that field: when it holds a value in either mode, and when it is null if
    column names are hydrated.  Rows beyond that one are never looked at. *)
Theorem X14_row_longer_than_the_first (h : host) (hydrate dd : bool)
  (tl : value) (metas : list (string * value))
  (first : list value) (good : list (list value))
  (r : list value) (f : value) (more rest : list value) :
  (hydrate = true -> NoDup (map fst metas)) ->
  Forall (fun r => Forall raw_field r /\ List.length r = List.length metas)
         (first :: good) ->
  Forall raw_field r -> List.length r = List.length metas ->
  raw_field f ->
  (hydrate = false -> f <> null_field) ->
  formatRecords h
    (VArr (map VArr (first :: good) ++ VArr (r ++ f :: more) :: rest))
    (columns_of metas) hydrate (format_options dd tl)
  = Throw TypeError.
Proof.
  intros Hnd Hrows Hr Hrl Hf Hnull.
  unfold formatRecords. cbn [map app].
  inversion Hrows as [|? ? [Hfirst Hfl] Hgood]; subst.
  rewrite make_fmap_rows by assumption. cbn [bind truthy array_receiver].
  assert (Hno : List.length (no_memos metas) = List.length metas)
    by apply length_map.
  assert (Hok : Forall memo_ok (no_memos metas)).
  { unfold no_memos. apply Forall_forall. intros x Hx.
    apply in_map_iff in Hx as (? & <- & _). intros t Ht. discriminate. }
  destruct (rows_fold_shape h hydrate dd tl metas Hnd (first :: good)
              (no_memos metas) [] Hrows Hno Hok) as (memos' & out' & E & L & O).
  change (foldM _ (VArr first :: map VArr good ++ VArr (r ++ f :: more) :: rest)
            (fmap_of metas (no_memos metas), []))
    with (foldM (record_step h hydrate (format_options dd tl))
            (map VArr (first :: good) ++ VArr (r ++ f :: more) :: rest)
            (fmap_of metas (no_memos metas), [])).
  rewrite foldM_app, E. cbn [bind foldM]. unfold record_step at 1.
  cbn [array_receiver bind]. unfold foldMi. rewrite foldMi_from_app.
  pose proof (row_fold h hydrate dd tl r metas memos' [] [] []
                Hr (eq_sym Hrl) ltac:(lia) O eq_refl Hnd) as F.
  cbn [app List.length] in F.
  assert (I : row_value hydrate [] [] = if hydrate then VObj [] else VArr [])
    by (destruct hydrate; reflexivity).
  rewrite I in F. rewrite F; clear F. cbn [bind foldMi_from].
  destruct (row_step_shape h (format_options dd tl) r metas memos'
              Hr (eq_sym Hrl) ltac:(lia) O) as (L1 & L2 & L3).
  rewrite format_field_beyond; [reflexivity | assumption | assumption |].
  rewrite fmap_of_length by lia. cbn [plus]. lia.
Qed.

Lemma X14_row_longer_than_the_first_witness :
  formatRecords node_utc
    (VArr (map VArr [[tagged "longValue" (VNum (Finite 1 0))]]
           ++ VArr ([tagged "longValue" (VNum (Finite 2 0))]
                    ++ tagged "stringValue" (VStr "x") :: []) :: []))
    (columns_of [("id", VStr "INT")]) false (format_options true (VBool false))
  = Throw TypeError.
Proof.
  apply (X14_row_longer_than_the_first node_utc false true (VBool false)
           [("id", VStr "INT")] [tagged "longValue" (VNum (Finite 1 0))] []
           [tagged "longValue" (VNum (Finite 2 0))]
           (tagged "stringValue" (VStr "x")) [] []).
  - discriminate.
  - constructor; [|constructor]. split; [|reflexivity].
    constructor; [|constructor].
    apply (raw_tagged "longValue"); [cbn; tauto | reflexivity].
  - constructor; [|constructor].
    apply (raw_tagged "longValue"); [cbn; tauto | reflexivity].
  - reflexivity.
  - apply (raw_tagged "stringValue"); [cbn; tauto | reflexivity].
  - discriminate.
Defined.

(** ** Result sets without column metadata *)

Lemma formatRecordValue_untyped (h : host) (v tl : value) (dd : bool) :
  formatRecordValue h v VUndefined (format_options dd tl) = Ok v.
Proof.
  unfold formatRecordValue.
  cbn [format_options get_prop lookup String.eqb Ascii.eqb Bool.eqb and_also
       or_else bind truthy].
  destruct dd; reflexivity.
Qed.

Lemma coerced_untyped (h : host) (v tl : value) (dd : bool) :
  coerced h (format_options dd tl) VUndefined v = v.
Proof. unfold coerced. now rewrite formatRecordValue_untyped. Qed.

Lemma emit_unlabelled (hydrate : bool) (vals : list value)
  (pre post : list fmap_entry) (memo : option string) (v : value) :
  memo_ok memo ->
  Array_isArray v = false ->
  emit hydrate (unlabelled_row hydrate vals)
    (pre ++ bare_entry memo :: post) (List.length pre) v
  = Ok (unlabelled_row hydrate (vals ++ [v])).
Proof.
  intros Hm Hv. unfold emit, unlabelled_row, fmap_get.
  destruct hydrate.
  - rewrite fmap_at_middle. cbn [bind].
    assert (L : entry_prop (bare_entry memo) "label" = VUndefined).
    { destruct memo; reflexivity. }
    rewrite L. cbn [ToPropertyKey ToString bind]. rewrite last_last.
    assert (E : match vals ++ [v] with
                | [] => []
                | _ :: _ => [("undefined"%string, v)]
                end = [("undefined"%string, v)]).
    { destruct vals; reflexivity. }
    rewrite E. destruct vals; reflexivity.
  - destruct v; try discriminate; reflexivity.
Qed.

(** The reducer on one raw field, without metadata. *)
Lemma format_field_bare (h : host) (hydrate dd : bool) (tl : value)
  (vals : list value) (pre post : list fmap_entry) (memo : option string)
  (f : value) :
  raw_field f ->
  memo_ok memo ->
  format_field h hydrate (format_options dd tl)
    (pre ++ bare_entry memo :: post, unlabelled_row hydrate vals)
    f (List.length pre)
  = Ok (pre ++ bare_entry
                 (fst (cell_step h (format_options dd tl) VUndefined memo f))
            :: post,
        unlabelled_row hydrate
          (vals ++ [snd (cell_step h (format_options dd tl) VUndefined memo f)])).
Proof.
  intros Hf Hmemo.
  destruct Hf as [| tag v Htag Hv].
  - unfold format_field. cbn [null_field get_prop lookup String.eqb Ascii.eqb
      Bool.eqb bind is_true].
    rewrite emit_unlabelled by auto. cbn [bind].
    unfold cell_step. cbn [null_field is_null_field lookup String.eqb Ascii.eqb
      Bool.eqb fst snd].
    destruct memo; reflexivity.
  - destruct (value_tag_facts tag Htag) as (Hn & He & Hm).
    unfold format_field.
    assert (N : get_prop (tagged tag v) "isNull" = Ok VUndefined).
    { unfold tagged, get_prop. cbn [lookup]. now rewrite Hn. }
    rewrite N. cbn [bind is_true]. rewrite fmap_at_middle.
    assert (Hnull : is_null_field (tagged tag v) = false).
    { unfold is_null_field, tagged. cbn [lookup]. now rewrite Hn. }
    unfold cell_step. rewrite Hnull. cbn [fst snd].
    rewrite coerced_untyped.
    destruct memo as [t|].
    + pose proof (Hmemo t eq_refl) as Ht.
      destruct (value_tag_facts t Ht) as (_ & Het & _).
      cbn [bare_entry entry_prop lookup String.eqb Ascii.eqb Bool.eqb truthy].
      change (("field" =? "field")%string) with true. cbv iota.
      cbn [truthy]. rewrite Het. cbn [negb]. unfold fmap_get.
      rewrite fmap_at_middle.
      cbn [bind bare_entry entry_prop lookup String.eqb Ascii.eqb Bool.eqb
        ToPropertyKey ToString first_tag_from].
      change (("field" =? "field")%string) with true. cbv iota.
      change (("field" =? "typeName")%string) with false. cbv iota.
      cbn [ToPropertyKey ToString bind].
      rewrite get_prop_tagged by assumption. cbn [bind].
      rewrite formatRecordValue_untyped. cbn [bind].
      change [("field", VStr t)] with (bare_entry (Some t)).
      rewrite (emit_unlabelled hydrate vals pre post (Some t)); auto.
      destruct (unwrapped_simple tag (Some t) v Hv) as [S | ->];
        [|reflexivity].
      destruct (unwrapped (Some t) (tagged tag v)); try discriminate; reflexivity.
    + cbn [bare_entry entry_prop lookup truthy].
      unfold discover. cbn [tagged Object_keys map fst bind foldM].
      rewrite Hn. cbn [negb].
      assert (G : get_prop (tagged tag v) tag = Ok v).
      { unfold tagged, get_prop. cbn [lookup]. now rewrite String.eqb_refl. }
      rewrite G. cbn [bind].
      assert (Hnn : is_null v = false) by (destruct v; try discriminate; reflexivity).
      rewrite Hnn. cbn [negb]. unfold fmap_get. rewrite fmap_at_middle.
      cbn [bind]. rewrite fmap_set_field_middle, fmap_at_middle.
      cbn [set_prop bind entry_prop lookup String.eqb Ascii.eqb Bool.eqb].
      change (("field" =? "field")%string) with true. cbv iota.
      change (("field" =? "typeName")%string) with false. cbv iota.
      cbn [ToPropertyKey ToString bind].
      rewrite G. cbn [bind].
      cbn [first_tag_from field_tag tagged]. rewrite Hn.
      cbn [first_tag_from unwrapped lookup tagged]. rewrite String.eqb_refl.
      rewrite formatRecordValue_untyped. cbn [bind].
      change [("field", VStr tag)] with (bare_entry (Some tag)).
      rewrite (emit_unlabelled hydrate vals pre post (Some tag)).
      * reflexivity.
      * intros t [= <-]. exact Htag.
      * destruct v; try discriminate; reflexivity.
Qed.

Lemma row_fold_bare (h : host) (hydrate dd : bool) (tl : value) :
  forall (fields : list value) (memos : list (option string))
         (pre : list fmap_entry) (vals : list value),
    Forall raw_field fields ->
    List.length memos = List.length fields ->
    Forall memo_ok memos ->
    foldMi_from (format_field h hydrate (format_options dd tl))
      (List.length pre) fields
      (pre ++ map bare_entry memos, unlabelled_row hydrate vals)
    = Ok (pre ++ map bare_entry
                   (fst (row_step h (format_options dd tl)
                           (blank_metas (List.length fields)) memos fields)),
          unlabelled_row hydrate
            (vals ++ snd (row_step h (format_options dd tl)
                            (blank_metas (List.length fields)) memos fields))).
Proof.
  induction fields as [|f fs IH]; intros [|memo memos] pre vals Hf Hlen Hok;
    try discriminate.
  - cbn [foldMi_from row_step blank_metas repeat List.length fst snd map].
    now rewrite !app_nil_r.
  - inversion Hf as [|? ? Hf1 Hf2]; subst.
    inversion Hok as [|? ? Hok1 Hok2]; subst.
    cbn [foldMi_from map].
    rewrite (format_field_bare h hydrate dd tl vals pre (map bare_entry memos)
               memo f Hf1 Hok1).
    cbn [bind row_step blank_metas repeat List.length snd].
    destruct (cell_step h (format_options dd tl) VUndefined memo f)
      as [memo' v] eqn:Ec.
    cbn [fst snd].
    change (repeat (""%string, VUndefined) (List.length fs))
      with (blank_metas (List.length fs)).
    destruct (row_step h (format_options dd tl) (blank_metas (List.length fs))
                memos fs) as [rest vs] eqn:Er.
    cbn [fst snd map].
    replace (pre ++ bare_entry memo' :: map bare_entry memos)
      with ((pre ++ [bare_entry memo']) ++ map bare_entry memos)
      by (now rewrite <- app_assoc).
    replace (S (List.length pre)) with (List.length (pre ++ [bare_entry memo']))
      by (rewrite length_app; cbn [List.length]; lia).
    rewrite (IH memos (pre ++ [bare_entry memo']) (vals ++ [v])).
    + rewrite Er. cbn [fst snd]. now rewrite <- !app_assoc.
    + assumption.
    + cbn [List.length] in Hlen. lia.
    + assumption.
Qed.

Lemma blank_metas_length (n : nat) : List.length (blank_metas n) = n.
Proof. apply repeat_length. Qed.

Lemma rows_fold_bare (h : host) (hydrate dd : bool) (tl : value) (n : nat) :
  forall (rows : list (list value)) (memos : list (option string))
         (out : list value),
    Forall (fun r => Forall raw_field r /\ List.length r = n) rows ->
    List.length memos = n ->
    Forall memo_ok memos ->
    exists memos' : list (option string),
      foldM (record_step h hydrate (format_options dd tl)) (map VArr rows)
        (map bare_entry memos, out)
      = Ok (map bare_entry memos',
            out ++ map (unlabelled_row hydrate)
                     (rows_run h (format_options dd tl) (blank_metas n) memos
                        rows)).
Proof.
  induction rows as [|r rs IH]; intros memos out Hrows Hlen Hok.
  - exists memos. cbn. now rewrite app_nil_r.
  - inversion Hrows as [|r' rs' [Hr Hrl] Hrs]; subst r' rs'.
    assert (Hm : List.length memos = List.length r) by lia.
    clear Hlen. subst n. rename Hm into Hlen.
    cbn [map foldM]. unfold record_step at 1.
    cbn [array_receiver bind]. unfold foldMi.
    pose proof (row_fold_bare h hydrate dd tl r memos [] [] Hr Hlen Hok) as F.
    cbn [app List.length] in F.
    assert (E : unlabelled_row hydrate [] = if hydrate then VObj [] else VArr [])
      by (destruct hydrate; reflexivity).
    rewrite E in F. rewrite F; clear F.
    cbn [bind fst snd rows_run].
    destruct (row_step_shape h (format_options dd tl) r
                (blank_metas (List.length r)) memos Hr
                (blank_metas_length _) Hlen Hok) as (L1 & L2 & L3).
    destruct (row_step h (format_options dd tl) (blank_metas (List.length r))
                memos r) as [memos1 vs].
    cbn [fst snd] in *.
    destruct (IH memos1 (out ++ [unlabelled_row hydrate vs]) Hrs L1 L3)
      as (memos' & ->).
    exists memos'. cbn [map]. now rewrite <- app_assoc.
Qed.

Lemma make_fmap_bare_fold (columns : value) (fields : list value) :
  truthy columns = false ->
  forall (i : nat) (acc : list fmap_entry),
    foldMi_from (fmap_entry_step columns) i fields acc
    = Ok (acc ++ map bare_entry (no_memos (blank_metas (List.length fields)))).
Proof.
  intros Hc. induction fields as [|f fs IH]; intros i acc.
  - cbn. now rewrite app_nil_r.
  - cbn [foldMi_from]. unfold fmap_entry_step at 1. rewrite Hc.
    cbn [bind Object_assign fold_left]. rewrite IH.
    cbn [List.length blank_metas repeat no_memos map bare_entry].
    now rewrite <- app_assoc.
Qed.

(** [formatRecords] on raw rows of one length, without column metadata. *)
Lemma formatRecords_bare (h : host) (hydrate dd : bool) (tl columns : value)
  (n : nat) (rows : list (list value)) :
  truthy columns = false ->
  Forall (fun r => Forall raw_field r /\ List.length r = n) rows ->
  formatRecords h (VArr (map VArr rows)) columns hydrate (format_options dd tl)
  = Ok (VArr (map (unlabelled_row hydrate)
                (rows_run h (format_options dd tl) (blank_metas n)
                   (no_memos (blank_metas n)) rows))).
Proof.
  intros Hc Hrows. destruct rows as [|r rs]; [reflexivity|].
  unfold formatRecords, make_fmap. cbn [map].
  inversion Hrows as [|r' rs' [Hr Hrl] Hrs]; subst r' rs' n.
  cbn [and_also bind truthy get_index nth array_receiver]. unfold foldMi.
  change (foldMi_from _ 0 r [])
    with (foldMi_from (fmap_entry_step columns) 0 r []).
  rewrite (make_fmap_bare_fold columns r Hc). cbn [app bind].
  assert (Hno : List.length (no_memos (blank_metas (List.length r)))
                = List.length r).
  { unfold no_memos. now rewrite length_map, blank_metas_length. }
  assert (Hok : Forall memo_ok (no_memos (blank_metas (List.length r)))).
  { unfold no_memos. apply Forall_forall. intros x Hx.
    apply in_map_iff in Hx as (? & <- & _). intros t Ht. discriminate. }
  destruct (rows_fold_bare h hydrate dd tl (List.length r) (r :: rs)
              (no_memos (blank_metas (List.length r))) [] Hrows Hno Hok)
    as (memos' & E).
  cbn [map] in E.
  change (foldM _ (VArr r :: map VArr rs)
            (map bare_entry (no_memos (blank_metas (List.length r))), []))
    with (foldM (record_step h hydrate (format_options dd tl))
            (VArr r :: map VArr rs)
            (map bare_entry (no_memos (blank_metas (List.length r))), [])).
  rewrite E. reflexivity.
Qed.

Lemma rows_run_widths (h : host) (fo : value) (metas : list (string * value)) :
  forall (rows : list (list value)) (memos : list (option string)),
    Forall (fun r => List.length r = List.length metas) rows ->
    List.length memos = List.length metas ->
    Forall (fun o => List.length o = List.length metas)
           (rows_run h fo metas memos rows).
Proof.
  induction rows as [|r rs IH]; intros memos Hrows Hlen; [constructor|].
  inversion Hrows as [|? ? Hr Hrs]; subst. cbn [rows_run].
  destruct (row_step_length h fo r metas memos ltac:(lia) ltac:(lia))
    as (L1 & L2).
  destruct (row_step h fo metas memos r) as [memos1 vs]. cbn [fst snd] in *.
  constructor; [lia|]. apply IH; [assumption | lia].
Qed.

(** X15.  Without column metadata no column has a label.  In positional
    mode the rows are projected as usual.  When column names are hydrated
    (the default), every value of a row is assigned to the one key
    [undefined]: the row that positional mode gives as [[v1, ..., vn]]
    comes out as [{ undefined: vn }], and as [{}] when it has no field;
    nothing fails. *)
Theorem X15_hydration_without_metadata (h : host) (e : value) (dd : bool)
  (tl : value) (n : nat) (rows : list (list value)) :
  Forall (fun r => Forall raw_field r /\ List.length r = n) rows ->
  exists outs : list (list value),
    formatResponse h (config_of e false dd tl)
      (VObj [("records", VArr (map VArr rows))])
    = Ok (VObj [("records", VArr (map VArr outs))])
    /\ formatResponse h (config_of e true dd tl)
         (VObj [("records", VArr (map VArr rows))])
       = Ok (VObj [("records", VArr (map (unlabelled_row true) outs))])
    /\ List.length outs = List.length rows
    /\ Forall (fun o => List.length o = n) outs.
Proof.
  intros Hrows.
  exists (rows_run h (format_options dd tl) (blank_metas n)
            (no_memos (blank_metas n)) rows).
  assert (R : forall hydrate,
            formatResponse h (config_of e hydrate dd tl)
              (VObj [("records", VArr (map VArr rows))])
            = Ok (VObj [("records",
                         VArr (map (unlabelled_row hydrate)
                                 (rows_run h (format_options dd tl)
                                    (blank_metas n) (no_memos (blank_metas n))
                                    rows)))])).
  { intros hydrate. unfold formatResponse, formatResults.
    cbn [get_prop lookup String.eqb Ascii.eqb Bool.eqb bind mem_string existsb
         Object_prototype_members orb config_of hydrateColumnNames
         formatOptions].
    cbn [truthy is_undefined negb andb bind].
    rewrite (formatRecords_bare h hydrate dd tl VUndefined n rows eq_refl Hrows).
    reflexivity. }
  split; [exact (R false)|]. split; [exact (R true)|].
  split; [apply rows_run_length|].
  pose proof (rows_run_widths h (format_options dd tl) (blank_metas n) rows
                (no_memos (blank_metas n))) as W.
  rewrite blank_metas_length in W. apply W.
  - eapply Forall_impl; [|exact Hrows]. intros r [_ Hr]. exact Hr.
  - unfold no_memos. now rewrite length_map, blank_metas_length.
Qed.

Lemma X15_hydration_without_metadata_witness :
  exists outs : list (list value),
    formatResponse node_utc (config_of (VStr "mysql") false true (VBool false))
      (VObj [("records", VArr (map VArr example_rows))])
    = Ok (VObj [("records", VArr (map VArr outs))])
    /\ formatResponse node_utc (config_of (VStr "mysql") true true (VBool false))
         (VObj [("records", VArr (map VArr example_rows))])
       = Ok (VObj [("records", VArr (map (unlabelled_row true) outs))])
    /\ List.length outs = List.length example_rows
    /\ Forall (fun o => List.length o = 2%nat) outs.
Proof.
  apply (X15_hydration_without_metadata node_utc (VStr "mysql") true
           (VBool false) 2 example_rows).
  repeat (constructor; [split; [|reflexivity]|]).
  - constructor; [apply (raw_tagged "longValue"); [cbn; tauto | reflexivity]|].
    constructor; [apply raw_null|constructor].
  - constructor; [apply (raw_tagged "longValue"); [cbn; tauto | reflexivity]|].
    constructor; [apply (raw_tagged "stringValue"); [cbn; tauto | reflexivity]|].
    constructor.
  - constructor.
Defined.

Lemma plain_cases (v : value) :
  plain v = true ->
  v = VNull
  \/ exists tag, getType v = VStr tag /\ In tag value_tags /\ scalar v = true.
Proof.
  destruct v as [| | b | m | s | | | t | bs | l | props]; try discriminate;
    intros H.
  - now left.
  - right. exists "booleanValue"%string. cbn. tauto.
  - right. revert H. unfold plain, getType. cbn [typeof number_reads_as_itself].
    change (("number" =? "string")%string) with false.
    change (("number" =? "boolean")%string) with false. cbv iota.
    destruct (num_eqb (parseInt _) _).
    { exists "longValue"%string. cbn. tauto. }
    destruct (num_eqb (parseFloat _) _).
    { exists "doubleValue"%string. cbn. tauto. }
    discriminate.
  - right. exists "stringValue"%string. cbn. tauto.
Qed.

Lemma wire_field_raw (v : value) : plain v = true -> raw_field (wire_field v).
Proof.
  intros H. destruct (plain_cases v H) as [-> | (tag & E & Ht & Hs)].
  - apply raw_null.
  - unfold wire_field. rewrite E.
    destruct (value_tag_facts tag Ht) as (-> & _). now apply raw_tagged.
Qed.

Lemma formatParam_plain (h : host) (n : string) (v fo : value) :
  plain v = true ->
  formatParam h (VStr n) v fo = Ok (param n (wire_field v)).
Proof.
  intros H. destruct (plain_cases v H) as [-> | (tag & E & Ht & Hs)];
    [reflexivity|].
  destruct (value_tag_facts tag Ht) as (Hn & He & _).
  unfold wire_field, formatParam, formatType. rewrite E, Hn.
  cbn [is_null truthy]. rewrite He. cbn [negb bind ToPropertyKey ToString is_str].
  rewrite Hn.
  destruct v; try discriminate; reflexivity.
Qed.

Lemma cell_step_wire (h : host) (dd : bool) (tl v : value) :
  plain v = true ->
  snd (cell_step h (format_options dd tl) VUndefined None (wire_field v)) = v.
Proof.
  intros H. destruct (plain_cases v H) as [-> | (tag & E & Ht & Hs)];
    [reflexivity|].
  destruct (value_tag_facts tag Ht) as (Hn & He & _).
  unfold wire_field. rewrite E, Hn. unfold cell_step, tagged.
  cbn [is_null_field lookup first_tag_from field_tag snd]. rewrite Hn.
  cbn [unwrapped lookup]. rewrite String.eqb_refl. apply coerced_untyped.
Qed.

Lemma row_step_wire (h : host) (dd : bool) (tl : value) (vs : list value) :
  Forall (fun v => plain v = true) vs ->
  snd (row_step h (format_options dd tl) (blank_metas (List.length vs))
         (no_memos (blank_metas (List.length vs))) (map wire_field vs))
  = vs.
Proof.
  induction 1 as [|v r Hv Hr IH]; [reflexivity|].
  cbn [List.length blank_metas repeat no_memos map row_step snd].
  pose proof (cell_step_wire h dd tl v Hv) as C.
  destruct (cell_step h (format_options dd tl) VUndefined None (wire_field v))
    as [memo' x]. cbn [snd] in C. subst x.
  change (repeat (""%string, VUndefined) (List.length r))
    with (blank_metas (List.length r)).
  change (map (fun _ : string * value => @None string)
            (blank_metas (List.length r)))
    with (no_memos (blank_metas (List.length r))).
  destruct (row_step h (format_options dd tl) (blank_metas (List.length r))
              (no_memos (blank_metas (List.length r))) (map wire_field r))
    as [rest xs]. cbn [snd] in *. now subst xs.
Qed.

Lemma mapM_format_plain (h : host) (fo : value) (props : list (string * value)) :
  Forall (fun kv => plain (snd kv) = true) props ->
  mapM (format_entry h fo) props
  = Ok (map (fun kv => param (fst kv) (wire_field (snd kv))) props).
Proof.
  induction 1 as [|[k v] r Hv Hr IH]; [reflexivity|].
  cbn [mapM map]. unfold format_entry at 1. cbn [fst snd] in *.
  rewrite (formatParam_plain h k v fo Hv). cbn [bind]. now rewrite IH.
Qed.

(** X16.  Plain values survive the trip through the database.  For a
    mapping of strings, booleans, [null]s and numbers a type is inferred
    for, that is not mistaken for a single parameter, the formatter gives
    one [{ name, value }] per entry; and a row made of these [value]s, sent
    back without metadata to a codec in positional mode, is projected to
    the values the mapping held, in order. *)
Theorem X16_plain_values_round_trip (h : host) (e : value) (dd : bool)
  (tl : value) (props : list (string * value)) :
  NoDup (map fst props) ->
  lookup "name" props = None
  \/ (List.length props <> 2%nat /\ List.length props <> 3%nat) ->
  Forall (fun kv => plain (snd kv) = true) props ->
  formatParameters h (config_of e false dd tl) (VObj props)
  = Ok (VArr (map (fun kv => param (fst kv) (wire_field (snd kv))) props))
  /\ formatResponse h (config_of e false dd tl)
       (VObj [("records",
               VArr [VArr (map wire_field (map snd props))])])
     = Ok (VObj [("records", VArr [VArr (map snd props)])]).
Proof.
  intros Hnd Hshape Hplain. split.
  - rewrite formatParameters_object, formatParameters_array.
    cbn [mapM]. rewrite (normal_item_split props Hshape).
    rewrite (splitParams_object props Hnd). cbn [bind List.concat].
    rewrite app_nil_r, process_split_entries.
    now rewrite mapM_format_plain.
  - assert (P : Forall (fun v => plain v = true) (map snd props)).
    { apply Forall_map. exact Hplain. }
    unfold formatResponse, formatResults.
    cbn [get_prop lookup String.eqb Ascii.eqb Bool.eqb bind mem_string existsb
         Object_prototype_members orb config_of hydrateColumnNames
         formatOptions].
    cbn [truthy is_undefined negb andb bind].
    change [VArr (map wire_field (map snd props))]
      with (map VArr [map wire_field (map snd props)]).
    rewrite (formatRecords_bare h false dd tl VUndefined
               (List.length (map snd props))
               [map wire_field (map snd props)] eq_refl).
    + cbn [rows_run map bind]. 
      pose proof (row_step_wire h dd tl (map snd props) P) as S.
      destruct (row_step _ _ _ _ _) as [memos' xs]. cbn [snd] in S.
      subst xs. reflexivity.
    + constructor; [|constructor]. split.
      * apply Forall_map. eapply Forall_impl; [|exact P].
        intros v Hv. now apply wire_field_raw.
      * now rewrite length_map.
Qed.

Lemma X16_plain_values_round_trip_witness :
  formatParameters node_utc (config_of (VStr "mysql") false true (VBool false))
    (VObj [("id", VNum (num_of_Z 7)); ("tag", VStr "a"); ("gone", VNull)])
  = Ok (VArr (map (fun kv => param (fst kv) (wire_field (snd kv)))
                [("id", VNum (num_of_Z 7)); ("tag", VStr "a"); ("gone", VNull)]))
  /\ formatResponse node_utc (config_of (VStr "mysql") false true (VBool false))
       (VObj [("records",
               VArr [VArr (map wire_field
                             (map snd [("id", VNum (num_of_Z 7));
                                       ("tag", VStr "a"); ("gone", VNull)]))])])
     = Ok (VObj [("records",
                  VArr [VArr (map snd [("id", VNum (num_of_Z 7));
                                       ("tag", VStr "a"); ("gone", VNull)])])]).
Proof.
  apply (X16_plain_values_round_trip node_utc (VStr "mysql") true (VBool false)
           [("id", VNum (num_of_Z 7)); ("tag", VStr "a"); ("gone", VNull)]).
  - repeat constructor; cbn; intuition discriminate.
  - left. reflexivity.
  - repeat constructor.
Defined.

(** ** Instantiation *)

Lemma get_prop_plain (props : list (string * value)) (k : string) :
  mem_string k Object_prototype_members = false ->
  get_prop (VObj props) k = Ok (entry_prop props k).
Proof.
  intros H. unfold get_prop, entry_prop. rewrite H.
  destruct (lookup k props); reflexivity.
Qed.

(** X17.  The date options of an instance.  When [formatOptions] is an
    object, date deserialisation is off only if its [deserializeDate] is
    exactly [false] (any other value, or none, leaves it on), and
    [treatAsLocalDate] is taken over as it is, not turned into a boolean;
    when [formatOptions] is left out the options are on and [false]; and
    when it is [null], or when [init] itself is given [null], the call ends
    in a [TypeError]. *)
Theorem X17_init_date_options :
  (forall props fo : list (string * value),
      lookup "formatOptions" props = Some (VObj fo) ->
      exists cfg,
        init (VObj props) = Ok cfg
        /\ formatOptions cfg
           = format_options (negb (is_false (entry_prop fo "deserializeDate")))
               (entry_prop fo "treatAsLocalDate"))
  /\ (forall props : list (string * value),
         lookup "formatOptions" props = None ->
         exists cfg,
           init (VObj props) = Ok cfg
           /\ formatOptions cfg = format_options true (VBool false))
  /\ (forall props : list (string * value),
         lookup "formatOptions" props = Some VNull ->
         init (VObj props) = Throw TypeError)
  /\ init VNull = Throw TypeError.
Proof.
  repeat split.
  - intros props fo H. unfold init. cbn [is_undefined].
    rewrite !get_prop_plain by reflexivity.
    unfold entry_prop at 3. rewrite H. cbn [bind typeof and_also truthy].
    change (("object" =? "object")%string) with true. cbv iota.
    rewrite !get_prop_plain by reflexivity. cbn [bind].
    eexists. split; [reflexivity|]. cbn [formatOptions truthy format_options].
    reflexivity.
  - intros props H. unfold init. cbn [is_undefined].
    rewrite !get_prop_plain by reflexivity.
    unfold entry_prop at 3. rewrite H. cbn [bind typeof and_also truthy].
    change (("undefined" =? "object")%string) with false. cbn [bind truthy].
    eexists. split; reflexivity.
  - intros props H. unfold init. cbn [is_undefined].
    rewrite !get_prop_plain by reflexivity.
    unfold entry_prop at 3. rewrite H. reflexivity.
Qed.

(** ** Every finite number is read back as itself *)

Lemma Number_toString_body (m e : Z) :
  m <> 0 ->
  Number_toString (Finite m e)
  = (sign_text (m <? 0)%Z
     ++ number_body (fst (strip_zeros (digits_of_N (Z.to_N (Z.abs m)))))
          (snd (strip_zeros (digits_of_N (Z.to_N (Z.abs m))))) e)%string.
Proof.
  intros Hm. destruct m as [|p|p]; [contradiction| |];
    unfold Number_toString, number_body;
    destruct (strip_zeros _) as [d z]; reflexivity.
Qed.

Lemma digits_val_acc_app (s1 s2 : string) :
  forall acc : Z,
    digits_val_acc acc (s1 ++ s2) = digits_val_acc (digits_val_acc acc s1) s2.
Proof.
  induction s1 as [|c r IH]; intros acc; [reflexivity|].
  cbn [append digits_val_acc]. apply IH.
Qed.

Lemma digits_val_acc_zeros (n : nat) :
  forall acc : Z, digits_val_acc acc (zeros n) = acc * 10 ^ Z.of_nat n.
Proof.
  induction n as [|n IH]; intros acc.
  - cbn [zeros digits_val_acc]. change (10 ^ Z.of_nat 0) with 1. lia.
  - cbn [zeros digits_val_acc]. rewrite IH.
    change (digit_val "0") with 0.
    rewrite Nat2Z.inj_succ, Z.pow_succ_r by lia. lia.
Qed.

Lemma all_digits_app (s1 s2 : string) :
  all_digits (s1 ++ s2) = all_digits s1 && all_digits s2.
Proof.
  induction s1 as [|c r IH]; [reflexivity|].
  cbn [append all_digits]. rewrite IH. now rewrite andb_assoc.
Qed.

Lemma all_digits_zeros (n : nat) : all_digits (zeros n) = true.
Proof. induction n as [|n IH]; [reflexivity|]. cbn [zeros all_digits]. exact IH. Qed.

Lemma length_zeros (n : nat) : String.length (zeros n) = n.
Proof. induction n as [|n IH]; [reflexivity|]. cbn [zeros String.length]. now rewrite IH. Qed.

Lemma length_append (s1 s2 : string) :
  String.length (s1 ++ s2) = (String.length s1 + String.length s2)%nat.
Proof.
  induction s1 as [|c r IH]; [reflexivity|].
  cbn [append String.length]. now rewrite IH.
Qed.

(** Digits followed by something that does not start with a digit. *)
Lemma span_digits_app (s r : string) :
  all_digits s = true -> span_digits r = (""%string, r) ->
  span_digits (s ++ r) = (s, r).
Proof.
  intros Hs Hr. induction s as [|c s IH]; [exact Hr|].
  cbn [all_digits] in Hs. apply andb_true_iff in Hs as [Hc Hs].
  cbn [append span_digits]. now rewrite Hc, IH.
Qed.

Lemma substring_all (s : string) : substring 0 (String.length s) s = s.
Proof. induction s as [|c r IH]; [reflexivity|]. cbn. now rewrite IH. Qed.

Lemma take_drop (s : string) :
  forall n : nat,
    (n <= String.length s)%nat ->
    (take n s ++ drop n s)%string = s
    /\ String.length (take n s) = n
    /\ String.length (drop n s) = (String.length s - n)%nat
    /\ (all_digits s = true ->
        all_digits (take n s) = true /\ all_digits (drop n s) = true).
Proof.
  unfold take, drop. induction s as [|c r IH]; intros [|n] Hn;
    try (cbn [String.length] in Hn; lia).
  - cbn. auto.
  - cbn [substring String.length Nat.sub append]. rewrite substring_all.
    cbn [String.length]. repeat split; auto.
  - cbn [String.length] in Hn.
    destruct (IH n ltac:(lia)) as (A & B & C & D).
    cbn [substring String.length Nat.sub append].
    rewrite A, B, C. split; [reflexivity|]. split; [reflexivity|].
    split; [reflexivity|].
    intros H. cbn [all_digits] in H. apply andb_true_iff in H as [Hc Hr].
    destruct (D Hr) as [D1 D2]. cbn [all_digits]. now rewrite Hc, D1.
Qed.

Lemma digit_head_facts (c : ascii) :
  is_digit c = true ->
  ("I" =? c)%char = false /\ ("." =? c)%char = false
  /\ read_sign (String c "") = (false, String c "").
Proof.
  destruct c as [b0 b1 b2 b3 b4 b5 b6 b7].
  destruct b0, b1, b2, b3, b4, b5, b6, b7; intros H; try discriminate H;
    repeat split; reflexivity.
Qed.

Lemma all_digits_head (s r : string) :
  all_digits s = true -> s <> ""%string ->
  exists c t, (s ++ r)%string = String c t /\ is_digit c = true.
Proof.
  destruct s as [|c s]; intros H Hne; [contradiction|].
  cbn [all_digits] in H. apply andb_true_iff in H as [Hc _].
  exists c, (s ++ r)%string. split; [reflexivity | exact Hc].
Qed.

(** The sign and what follows it, when that starts with a digit. *)
Lemma read_signed (neg : bool) (c : ascii) (t : string) :
  is_digit c = true ->
  read_sign (trim_left (sign_text neg ++ String c t)) = (neg, String c t)
  /\ starts_with "Infinity" (String c t) = false.
Proof.
  intros Hc. destruct (digit_char_facts c Hc) as (Hs & Hm & Hp & _).
  destruct (digit_head_facts c Hc) as (HI & _ & Hr).
  split.
  - destruct neg; cbn [sign_text append]; [reflexivity|].
    cbn [trim_left]. rewrite Hs.
    destruct c as [b0 b1 b2 b3 b4 b5 b6 b7].
    destruct b0, b1, b2, b3, b4, b5, b6, b7; try discriminate Hm;
      try discriminate Hp; reflexivity.
  - cbn [starts_with]. now rewrite HI.
Qed.

Lemma span_exponent_or_end (rest : string) :
  exponent_or_end rest -> span_digits rest = (""%string, rest).
Proof. intros [-> | (x & ->)]; reflexivity. Qed.

Lemma append_nil_r (s : string) : (s ++ "")%string = s.
Proof. induction s as [|c r IH]; [reflexivity|]. cbn [append]. now rewrite IH. Qed.

Lemma nonempty_eqb (s : string) : s <> ""%string -> (s =? "")%string = false.
Proof. intros H. now apply String.eqb_neq. Qed.

(** [parseFloat] on digits, then nothing or an exponent. *)
Lemma parseFloat_int (neg : bool) (ip rest : string) :
  all_digits ip = true -> ip <> ""%string -> exponent_or_end rest ->
  parseFloat (sign_text neg ++ ip ++ rest)
  = Finite (signed neg (digits_val ip)) (read_exponent rest).
Proof.
  intros Hip Hne Hrest.
  destruct (all_digits_head ip rest Hip Hne) as (c & t & E & Hc).
  destruct (read_signed neg c t Hc) as [R I].
  unfold parseFloat. rewrite E, R, I, <- E.
  rewrite (span_digits_app ip rest Hip (span_exponent_or_end rest Hrest)).
  assert (M : match rest with
              | String "." r => span_digits r
              | _ => (""%string, rest)
              end = (""%string, rest)).
  { destruct Hrest as [-> | (x & ->)]; reflexivity. }
  rewrite M.
  assert (A : match rest with
              | String "." _ =>
                  if ((ip =? "") && ("" =? ""))%string then rest else rest
              | _ => rest
              end = rest).
  { destruct Hrest as [-> | (x & ->)]; reflexivity. }
  rewrite A, (nonempty_eqb ip Hne). cbn [andb String.length].
  rewrite append_nil_r. unfold signed. f_equal. cbn. lia.
Qed.

(** [parseFloat] on digits, a point, digits, then nothing or an
    exponent. *)
Lemma parseFloat_frac (neg : bool) (ip fp rest : string) :
  all_digits ip = true -> ip <> ""%string -> all_digits fp = true ->
  exponent_or_end rest ->
  parseFloat (sign_text neg ++ ip ++ String "." (fp ++ rest))
  = Finite (signed neg (digits_val (ip ++ fp)))
      (read_exponent rest - Z.of_nat (String.length fp)).
Proof.
  intros Hip Hne Hfp Hrest.
  destruct (all_digits_head ip (String "." (fp ++ rest)) Hip Hne)
    as (c & t & E & Hc).
  destruct (read_signed neg c t Hc) as [R I].
  unfold parseFloat. rewrite E, R, I, <- E.
  rewrite (span_digits_app ip (String "." (fp ++ rest)) Hip eq_refl).
  rewrite (span_digits_app fp rest Hfp (span_exponent_or_end rest Hrest)).
  rewrite (nonempty_eqb ip Hne). cbn [andb]. reflexivity.
Qed.

Lemma read_exponent_text (ex : Z) :
  ex <> 0 ->
  read_exponent
    (String "e" ((if ex <? 0 then "-" else "+")
                 ++ digits_of_N (Z.to_N (Z.abs ex))))
  = ex.
Proof.
  intros Hex.
  assert (Hn : Z.to_N (Z.abs ex) <> 0%N) by lia.
  destruct (digits_of_N_spec _ Hn) as (Hd & Hne & Hv & _).
  set (D := digits_of_N (Z.to_N (Z.abs ex))) in *.
  assert (S : span_digits D = (D, ""%string)) by now apply span_all_digits.
  destruct (Z.ltb_spec ex 0).
  - cbn [read_exponent append read_sign]. rewrite S.
    destruct D; [contradiction|]. rewrite Hv. lia.
  - cbn [read_exponent append read_sign]. rewrite S.
    destruct D; [contradiction|]. rewrite Hv. lia.
Qed.

(** Two ways to write [dv * 10^z * 10^e]. *)
Lemma num_eqb_scaled (neg : bool) (dv : Z) (z : nat) (e m' e' : Z) :
  (m' = dv /\ e' = e + Z.of_nat z)
  \/ (m' = dv * 10 ^ (e + Z.of_nat z) /\ e' = 0 /\ 0 <= e + Z.of_nat z) ->
  num_eqb (Finite (signed neg m') e')
          (Finite (signed neg (dv * 10 ^ Z.of_nat z)) e) = true.
Proof.
  intros H. unfold num_eqb, fin_compare.
  assert (G : signed neg m' * 10 ^ (e' - Z.min e' e)
              = signed neg (dv * 10 ^ Z.of_nat z) * 10 ^ (e - Z.min e' e)).
  { assert (S : forall a b, signed neg a * b = signed neg (a * b))
      by (intros a b; unfold signed; destruct neg; lia).
    rewrite !S. f_equal.
    destruct H as [[-> ->] | (-> & -> & Hp)].
    - replace (Z.min (e + Z.of_nat z) e) with e by lia.
      replace (e + Z.of_nat z - e) with (Z.of_nat z) by lia.
      rewrite Z.sub_diag. change (10 ^ 0) with 1. lia.
    - destruct (Z.le_ge_cases 0 e) as [He | He].
      + replace (Z.min 0 e) with 0 by lia.
        rewrite Z.sub_diag, Z.sub_0_r. change (10 ^ 0) with 1.
        rewrite Z.pow_add_r by lia. lia.
      + replace (Z.min 0 e) with e by lia.
        rewrite Z.sub_diag. change (10 ^ 0) with 1.
        rewrite <- Z.mul_assoc, <- Z.pow_add_r by lia.
        replace (e + Z.of_nat z + (0 - e)) with (Z.of_nat z) by lia. lia. }
  rewrite G. now rewrite Z.compare_refl.
Qed.

(** The exponent form of a number is read back as the number. *)
Lemma parseFloat_exponent_form (neg : bool) (d : string) (z : nat) (e : Z) :
  all_digits d = true -> d <> ""%string ->
  Z.of_nat (String.length d) + (e + Z.of_nat z) - 1 <> 0 ->
  num_eqb
    (parseFloat
       (sign_text neg
        ++ (if Z.of_nat (String.length d) =? 1 then d
            else take 1 d ++ "." ++ drop 1 d)
        ++ "e"
        ++ (if Z.of_nat (String.length d) + (e + Z.of_nat z) - 1 <? 0
            then "-" else "+")
        ++ digits_of_N
             (Z.to_N (Z.abs (Z.of_nat (String.length d)
                             + (e + Z.of_nat z) - 1)))))
    (Finite (signed neg (digits_val d * 10 ^ Z.of_nat z)) e) = true.
Proof.
  intros Hd Hne Hex.
  assert (Hk : (1 <= String.length d)%nat)
    by (destruct d; [contradiction|cbn; lia]).
  destruct (Z.eqb_spec (Z.of_nat (String.length d)) 1) as [K1 | K1].
  - cbn [append]. rewrite parseFloat_int; [| assumption | assumption
      | right; eexists; reflexivity].
    rewrite read_exponent_text by assumption.
    apply num_eqb_scaled. left. split; [reflexivity | lia].
  - destruct (take_drop d 1 Hk) as (A & B & C & D).
    destruct (D Hd) as [D1 D2].
    rewrite !append_assoc. cbn [append].
    rewrite parseFloat_frac; [| assumption
      | intros E; rewrite E in B; discriminate | assumption
      | right; eexists; reflexivity].
    rewrite read_exponent_text by assumption. rewrite A, C.
    apply num_eqb_scaled. left. split; [reflexivity | lia].
Qed.

(** The text of a number is read back as the number. *)
Lemma parseFloat_body (neg : bool) (d : string) (z : nat) (e : Z) :
  all_digits d = true -> d <> ""%string ->
  num_eqb (parseFloat (sign_text neg ++ number_body d z e))
          (Finite (signed neg (digits_val d * 10 ^ Z.of_nat z)) e) = true.
Proof.
  intros Hd Hne.
  assert (Hk : (1 <= String.length d)%nat)
    by (destruct d; [contradiction|cbn; lia]).
  pose proof (parseFloat_exponent_form neg d z e Hd Hne) as X.
  unfold number_body. cbv zeta.
  set (k := Z.of_nat (String.length d)) in *.
  set (n := k + (e + Z.of_nat z)) in *.
  assert (Hkk : k = Z.of_nat (String.length d)) by reflexivity.
  assert (Hnn : n = k + (e + Z.of_nat z)) by reflexivity.
  clearbody k n.
  destruct (Z.leb_spec k n) as [H1 | H1];
    [destruct (Z.leb_spec n 21) as [H2 | H2]|]; cbn [andb].
  - (* digits, then zeros *)
    rewrite <- (append_nil_r (d ++ zeros (Z.to_nat (n - k)))).
    rewrite parseFloat_int;
      [| rewrite all_digits_app, Hd, all_digits_zeros; reflexivity
       | destruct d; [contradiction | discriminate]
       | now left].
    apply num_eqb_scaled. right.
    unfold digits_val. rewrite digits_val_acc_app, digits_val_acc_zeros.
    replace (Z.of_nat (Z.to_nat (n - k))) with (e + Z.of_nat z) by lia.
    split; [reflexivity|]. split; [reflexivity | lia].
  - (* more than 21 digits before the point *)
    rewrite andb_false_r.
    replace ((-6 <? n) && (n <=? 0)) with false
      by (symmetry; apply andb_false_iff; right; apply Z.leb_gt; lia).
    apply X. lia.
  - destruct (Z.ltb_spec 0 n) as [H3 | H3];
      [destruct (Z.leb_spec n 21) as [H4 | H4]|]; cbn [andb].
    + (* a point inside the digits *)
      destruct (take_drop d (Z.to_nat n) ltac:(lia)) as (A & B & C & D).
      destruct (D Hd) as [D1 D2].
      cbn [append].
      rewrite <- (append_nil_r (drop (Z.to_nat n) d)).
      rewrite parseFloat_frac; [| assumption
        | intros E; rewrite E in B; cbn in B; lia | assumption | now left].
      rewrite A, C. cbn [read_exponent].
      apply num_eqb_scaled. left. split; [reflexivity | lia].
    + replace ((-6 <? n) && (n <=? 0)) with false
        by (symmetry; apply andb_false_iff; right; apply Z.leb_gt; lia).
      apply X. lia.
    + destruct (Z.ltb_spec (-6) n) as [H5 | H5];
        [destruct (Z.leb_spec n 0) as [H6 | H6]|]; cbn [andb]; try lia.
      * (* zeros after the point, then the digits *)
        change ("0." ++ zeros (Z.to_nat (- n)) ++ d)%string
          with ("0" ++ String "." (zeros (Z.to_nat (- n)) ++ d))%string.
        rewrite <- (append_nil_r (zeros (Z.to_nat (- n)) ++ d)).
        rewrite parseFloat_frac; [| reflexivity | discriminate
          | rewrite all_digits_app, all_digits_zeros, Hd; reflexivity
          | now left].
        cbn [read_exponent]. rewrite length_append, length_zeros.
        apply num_eqb_scaled. left. split; [|lia].
        unfold digits_val. cbn [append digits_val_acc].
        rewrite digits_val_acc_app, digits_val_acc_zeros.
        change (digit_val "0") with 0. reflexivity.
      * apply X. lia.
Qed.

(** [parseFloat(String(x)) === x] for every finite number. *)
Lemma finite_reads_as_itself (m e : Z) :
  num_eqb (parseFloat (Number_toString (Finite m e))) (Finite m e) = true.
Proof.
  destruct (Z.eq_dec m 0) as [-> | Hm].
  { change (Number_toString (Finite 0 e)) with "0"%string.
    change (parseFloat "0") with (Finite 0 0).
    unfold num_eqb, fin_compare. now rewrite !Z.mul_0_l. }
  assert (Hn : Z.to_N (Z.abs m) <> 0%N) by lia.
  destruct (digits_of_N_spec _ Hn) as (Hd & Hne & Hv & _).
  destruct (strip_zeros_spec (digits_of_N (Z.to_N (Z.abs m)))) as [S1 _].
  rewrite Number_toString_body by assumption.
  destruct (strip_zeros (digits_of_N (Z.to_N (Z.abs m)))) as [d z].
  cbn [fst snd] in *.
  assert (V : digits_val d * 10 ^ Z.of_nat z = Z.abs m).
  { rewrite <- S1 in Hv. unfold digits_val in *.
    rewrite digits_val_acc_app, digits_val_acc_zeros in Hv. lia. }
  assert (Ad : all_digits d = true).
  { rewrite <- S1, all_digits_app in Hd. now apply andb_true_iff in Hd. }
  assert (Nd : d <> ""%string).
  { intros ->. unfold digits_val in V. cbn [digits_val_acc] in V. lia. }
  pose proof (parseFloat_body (m <? 0) d z e Ad Nd) as P.
  rewrite V in P.
  replace (signed (m <? 0) (Z.abs m)) with m in P
    by (unfold signed; destruct (Z.ltb_spec m 0); lia).
  exact P.
Qed.

Lemma getType_finite (m e : Z) :
  getType (VNum (Finite m e)) = VStr (number_tag (Finite m e)).
Proof.
  unfold getType, number_tag. cbn [typeof number_reads_as_itself].
  change (("number" =? "string")%string) with false.
  change (("number" =? "boolean")%string) with false. cbv iota.
  rewrite finite_reads_as_itself.
  destruct (num_eqb (parseInt _) _); reflexivity.
Qed.

(** X18.  [NaN] is the only number the formatter rejects.  Every finite
    number is read back by [parseFloat] from its own text, so a type is
    always inferred for it: passed as the sole entry of a mapping, a number
    comes out under [longValue] when [parseInt] reads its text back as the
    number, and under [doubleValue] otherwise, the infinities included;
    [NaN] gives the invalid type error. *)
Theorem X18_only_NaN_is_rejected (h : host) (cfg : config) (n : string)
  (x : number) :
  formatParameters h cfg (VObj [(n, VNum x)])
  = match x with
    | NaN => Throw (invalid_type n)
    | _ => Ok (VArr [param n (tagged (number_tag x) (VNum x))])
    end.
Proof.
  rewrite formatParameters_single.
  destruct x as [|neg|m e].
  - reflexivity.
  - destruct neg; reflexivity.
  - assert (T : number_tag (Finite m e) = "longValue"%string
                \/ number_tag (Finite m e) = "doubleValue"%string).
    { unfold number_tag. destruct (num_eqb _ _); auto. }
    rewrite (formatParam_number h n (Finite m e) (formatOptions cfg)
               (number_tag (Finite m e)) (getType_finite m e));
      [reflexivity | |]; destruct T as [-> | ->]; discriminate.
Qed.

(** ** Which numbers are integers to [parseInt] *)

Lemma digit_val_range (c : ascii) :
  is_digit c = true ->
  0 <= digit_val c <= 9 /\ ((c =? "0")%char = false -> 1 <= digit_val c).
Proof.
  destruct c as [b0 b1 b2 b3 b4 b5 b6 b7].
  destruct b0, b1, b2, b3, b4, b5, b6, b7; intros H; try discriminate H;
    (split; [vm_compute; split; discriminate
            | intros E; try discriminate E; vm_compute; discriminate]).
Qed.

(** The value of a run of digits is below the power of ten of its length. *)
Lemma digits_val_acc_bound (s : string) :
  all_digits s = true ->
  forall acc : Z,
    acc * 10 ^ Z.of_nat (String.length s) <= digits_val_acc acc s
    /\ digits_val_acc acc s < (acc + 1) * 10 ^ Z.of_nat (String.length s).
Proof.
  induction s as [|c r IH]; intros H acc.
  - cbn [digits_val_acc String.length]. change (10 ^ Z.of_nat 0) with 1. lia.
  - cbn [all_digits] in H. apply andb_true_iff in H as [Hc Hr].
    destruct (digit_val_range c Hc) as [Hv _].
    cbn [digits_val_acc String.length].
    destruct (IH Hr (10 * acc + digit_val c)) as [L U].
    rewrite Nat2Z.inj_succ, Z.pow_succ_r by lia.
    assert (0 < 10 ^ Z.of_nat (String.length r)) by (apply Z.pow_pos_nonneg; lia).
    split; nia.
Qed.

(** The digits left by [strip_zeros] do not end in a zero. *)
Lemma strip_zeros_last (s : string) :
  all_digits s = true ->
  forall acc : Z,
    fst (strip_zeros s) <> ""%string ->
    (digits_val_acc acc (fst (strip_zeros s))) mod 10 <> 0.
Proof.
  induction s as [|c r IH]; intros H acc Hne; [now destruct Hne|].
  cbn [all_digits] in H. apply andb_true_iff in H as [Hc Hr].
  cbn [strip_zeros] in *. destruct (strip_zeros r) as [r' k].
  cbn [fst] in IH.
  destruct (String.eqb_spec r' "") as [-> | Hr'].
  - destruct (Ascii.eqb_spec c "0") as [-> | Hc0]; cbn [andb fst] in *.
    + now destruct Hne.
    + cbn [digits_val_acc].
      destruct (digit_val_range c Hc) as [Hv H1].
      assert (E : (c =? "0")%char = false) by now apply Ascii.eqb_neq.
      specialize (H1 E). Z.div_mod_to_equations. lia.
  - cbn [andb fst digits_val_acc] in *. apply (IH Hr). exact Hr'.
Qed.

Lemma stop_facts (rest : string) :
  point_exponent_or_end rest ->
  span_digits rest = (""%string, rest)
  /\ starts_with "x" rest = false /\ starts_with "X" rest = false.
Proof. intros [-> | (x & [-> | ->])]; repeat split; reflexivity. Qed.

Lemma no_hex_prefix_app (ip rest : string) :
  all_digits ip = true -> ip <> ""%string -> point_exponent_or_end rest ->
  starts_with "0x" (ip ++ rest) || starts_with "0X" (ip ++ rest) = false.
Proof.
  intros Hip Hne Hrest. destruct (stop_facts rest Hrest) as (_ & Hx & HX).
  destruct ip as [|c [|c2 r]]; [contradiction| |].
  - cbn [append]. cbn [starts_with] in *.
    destruct rest as [|a t]; [now rewrite !andb_false_r|].
    cbn [starts_with] in Hx, HX. rewrite andb_true_r in Hx, HX.
    rewrite Hx, HX. cbn [andb]. now rewrite !andb_false_r.
  - cbn [all_digits] in Hip. apply andb_true_iff in Hip as [_ H].
    apply andb_true_iff in H as [H _].
    destruct (digit_char_facts c2 H) as (_ & _ & _ & Hx2 & HX2).
    cbn [append starts_with]. rewrite Hx2, HX2. cbn [andb].
    now rewrite !andb_false_r.
Qed.

(** [parseInt] on digits, then nothing, a point or an exponent. *)
Lemma parseInt_int (neg : bool) (ip rest : string) :
  all_digits ip = true -> ip <> ""%string -> point_exponent_or_end rest ->
  parseInt (sign_text neg ++ ip ++ rest)
  = Finite (signed neg (digits_val ip)) 0.
Proof.
  intros Hip Hne Hrest.
  destruct (all_digits_head ip rest Hip Hne) as (c & t & E & Hc).
  destruct (read_signed neg c t Hc) as [R _].
  destruct (stop_facts rest Hrest) as (Hs & _).
  unfold parseInt. rewrite E, R, <- E.
  rewrite (no_hex_prefix_app ip rest Hip Hne Hrest).
  rewrite (span_digits_app ip rest Hip Hs).
  destruct ip; [contradiction | reflexivity].
Qed.

Lemma signed_mul (neg : bool) (a b : Z) : signed neg a * b = signed neg (a * b).
Proof. unfold signed. destruct neg; lia. Qed.

Lemma signed_inj (neg : bool) (a b : Z) : signed neg a = signed neg b -> a = b.
Proof. unfold signed. destruct neg; lia. Qed.

Lemma num_eqb_false (neg : bool) (a b e : Z) :
  a * 10 ^ (0 - Z.min 0 e) <> b * 10 ^ (e - Z.min 0 e) ->
  num_eqb (Finite (signed neg a) 0) (Finite (signed neg b) e) = false.
Proof.
  intros H. unfold num_eqb, fin_compare. rewrite !signed_mul.
  destruct (Z.compare_spec (signed neg (a * 10 ^ (0 - Z.min 0 e)))
                           (signed neg (b * 10 ^ (e - Z.min 0 e))))
    as [E | E | E]; try reflexivity.
  apply signed_inj in E. contradiction.
Qed.

Lemma pow10_pos (a : Z) : 0 <= a -> 0 < 10 ^ a.
Proof. intros H. apply Z.pow_pos_nonneg; lia. Qed.

Lemma pow10_le (a b : Z) : 0 <= a <= b -> 10 ^ a <= 10 ^ b.
Proof. intros H. apply Z.pow_le_mono_r; lia. Qed.

Lemma pow10_lt (a b : Z) : 0 <= a < b -> 10 ^ a < 10 ^ b.
Proof. intros H. apply Z.pow_lt_mono_r; lia. Qed.

(** A number written with a point inside its digits is not an integer. *)
Lemma fraction_not_integer (a dv e : Z) (z : nat) :
  dv mod 10 <> 0 -> e + Z.of_nat z < 0 ->
  a * 10 ^ (0 - Z.min 0 e) <> dv * 10 ^ Z.of_nat z * 10 ^ (e - Z.min 0 e).
Proof.
  intros Hmod Hlt E.
  replace (Z.min 0 e) with e in E by lia.
  rewrite Z.sub_diag in E. change (10 ^ 0) with 1 in E.
  replace (0 - e) with (1 + (- e - Z.of_nat z - 1) + Z.of_nat z) in E by lia.
  rewrite !Z.pow_add_r in E by lia.
  pose proof (pow10_pos (Z.of_nat z) ltac:(lia)) as Pz.
  assert (F : dv = 10 * (a * 10 ^ (- e - Z.of_nat z - 1))).
  { change (10 ^ 1) with 10 in E. nia. }
  apply Hmod. rewrite F, Z.mul_comm. apply Z_mod_mult.
Qed.

(** A number written in exponent form is not a one-digit integer. *)
Lemma exponent_not_integer (a dv e k : Z) (z : nat) :
  0 <= a < 10 -> 1 <= k -> 10 ^ (k - 1) <= dv < 10 ^ k ->
  21 < k + (e + Z.of_nat z) \/ k + (e + Z.of_nat z) <= -6 ->
  a * 10 ^ (0 - Z.min 0 e) <> dv * 10 ^ Z.of_nat z * 10 ^ (e - Z.min 0 e).
Proof.
  intros Ha Hk Hdv Hn E.
  pose proof (pow10_pos (Z.of_nat z) ltac:(lia)) as Pz.
  pose proof (pow10_pos (k - 1) ltac:(lia)) as Pk.
  destruct (Z.le_ge_cases 0 e) as [He | He].
  - (* the number is at least 10^21 *)
    replace (Z.min 0 e) with 0 in E by lia.
    rewrite !Z.sub_0_r in E. change (10 ^ 0) with 1 in E.
    destruct Hn as [Hn | Hn]; [|lia].
    assert (L : 10 ^ 21 <= dv * 10 ^ Z.of_nat z * 10 ^ e).
    { apply Z.le_trans with (10 ^ (k - 1) * 10 ^ Z.of_nat z * 10 ^ e).
      - rewrite <- !Z.pow_add_r by lia. apply pow10_le. lia.
      - pose proof (pow10_pos e He). nia. }
    change (10 ^ 21) with 1000000000000000000000 in L. lia.
  - replace (Z.min 0 e) with e in E by lia.
    rewrite Z.sub_diag in E. change (10 ^ 0) with 1 in E.
    rewrite Z.mul_1_r in E.
    pose proof (pow10_pos (0 - e) ltac:(lia)) as Pe.
    destruct Hn as [Hn | Hn].
    + (* more digits than the exponent takes away *)
      assert (L : 10 ^ (1 + (0 - e)) <= dv * 10 ^ Z.of_nat z).
      { apply Z.le_trans with (10 ^ (k - 1) * 10 ^ Z.of_nat z).
        - rewrite <- Z.pow_add_r by lia. apply pow10_le. lia.
        - nia. }
      rewrite Z.pow_add_r in L by lia. change (10 ^ 1) with 10 in L. nia.
    + (* below one *)
      assert (U : dv * 10 ^ Z.of_nat z < 10 ^ (0 - e)).
      { apply Z.lt_le_trans with (10 ^ k * 10 ^ Z.of_nat z).
        - nia.
        - rewrite <- Z.pow_add_r by lia. apply pow10_le. lia. }
      assert (a = 0) by nia. subst a. nia.
Qed.

Lemma digits_val_bound (s : string) :
  all_digits s = true ->
  0 <= digits_val s < 10 ^ Z.of_nat (String.length s).
Proof.
  intros H. destruct (digits_val_acc_bound s H 0) as [L U].
  unfold digits_val. lia.
Qed.

(** [parseInt] reads the text of a number back as the number exactly when
    the text is all digits. *)
Lemma parseInt_body (neg : bool) (d : string) (z : nat) (e : Z) :
  all_digits d = true -> d <> ""%string ->
  digits_val d mod 10 <> 0 ->
  10 ^ (Z.of_nat (String.length d) - 1) <= digits_val d ->
  num_eqb (parseInt (sign_text neg ++ number_body d z e))
          (Finite (signed neg (digits_val d * 10 ^ Z.of_nat z)) e)
  = (Z.of_nat (String.length d)
       <=? Z.of_nat (String.length d) + (e + Z.of_nat z))
    && (Z.of_nat (String.length d) + (e + Z.of_nat z) <=? 21).
Proof.
  intros Hd Hne Hmod Hlow.
  assert (Hk : (1 <= String.length d)%nat)
    by (destruct d; [contradiction|cbn; lia]).
  pose proof (digits_val_bound d Hd) as Hup.
  assert (X : 21 < Z.of_nat (String.length d) + (e + Z.of_nat z)
              \/ Z.of_nat (String.length d) + (e + Z.of_nat z) <= -6 ->
              forall rest : string,
                num_eqb
                  (parseInt
                     (sign_text neg
                      ++ (if Z.of_nat (String.length d) =? 1 then d
                          else take 1 d ++ "." ++ drop 1 d)
                      ++ "e" ++ rest))
                  (Finite (signed neg (digits_val d * 10 ^ Z.of_nat z)) e)
                = false).
  { intros Hn rest.
    destruct (Z.eqb_spec (Z.of_nat (String.length d)) 1) as [K1 | K1].
    - cbn [append]. rewrite parseInt_int; [| assumption | assumption
        | right; eexists; right; reflexivity].
      apply num_eqb_false.
      apply (exponent_not_integer _ _ e (Z.of_nat (String.length d)) z);
        try lia.
      rewrite K1 in Hup. change (10 ^ 1) with 10 in Hup. lia.
    - destruct (take_drop d 1 Hk) as (A & B & C & D).
      destruct (D Hd) as [D1 D2].
      rewrite !append_assoc. cbn [append].
      rewrite parseInt_int; [| assumption
        | intros E; rewrite E in B; discriminate
        | right; eexists; left; reflexivity].
      apply num_eqb_false.
      apply (exponent_not_integer _ _ e (Z.of_nat (String.length d)) z);
        try lia.
      pose proof (digits_val_bound _ D1) as U1. rewrite B in U1.
      change (10 ^ Z.of_nat 1) with 10 in U1. lia. }
  unfold number_body. cbv zeta.
  set (k := Z.of_nat (String.length d)) in *.
  set (n := k + (e + Z.of_nat z)) in *.
  assert (Hnn : n = k + (e + Z.of_nat z)) by reflexivity.
  clearbody n.
  destruct (Z.leb_spec k n) as [H1 | H1];
    [destruct (Z.leb_spec n 21) as [H2 | H2]|]; cbn [andb].
  - (* digits, then zeros *)
    rewrite <- (append_nil_r (d ++ zeros (Z.to_nat (n - k)))).
    rewrite parseInt_int;
      [| rewrite all_digits_app, Hd, all_digits_zeros; reflexivity
       | destruct d; [contradiction | discriminate]
       | now left].
    apply num_eqb_scaled. right.
    unfold digits_val. rewrite digits_val_acc_app, digits_val_acc_zeros.
    replace (Z.of_nat (Z.to_nat (n - k))) with (e + Z.of_nat z) by lia.
    split; [reflexivity|]. split; [reflexivity | lia].
  - rewrite andb_false_r.
    replace ((-6 <? n) && (n <=? 0)) with false
      by (symmetry; apply andb_false_iff; right; apply Z.leb_gt; lia).
    apply X. lia.
  - destruct (Z.ltb_spec 0 n) as [H3 | H3];
      [destruct (Z.leb_spec n 21) as [H4 | H4]|]; cbn [andb].
    + (* a point inside the digits *)
      destruct (take_drop d (Z.to_nat n) ltac:(lia)) as (A & B & C & D).
      destruct (D Hd) as [D1 D2].
      cbn [append].
      rewrite parseInt_int; [| assumption
        | intros E; rewrite E in B; cbn in B; lia
        | right; eexists; left; reflexivity].
      apply num_eqb_false. apply fraction_not_integer; [assumption | lia].
    + replace ((-6 <? n) && (n <=? 0)) with false
        by (symmetry; apply andb_false_iff; right; apply Z.leb_gt; lia).
      apply X. lia.
    + destruct (Z.ltb_spec (-6) n) as [H5 | H5];
        [destruct (Z.leb_spec n 0) as [H6 | H6]|]; cbn [andb]; try lia.
      * (* zeros after the point, then the digits *)
        change ("0." ++ zeros (Z.to_nat (- n)) ++ d)%string
          with ("0" ++ String "." (zeros (Z.to_nat (- n)) ++ d))%string.
        rewrite parseInt_int; [| reflexivity | discriminate
          | right; eexists; left; reflexivity].
        apply num_eqb_false. apply fraction_not_integer; [assumption | lia].
      * apply X. lia.
Qed.

Lemma num_eqb_true_inv (i m e : Z) :
  num_eqb (Finite i 0) (Finite m e) = true ->
  i * 10 ^ (0 - Z.min 0 e) = m * 10 ^ (e - Z.min 0 e).
Proof.
  unfold num_eqb, fin_compare.
  destruct (Z.compare_spec (i * 10 ^ (0 - Z.min 0 e))
                           (m * 10 ^ (e - Z.min 0 e))); try discriminate.
  auto.
Qed.

(** A number is an integer of magnitude below [10^21] exactly when all of
    its text is digits. *)
Lemma integer_below_10_21 (neg : bool) (dv e k : Z) (z : nat) :
  dv mod 10 <> 0 -> 1 <= k -> 10 ^ (k - 1) <= dv < 10 ^ k ->
  (exists i : Z,
      Z.abs i < 10 ^ 21
      /\ num_eqb (Finite i 0) (Finite (signed neg (dv * 10 ^ Z.of_nat z)) e)
         = true)
  <-> k <= k + (e + Z.of_nat z) <= 21.
Proof.
  intros Hmod Hk Hdv.
  pose proof (pow10_pos (Z.of_nat z) ltac:(lia)) as Pz.
  pose proof (pow10_pos (k - 1) ltac:(lia)) as Pk.
  split.
  - intros (i & Hi & E). apply num_eqb_true_inv in E.
    assert (A : Z.abs i * 10 ^ (0 - Z.min 0 e)
                = dv * 10 ^ Z.of_nat z * 10 ^ (e - Z.min 0 e)).
    { pose proof (pow10_pos (0 - Z.min 0 e) ltac:(lia)) as P1.
      pose proof (pow10_pos (e - Z.min 0 e) ltac:(lia)) as P2.
      rewrite signed_mul in E.
      assert (WP : 0 < dv * 10 ^ Z.of_nat z * 10 ^ (e - Z.min 0 e))
        by (apply Z.mul_pos_pos; [apply Z.mul_pos_pos|]; lia).
      set (R := dv * 10 ^ Z.of_nat z * 10 ^ (e - Z.min 0 e)) in *.
      set (P := 10 ^ (0 - Z.min 0 e)) in *.
      unfold signed in E.
      destruct neg; destruct (Z.abs_spec i) as [[? ->] | [? ->]]; nia. }
    clear E.
    destruct (Z.lt_ge_cases (e + Z.of_nat z) 0) as [Hneg | Hpos].
    { exfalso. revert A. now apply fraction_not_integer. }
    split; [lia|].
    destruct (Z.le_gt_cases (k + (e + Z.of_nat z)) 21) as [|Hbig];
      [assumption|exfalso].
    change (10 ^ 21) with (10 ^ (21 + 0)) in Hi.
    destruct (Z.le_ge_cases 0 e) as [He | He].
    + replace (Z.min 0 e) with 0 in A by lia.
      rewrite !Z.sub_0_r in A. change (10 ^ 0) with 1 in A.
      assert (L : 10 ^ (21 + 0) <= dv * 10 ^ Z.of_nat z * 10 ^ e).
      { apply Z.le_trans with (10 ^ (k - 1) * 10 ^ Z.of_nat z * 10 ^ e).
        - rewrite <- !Z.pow_add_r by lia. apply pow10_le. lia.
        - pose proof (pow10_pos e He). nia. }
      lia.
    + replace (Z.min 0 e) with e in A by lia.
      rewrite Z.sub_diag in A. change (10 ^ 0) with 1 in A.
      rewrite Z.mul_1_r in A.
      pose proof (pow10_pos (0 - e) ltac:(lia)) as Pe.
      assert (L : 10 ^ (21 + 0) * 10 ^ (0 - e) <= dv * 10 ^ Z.of_nat z).
      { apply Z.le_trans with (10 ^ (k - 1) * 10 ^ Z.of_nat z).
        - rewrite <- !Z.pow_add_r by lia. apply pow10_le. lia.
        - nia. }
      nia.
  - intros [H1 H2].
    exists (signed neg (dv * 10 ^ (e + Z.of_nat z))). split.
    + assert (U : dv * 10 ^ (e + Z.of_nat z) < 10 ^ 21).
      { pose proof (pow10_pos (e + Z.of_nat z) ltac:(lia)) as P.
        apply Z.lt_le_trans with (10 ^ k * 10 ^ (e + Z.of_nat z)).
        - nia.
        - rewrite <- Z.pow_add_r by lia. apply pow10_le. lia. }
      pose proof (pow10_pos (e + Z.of_nat z) ltac:(lia)) as P.
      unfold signed. destruct neg; nia.
    + apply num_eqb_scaled. right. split; [reflexivity|].
      split; [reflexivity | lia].
Qed.

(** X19.  A finite number goes out as [longValue] exactly when it is an
    integer of magnitude below [10^21], whatever way it is written; every
    other finite number goes out as [doubleValue].  (From [10^21] on the
    text of a number has an exponent, which [parseInt] does not read.) *)
Theorem X19_long_exactly_for_integers (m e : Z) :
  (getType (VNum (Finite m e)) = VStr "longValue"
   <-> exists i : Z,
         Z.abs i < 10 ^ 21 /\ num_eqb (Finite i 0) (Finite m e) = true)
  /\ (getType (VNum (Finite m e)) = VStr "longValue"
      \/ getType (VNum (Finite m e)) = VStr "doubleValue").
Proof.
  rewrite getType_finite. unfold number_tag.
  split; [|destruct (num_eqb _ _); auto].
  destruct (Z.eq_dec m 0) as [-> | Hm].
  { change (Number_toString (Finite 0 e)) with "0"%string.
    change (parseInt "0") with (Finite 0 0).
    assert (E : num_eqb (Finite 0 0) (Finite 0 e) = true).
    { unfold num_eqb, fin_compare. now rewrite !Z.mul_0_l. }
    rewrite E. split; [|reflexivity].
    intros _. exists 0. split; [reflexivity | exact E]. }
  assert (Hn : Z.to_N (Z.abs m) <> 0%N) by lia.
  destruct (digits_of_N_spec _ Hn) as (Hd & Hne & Hv & Hlow).
  destruct (strip_zeros_spec (digits_of_N (Z.to_N (Z.abs m)))) as [S1 S2].
  pose proof (strip_zeros_last _ Hd 0) as Hlast.
  rewrite Number_toString_body by assumption.
  destruct (strip_zeros (digits_of_N (Z.to_N (Z.abs m)))) as [d z].
  cbn [fst snd] in *.
  assert (V : digits_val d * 10 ^ Z.of_nat z = Z.abs m).
  { rewrite <- S1 in Hv. unfold digits_val in *.
    rewrite digits_val_acc_app, digits_val_acc_zeros in Hv. lia. }
  assert (Ad : all_digits d = true).
  { rewrite <- S1, all_digits_app in Hd. now apply andb_true_iff in Hd. }
  assert (Nd : d <> ""%string).
  { intros ->. unfold digits_val in V. cbn [digits_val_acc] in V. lia. }
  assert (Hk : (1 <= String.length d)%nat)
    by (destruct d; [contradiction|cbn; lia]).
  pose proof (digits_val_bound d Ad) as Hup.
  pose proof (pow10_pos (Z.of_nat z) ltac:(lia)) as Pz.
  assert (Lo : 10 ^ (Z.of_nat (String.length d) - 1) <= digits_val d).
  { rewrite <- S2, Nat2Z.inj_add in Hlow.
    replace (Z.of_nat (String.length d) + Z.of_nat z - 1)
      with ((Z.of_nat (String.length d) - 1) + Z.of_nat z) in Hlow by lia.
    rewrite Z.pow_add_r in Hlow by lia.
    rewrite Z2N.id in Hlow by lia. nia. }
  assert (Sm : m = signed (m <? 0) (digits_val d * 10 ^ Z.of_nat z)).
  { rewrite V. unfold signed. destruct (Z.ltb_spec m 0); lia. }
  pose proof (parseInt_body (m <? 0) d z e Ad Nd (Hlast Nd) Lo) as P.
  pose proof (integer_below_10_21 (m <? 0) (digits_val d) e
                (Z.of_nat (String.length d)) z (Hlast Nd) ltac:(lia)
                (conj Lo (proj2 Hup))) as I.
  rewrite <- Sm in P, I. rewrite P, I.
  destruct (Z.leb_spec (Z.of_nat (String.length d))
              (Z.of_nat (String.length d) + (e + Z.of_nat z)));
    destruct (Z.leb_spec (Z.of_nat (String.length d) + (e + Z.of_nat z)) 21);
    cbn [andb]; split; intros H1; try discriminate H1; try reflexivity; lia.
Qed.
